(** * Hirelytic: the retrieval-and-response pipeline of the HR assistant

    A shallow embedding of [hr_assistant.py], [ask_query.py],
    [faiss_store.py], [llama_inference.py] and the queries of
    [database.py] they rely on, with the properties of the pipeline
    proved (or refuted) over it; and, around the pipeline, of what
    feeds it and what calls it: [extract_text_from_pdf],
    [summarize_cv], the wrapper of [embed_model.py], [delete_cv] and
    the [/query] endpoint of [main.py].

    Conventions of the embedding.
    - A Python [str] is a [string]; its characters are read as the code
      points 0..255, and the character classes below ([str.lower],
      [str.isspace], the regex classes [\d] and [\w]) are Python's own
      on that range.
    - A Python [int] is a [Z].
    - A cosine similarity is a finite float: it is modelled by the
      rational it denotes, a [Q], compared with [Qle_bool].
    - A function that may raise returns a [result]; a function that
      talks to the database or to the Ollama server threads a [world].
    - An [await] is a call: one query is one sequential run.  What is
      printed is left out.
    - The embedding model, [sklearn]'s cosine, Python's [str()] of a
      composite value and the class of [response.json()]'s error are
      collaborators: the pipeline is defined over any of them.  So are
      [json.loads] for the summarizer and [pdfplumber] for the text of
      a PDF. *)

From Stdlib Require Import ZArith List Bool Ascii String Lia QArith.
From Stdlib Require Import DecimalString Sorted Permutation.
Import ListNotations.

Local Open Scope string_scope.
Local Open Scope Z_scope.

(* ================================================================= *)
(** ** Python text primitives *)

Module PyStr.

Definition code (c : ascii) : N := N_of_ascii c.

Definition in_range (lo hi : N) (c : ascii) : bool :=
  ((lo <=? code c) && (code c <=? hi))%N.

(** [re]'s [\d] on a [str] pattern: the decimal digits. *)
Definition is_digit (c : ascii) : bool := in_range 48 57 c.

(** [str.isalpha] on one character. *)
Definition is_alpha (c : ascii) : bool :=
  in_range 65 90 c || in_range 97 122 c
  || (code c =? 170)%N || (code c =? 181)%N || (code c =? 186)%N
  || in_range 192 214 c || in_range 216 246 c || in_range 248 255 c.

(** Superscript digits and vulgar fractions: numeric, not decimal. *)
Definition is_other_numeric (c : ascii) : bool :=
  (code c =? 178)%N || (code c =? 179)%N || (code c =? 185)%N
  || in_range 188 190 c.

(** [re]'s [\w]: alphanumeric or underscore. *)
Definition is_word (c : ascii) : bool :=
  is_alpha c || is_digit c || is_other_numeric c || (code c =? 95)%N.

(** [str.isspace] on one character. *)
Definition is_space (c : ascii) : bool :=
  in_range 9 13 c || in_range 28 32 c
  || (code c =? 133)%N || (code c =? 160)%N.

Definition is_upper (c : ascii) : bool :=
  in_range 65 90 c || in_range 192 214 c || in_range 216 222 c.

Definition lower_char (c : ascii) : ascii :=
  if is_upper c then ascii_of_N (code c + 32) else c.

(** [s.lower()] *)
Fixpoint lower (s : string) : string :=
  match s with
  | EmptyString => EmptyString
  | String c r => String (lower_char c) (lower r)
  end.

Fixpoint lstrip (s : string) : string :=
  match s with
  | String c r => if is_space c then lstrip r else s
  | EmptyString => EmptyString
  end.

(** Drops trailing white space: a character is kept when something
    that is kept follows it, or when it is not white space. *)
Fixpoint rstrip (s : string) : string :=
  match s with
  | EmptyString => EmptyString
  | String c r =>
      match rstrip r with
      | EmptyString => if is_space c then EmptyString else String c EmptyString
      | kept => String c kept
      end
  end.

(** [s.strip()] *)
Definition strip (s : string) : string := rstrip (lstrip s).

(** Truthiness of a [str]. *)
Definition truthy (s : string) : bool :=
  match s with EmptyString => false | _ => true end.

(** Empty, or white space only. *)
Fixpoint all_space (s : string) : bool :=
  match s with
  | EmptyString => true
  | String c r => is_space c && all_space r
  end.

(** [needle in hay] *)
Fixpoint contains (needle hay : string) : bool :=
  String.prefix needle hay
  || match hay with
     | EmptyString => false
     | String _ r => contains needle r
     end.

(** [any(w in s for w in words)] *)
Definition any_in (words : list string) (s : string) : bool :=
  existsb (fun w => contains w s) words.

(** [s.startswith(p)] *)
Definition startswith (p s : string) : bool := String.prefix p s.

Definition head (s : string) : option ascii :=
  match s with EmptyString => None | String c _ => Some c end.

Fixpoint last (s : string) : option ascii :=
  match s with
  | EmptyString => None
  | String c EmptyString => Some c
  | String _ r => last r
  end.

Fixpoint all_digits (s : string) : bool :=
  match s with
  | EmptyString => true
  | String c r => is_digit c && all_digits r
  end.

Definition digit_value (c : ascii) : Z := Z.of_N (code c) - 48.

Fixpoint int_acc (acc : Z) (s : string) : Z :=
  match s with
  | EmptyString => acc
  | String c r => int_acc (10 * acc + digit_value c) r
  end.

(** The longest string of digits that [int()] converts, by default
    ([sys.int_info.default_max_str_digits]). *)
Definition int_max_str_digits : nat := 4300.

(** The number that a string of decimal digits denotes: [int(s)] for
    a string of at most [int_max_str_digits] digits.  On a longer one
    Python's [int] raises [ValueError], which this function does not
    tell; what is proved of a result count is stated for digit runs
    within the limit. *)
Definition int (s : string) : Z := int_acc 0 s.

(** [str(n)] for an [int]. *)
Definition of_int (n : Z) : string := NilZero.string_of_int (Z.to_int n).

(** [s[:n]] for a constant [n >= 0]. *)
Fixpoint take (n : nat) (s : string) : string :=
  match n, s with
  | S n', String c r => String c (take n' r)
  | _, _ => EmptyString
  end.

(** [sep.join(parts)] *)
Definition join (sep : string) (parts : list string) : string :=
  String.concat sep parts.

(** The lowest index at which [needle] starts in [hay]. *)
Fixpoint find_index (needle hay : string) : option nat :=
  if String.prefix needle hay then Some 0%nat
  else match hay with
       | EmptyString => None
       | String _ r => option_map S (find_index needle r)
       end.

(** The highest index at which [needle] starts in [hay]. *)
Fixpoint rfind_index (needle hay : string) : option nat :=
  match
    match hay with
    | EmptyString => None
    | String _ r => option_map S (rfind_index needle r)
    end
  with
  | Some i => Some i
  | None => if String.prefix needle hay then Some 0%nat else None
  end.

Definition index_or_minus_one (i : option nat) : Z :=
  match i with Some n => Z.of_nat n | None => -1 end.

(** [hay.find(needle)] *)
Definition find (needle hay : string) : Z :=
  index_or_minus_one (find_index needle hay).

(** [hay.rfind(needle)] *)
Definition rfind (needle hay : string) : Z :=
  index_or_minus_one (rfind_index needle hay).

(** An index of a slice, as Python adjusts it: a negative one counts
    from the end, and the result is clipped to [0..len]. *)
Definition slice_index (len i : Z) : Z :=
  Z.max 0 (Z.min len (if i <? 0 then len + i else i)).

(** [s[start:stop]] *)
Definition slice (start stop : Z) (s : string) : string :=
  let len := Z.of_nat (String.length s) in
  let a := slice_index len start in
  let b := slice_index len stop in
  String.substring (Z.to_nat a) (Z.to_nat (b - a)) s.

End PyStr.

(* ================================================================= *)
(** ** The two regular expressions of the result-count heuristic *)

Module Re.
Import PyStr.

Definition word_opt (c : option ascii) : bool :=
  match c with Some c => is_word c | None => false end.

(** [\b] between the character before the position and the character
    at it: exactly one of the two is a word character; the ends of the
    string count as non-word. *)
Definition at_boundary (prev next : option ascii) : bool :=
  xorb (word_opt prev) (word_opt next).

(** [\d+\b] at a position, [\d+] greedy with backtracking: after one
    digit, first try to take more, and only then try [\b] here.
    Returns the text matched by [\d+]. *)
Fixpoint digits_then_boundary (s : string) : option string :=
  match s with
  | EmptyString => None
  | String c r =>
      if is_digit c then
        match digits_then_boundary r with
        | Some g => Some (String c g)
        | None =>
            if at_boundary (Some c) (head r)
            then Some (String c EmptyString) else None
        end
      else None
  end.

(** [\d+] at a position, greedy, nothing after it. *)
Fixpoint digits_greedy (s : string) : option string :=
  match s with
  | EmptyString => None
  | String c r =>
      if is_digit c then
        match digits_greedy r with
        | Some g => Some (String c g)
        | None => Some (String c EmptyString)
        end
      else None
  end.

(** [re.search]: the leftmost position where [\b] holds and the rest
    of the pattern, [tail], matches; [prev] is the character before
    the current position. *)
Fixpoint search_from (tail : string -> option string)
         (prev : option ascii) (s : string) : option string :=
  match (if at_boundary prev (head s) then tail s else None) with
  | Some g => Some g
  | None =>
      match s with
      | EmptyString => None
      | String c r => search_from tail (Some c) r
      end
  end.

(** [re.search(r'\b(\d+)\b', s)], giving [match.group(1)]. *)
Definition search_b_digits_b (s : string) : option string :=
  search_from digits_then_boundary None s.

(** [re.search(r'\b(\d+)', s)], giving [match.group(1)]. *)
Definition search_b_digits (s : string) : option string :=
  search_from digits_greedy None s.

End Re.

(* ================================================================= *)
(** ** Intent classifier ([hr_assistant.py], [ask_query.py]) *)

Definition search_keywords : list string :=
  [ "find"; "show"; "get"; "best"; "top"; "candidates"; "profiles";
    "cvs"; "resumes"; "engineers"; "developers"; "skills"; "experience";
    "python"; "java"; "mechanical"; "electrical"; "software"; "who" ].

(** [HRAssistant.is_cv_search_query] *)
Definition is_cv_search_query (query : string) : bool :=
  let query_lower := PyStr.lower query in
  PyStr.any_in search_keywords query_lower.

Definition context_indicators : list string :=
  [ "that"; "this"; "them"; "those"; "previous"; "earlier"; "before";
    "also"; "too"; "more"; "another"; "what about"; "how about" ].

(** [HRAssistant.needs_context] *)
Definition needs_context (query : string) : bool :=
  let query_lower := PyStr.lower query in
  PyStr.any_in context_indicators query_lower.

(** [HRAssistant.extract_cv_count], when it returns: on a digit run of
    more than 4300 characters the [int()] of the source raises
    [ValueError] (see [PyStr.int]). *)
Definition extract_cv_count (query : string) : Z :=
  let query_lower := PyStr.lower query in
  match Re.search_b_digits_b query_lower with
  | Some g => Z.min (PyStr.int g) 10
  | None =>
      if PyStr.any_in ["all"; "every"] query_lower then 5
      else if PyStr.any_in ["one"; "single"; "best"; "top"] query_lower then 3
      else 4
  end.

(** [ask_query.extract_cv_count_from_query], when it returns (see
    [extract_cv_count]). *)
Definition extract_cv_count_from_query (user_query : string) : Z :=
  let query_lower := PyStr.lower user_query in
  match Re.search_b_digits query_lower with
  | Some g => Z.min (PyStr.int g) 10
  | None =>
      if PyStr.any_in ["all"; "every"] query_lower then 10
      else if PyStr.any_in ["best"; "summary"] query_lower then 5
      else if PyStr.any_in ["one"; "top"; "single"; "specific"] query_lower then 1
      else 3
  end.


(* ================================================================= *)
(** ** Integer literals in a query, for stating the result-count rule *)

Module Literal.
Import PyStr.

Definition digit_opt (c : option ascii) : bool :=
  match c with Some c => is_digit c | None => false end.

(** The text contains the integer literal [n]: a run of decimal digits,
    not part of a longer one, that reads [n]. *)
Definition has_literal (q : string) (n : Z) : Prop :=
  exists pre ds post,
    q = pre ++ ds ++ post
    /\ ds <> "" /\ all_digits ds = true
    /\ digit_opt (last pre) = false /\ digit_opt (head post) = false
    /\ int ds = n.

(** After the digits comes no word character: the closing [\b]. *)
Definition stop_word (c : option ascii) : bool := negb (Re.word_opt c).

(** After the digits comes no digit: [\d+] took them all. *)
Definition stop_digit (c : option ascii) : bool := negb (digit_opt c).

(** A run of digits [ds] between [pre] and [post] that a pattern can
    match: no word character stands before it, and what follows it is
    accepted by [stop]. *)
Definition run_at (stop : option ascii -> bool) (pre ds post : string) : Prop :=
  ds <> "" /\ all_digits ds = true
  /\ Re.word_opt (last pre) = false /\ stop (head post) = true.

(** [ds] is the first such run of [q]. *)
Definition first_run (stop : option ascii -> bool) (q pre ds post : string) : Prop :=
  q = pre ++ ds ++ post
  /\ run_at stop pre ds post
  /\ forall p1 ds' p2,
       q = p1 ++ ds' ++ p2 -> run_at stop p1 ds' p2 ->
       (String.length pre <= String.length p1)%nat.

Fixpoint digit_free (s : string) : bool :=
  match s with
  | EmptyString => true
  | String c r => negb (is_digit c) && digit_free r
  end.

End Literal.

(* ================================================================= *)
(** ** Exceptions and results *)

Inductive exn : Type :=
| TypeError
| AttributeError
| KeyError
| ValueError
| RequestsTimeout (msg : string)   (* requests.Timeout *)
| RequestException (msg : string)  (* any other requests.RequestException *)
| JSONDecodeError (msg : string)   (* raised by response.json() *)
| StoreError (msg : string).       (* the database is unreachable *)

Inductive result (A : Type) : Type :=
| Ok (a : A)
| Raise (e : exn).
Arguments Ok {A} a.
Arguments Raise {A} e.

Definition rbind {A B : Type} (r : result A) (k : A -> result B) : result B :=
  match r with
  | Ok a => k a
  | Raise e => Raise e
  end.

Declare Scope result_scope.
Delimit Scope result_scope with result.
Notation "'let?' x ':=' r 'in' k" := (rbind r (fun x => k))
  (at level 10, x pattern, r at level 100, k at level 200) : result_scope.
Local Open Scope result_scope.

(** A [for] loop whose body may raise, collecting into a list. *)
Fixpoint rmap {A B : Type} (f : A -> result B) (l : list A) : result (list B) :=
  match l with
  | [] => Ok []
  | x :: r =>
      let? y := f x in
      let? ys := rmap f r in
      Ok (y :: ys)
  end.

(** [str(e)] *)
Definition str_of_exn (e : exn) : string :=
  match e with
  | RequestsTimeout m | RequestException m | JSONDecodeError m | StoreError m => m
  | TypeError | AttributeError | KeyError | ValueError => ""
  end.

(* ================================================================= *)
(** ** JSON-like values, as [json.loads] builds them *)

#[warnings="-register-all"]
Inductive json : Type :=
| JNull
| JBool (b : bool)
| JInt (n : Z)
| JFloat (q : Q)
| JStr (s : string)
| JList (l : list json)
| JDict (items : list (string * json)).

Module Py.

(** Truthiness of a value. *)
Definition truthy (v : json) : bool :=
  match v with
  | JNull => false
  | JBool b => b
  | JInt n => negb (n =? 0)
  | JFloat q => negb (Qnum q =? 0)
  | JStr s => PyStr.truthy s
  | JList l => match l with [] => false | _ => true end
  | JDict d => match d with [] => false | _ => true end
  end.

(** Lookup in the items of a dict. *)
Fixpoint lookup (key : string) (items : list (string * json)) : option json :=
  match items with
  | [] => None
  | (k, v) :: r => if String.eqb k key then Some v else lookup key r
  end.

(** [d.get(key, default)] on the items of a dict. *)
Definition get_or (default : json) (key : string)
           (items : list (string * json)) : json :=
  match lookup key items with Some v => v | None => default end.

(** [d.get(key)] *)
Definition get (key : string) (items : list (string * json)) : json :=
  get_or JNull key items.

(** [v.get(key, default)]: only a dict has [get]. *)
Definition get_attr (default : json) (key : string) (v : json) : result json :=
  match v with
  | JDict d => Ok (get_or default key d)
  | _ => Raise AttributeError
  end.

(** [d[key]] on the items of a dict. *)
Definition getitem (key : string) (items : list (string * json)) : result json :=
  match lookup key items with Some v => Ok v | None => Raise KeyError end.

(** The elements that [for x in v[:n]] visits.  A list gives its first
    [n] elements and a string its first [n] characters; a dict cannot
    be sliced (the slice is looked up as a key: [TypeError], and a
    [KeyError] from Python 3.12 on), and nothing else is
    subscriptable. *)
Definition slice_items (n : nat) (v : json) : result (list json) :=
  match v with
  | JList l => Ok (firstn n l)
  | JStr s =>
      Ok (map (fun c => JStr (String c EmptyString))
              (list_ascii_of_string (PyStr.take n s)))
  | _ => Raise TypeError
  end.

Definition as_str (v : json) : result string :=
  match v with
  | JStr s => Ok s
  | _ => Raise TypeError
  end.

(** [sep.join(items)]: every item must be a [str]. *)
Definition join (sep : string) (items : list json) : result string :=
  let? parts := rmap as_str items in
  Ok (PyStr.join sep parts).

Definition is_dict (v : json) : bool :=
  match v with JDict _ => true | _ => false end.

Definition is_list (v : json) : bool :=
  match v with JList _ => true | _ => false end.

End Py.

(* ================================================================= *)
(** ** Lists the way Python slices and sorts them *)

Module PyList.

(** [l[:k]] *)
Definition slice_to {A : Type} (k : Z) (l : list A) : list A :=
  if 0 <=? k then firstn (Z.to_nat k) l
  else firstn (Z.to_nat (Z.of_nat (List.length l) + k)) l.

(** [l[i:]] *)
Definition slice_from {A : Type} (i : Z) (l : list A) : list A :=
  if 0 <=? i then skipn (Z.to_nat i) l
  else skipn (Z.to_nat (Z.of_nat (List.length l) + i)) l.

(** [l.sort(key=..., reverse=True)]: descending and stable.  [geb x y]
    says that the key of [x] is at least the key of [y]; an element
    goes before the first one that it is at least as large as, so
    equal keys keep their original order. *)
Fixpoint insert_desc {A : Type} (geb : A -> A -> bool) (x : A) (l : list A)
  : list A :=
  match l with
  | [] => [x]
  | y :: r => if geb x y then x :: y :: r else y :: insert_desc geb x r
  end.

Fixpoint sort_desc {A : Type} (geb : A -> A -> bool) (l : list A) : list A :=
  match l with
  | [] => []
  | x :: r => insert_desc geb x (sort_desc geb r)
  end.

Definition truthy {A : Type} (l : list A) : bool :=
  match l with [] => false | _ => true end.

End PyList.

(* ================================================================= *)
(** ** The store ([database.py]) *)

(** The [summary_json] column of [cvs], a nullable TEXT, with what
    [json.loads] makes of it. *)
Inductive summary_column : Type :=
| NoSummary                 (* NULL or the empty string *)
| BadSummary                (* text that json.loads rejects *)
| Summary (j : json).

Record cv_row : Type := {
  cv_id : Z;
  cv_user_id : Z;
  cv_filename : string;
  cv_candidate_name : option string;
  cv_summary_json : summary_column
}.

(** An embedding is a float array; each finite float is the rational it
    denotes. *)
Definition vec : Type := list Q.

Record emb_row : Type := {
  emb_id : Z;
  emb_cv_id : Z;
  emb_user_id : Z;
  emb_embedding : vec;
  emb_embedding_text : string;
  emb_created_at : Z
}.

(** A row of [get_user_embeddings]: [cv_embeddings] joined with [cvs]. *)
Record user_embedding : Type := {
  ue_cv_id : Z;
  ue_embedding : vec;
  ue_embedding_text : string;
  ue_filename : string;
  ue_candidate_name : option string;
  ue_created_at : Z
}.

(** One dictionary of the list that [search_user_cvs] returns. *)
Record search_result : Type := {
  sr_cv_id : Z;
  sr_filename : string;
  sr_candidate_name : option string;
  sr_similarity : Q;
  sr_embedding_text : string
}.

Record chat_row : Type := {
  chat_user_id : Z;
  chat_query : string;
  chat_query_type : string;
  chat_response_text : string;
  chat_cv_results : option (list search_result)
}.

(** One HTTP exchange with the Ollama server. *)
Record request : Type := {
  req_method : string;
  req_url : string;
  req_json : option json
}.

Record response : Type := {
  status_code : Z;
  text : string;
  body : option json      (* [None]: the body is not JSON *)
}.

Inductive http_outcome : Type :=
| HttpRaise (e : exn)
| HttpResponse (r : response).

(** Everything outside the process: the three tables, whether the
    database answers, and how the Ollama server will answer the next
    requests, one entry per request, in order.  Past the end of the
    script the server is unreachable. *)
Record world : Type := {
  cvs : list cv_row;
  cv_embeddings : list emb_row;
  chats : list chat_row;          (* most recent first *)
  db_up : bool;
  ollama : list (request -> http_outcome)
}.

Definition set_chats (w : world) (c : list chat_row) : world :=
  {| cvs := cvs w; cv_embeddings := cv_embeddings w; chats := c;
     db_up := db_up w; ollama := ollama w |}.

Definition set_ollama (w : world) (o : list (request -> http_outcome)) : world :=
  {| cvs := cvs w; cv_embeddings := cv_embeddings w; chats := chats w;
     db_up := db_up w; ollama := o |}.

Definition set_cv_embeddings (w : world) (e : list emb_row) : world :=
  {| cvs := cvs w; cv_embeddings := e; chats := chats w;
     db_up := db_up w; ollama := ollama w |}.

Module DatabaseManager.

Definition connect {A : Type} (w : world) (query : result A) : result A :=
  if db_up w then query else Raise (StoreError "connection failed").

(** [get_cv_by_id]: the row of [cvs] with this id and this owner, its
    summary parsed. *)
Definition get_cv_by_id (w : world) (id user_id : Z) : result (option cv_row) :=
  connect w
    match find (fun c => (cv_id c =? id) && (cv_user_id c =? user_id)) (cvs w) with
    | Some c =>
        match cv_summary_json c with
        | BadSummary => Raise (JSONDecodeError "summary_json")
        | _ => Ok (Some c)
        end
    | None => Ok None
    end.

Definition joined (e : emb_row) (c : cv_row) : user_embedding :=
  {| ue_cv_id := emb_cv_id e; ue_embedding := emb_embedding e;
     ue_embedding_text := emb_embedding_text e;
     ue_filename := cv_filename c; ue_candidate_name := cv_candidate_name c;
     ue_created_at := emb_created_at e |}.

(** [FROM cv_embeddings e JOIN cvs c ON e.cv_id = c.id WHERE e.user_id = $1] *)
Definition join_where (w : world) (user_id : Z) : list user_embedding :=
  flat_map
    (fun e =>
       if emb_user_id e =? user_id
       then map (joined e) (filter (fun c => cv_id c =? emb_cv_id e) (cvs w))
       else [])
    (cv_embeddings w).

(** [get_user_embeddings]: [ORDER BY e.created_at DESC]; rows created
    at the same instant stay in table order. *)
Definition get_user_embeddings (w : world) (user_id : Z)
  : result (list user_embedding) :=
  connect w
    (Ok (PyList.sort_desc (fun a b => ue_created_at b <=? ue_created_at a)
           (join_where w user_id))).

(** [save_cv_embedding], for a row that the database accepts: it
    refuses one whose CV or owner has no row ([REFERENCES]) or whose
    text holds the character 0, and the call then raises. *)
Definition save_cv_embedding (w : world) (e : emb_row) : result world :=
  connect w (Ok (set_cv_embeddings w (cv_embeddings w ++ [e]))).

(** [delete_cv_embeddings] *)
Definition delete_cv_embeddings (w : world) (id user_id : Z) : result world :=
  connect w
    (Ok (set_cv_embeddings w
           (filter (fun e => negb ((emb_cv_id e =? id) && (emb_user_id e =? user_id)))
              (cv_embeddings w)))).

(** [save_chat], for a row that the database accepts: it refuses one
    whose owner has no row in [users] or whose texts hold the character
    0, and the call then raises. *)
Definition save_chat (w : world) (row : chat_row) : result world :=
  connect w (Ok (set_chats w (row :: chats w))).

(** [get_user_chats]: [ORDER BY created_at DESC LIMIT $2] *)
Definition get_user_chats (w : world) (user_id limit : Z) : result (list chat_row) :=
  connect w
    (Ok (firstn (Z.to_nat limit)
           (filter (fun c => chat_user_id c =? user_id) (chats w)))).

End DatabaseManager.

(** Two states of the store that differ at most in the vectors of
    owners other than [uid]. *)
Definition same_owner_view (uid : Z) (w1 w2 : world) : Prop :=
  db_up w1 = db_up w2
  /\ cvs w1 = cvs w2
  /\ filter (fun e => emb_user_id e =? uid) (cv_embeddings w1)
     = filter (fun e => emb_user_id e =? uid) (cv_embeddings w2).

(** The profile store is the same in two states of the world. *)
Definition same_store (w1 w2 : world) : Prop :=
  db_up w1 = db_up w2
  /\ cvs w1 = cvs w2
  /\ cv_embeddings w1 = cv_embeddings w2.

(* ================================================================= *)
(** ** The assistant's own data ([hr_assistant.py]) *)

Inductive role_t : Type := User | Assistant.

(** One entry of [conversation_history]. *)
Record turn : Type := { role : role_t; content : string }.

(** The fields of an [HRAssistant]. *)
Record assistant : Type := {
  user_id : Z;
  conversation_history : list turn;
  max_history_length : Z
}.

(** [HRAssistant.__init__]: an empty history, ten exchanges kept.  The
    constructor also schedules [_load_conversation_history] as a task,
    which runs at a later [await] and assigns the history once more
    from the chat log as it read it.  Loading is
    [load_conversation_history] below, which every caller awaits
    through [initialize]; this development follows one sequential run
    and not that task, so what it proves of the history in memory is
    about [add_to_history] and [_load_conversation_history]
    themselves. *)
Definition new_assistant (uid : Z) : assistant :=
  {| user_id := uid; conversation_history := []; max_history_length := 10 |}.

(** What [handle_cv_search] returns: a bare string on its three
    fallback paths, the pair [(response, cv_results)] otherwise. *)
Inductive returned : Type :=
| RStr (s : string)
| RPair (response : string) (cv_results : list search_result).

(** The [cv_results] argument of [add_to_history]. *)
Inductive cv_results_arg : Type :=
| CvNone
| CvList (l : list search_result)
| CvStr (s : string).

(** *** The embedding model ([embed_model.py]) *)

Module EmbeddingModel.

(** [np.zeros(384)] *)
Definition zeros : vec := repeat 0%Q 384.

(** [EmbeddingModel.get_embedding].  [model] is the sentence
    transformer once loaded, a function from a text to its vector, or
    what loading it raises. *)
Definition get_embedding (model : result (string -> result vec)) (text : string)
  : result vec :=
  let? encode := model in
  let text := PyStr.strip text in
  if negb (PyStr.truthy text) then Ok zeros else encode text.

End EmbeddingModel.

(** *** The answers of the API ([main.py]) *)

(** What an endpoint does: it returns a body, or raises an
    [HTTPException]; of the exception the status code is kept, the
    detail text is left out. *)
Inductive endpoint (A : Type) : Type :=
| Returned (body : A)
| HTTPException (status_code : Z).
Arguments Returned {A} body.
Arguments HTTPException {A} status_code.

(** The body of a [/query] answer, without its timestamp. *)
Record query_response : Type := {
  qr_query : string;
  qr_query_type : string;
  qr_response_text : string;
  qr_results : list json;
  qr_total_matches : Z;
  qr_user_id : Z
}.

(* ================================================================= *)
(** ** A small deployment, for the examples *)

Module Demo.

(** Stand-ins for the collaborators: an embedding with one coordinate
    per language, and the dot product, which is the cosine on unit
    vectors; it raises on vectors of different lengths, as [sklearn]
    does. *)
Definition py_str (v : json) : string := "[...]".

Definition get_embedding (text : string) : result vec :=
  let t := PyStr.lower text in
  Ok [ if PyStr.contains "python" t then 1%Q else 0%Q;
       if PyStr.contains "java" t then 1%Q else 0%Q ].

Fixpoint dot (a b : vec) : Q :=
  match a, b with
  | x :: a', y :: b' => (x * y + dot a' b')%Q
  | _, _ => 0%Q
  end.

Definition cosine_similarity (a b : vec) : result Q :=
  if Nat.eqb (List.length a) (List.length b) then Ok (dot a b)
  else Raise ValueError.

Definition cv (id owner : Z) (file name : string) (summary : json) : cv_row :=
  {| cv_id := id; cv_user_id := owner; cv_filename := file;
     cv_candidate_name := Some name; cv_summary_json := Summary summary |}.

Definition emb (id cv owner : Z) (v : vec) (t : string) (at_time : Z) : emb_row :=
  {| emb_id := id; emb_cv_id := cv; emb_user_id := owner; emb_embedding := v;
     emb_embedding_text := t; emb_created_at := at_time |}.

Definition ada : json :=
  JDict [ ("Name", JStr "Ada");
          ("Education", JList [JDict [("Degree", JStr "BSc"); ("School", JStr "MIT")]]);
          ("Experience", JList [JDict [("Company", JStr "ACME"); ("Role", JStr "Developer")]]);
          ("Skills", JList [JStr "Python"; JStr "SQL"]) ].

Definition bob : json :=
  JDict [ ("Name", JStr "Bob"); ("Skills", JList [JStr "Java"]) ].

Definition cy : json := JDict [ ("raw", JStr "Cy, Python and Java") ].

Definition dee : json := JDict [ ("Name", JStr "Dee") ].

(** A summary whose [Education] is one object, not a list of objects. *)
Definition eve : json :=
  JDict [ ("Name", JStr "Eve");
          ("Education", JDict [("Degree", JStr "BSc"); ("School", JStr "MIT")]) ].

Definition tags : request -> http_outcome := fun _ =>
  HttpResponse
    {| status_code := 200; text := "";
       body := Some (JDict [("models", JList [JDict [("name", JStr "llama3.2:3b")]])]) |}.

Definition answer (s : string) : request -> http_outcome := fun _ =>
  HttpResponse
    {| status_code := 200; text := "";
       body := Some (JDict [("response", JStr s)]) |}.

Definition not_json : request -> http_outcome := fun _ =>
  HttpResponse {| status_code := 200; text := "<html>"; body := None |}.

(** Owner 7 has three profiles, owner 9 one, owner 8 none. *)
Definition store (script : list (request -> http_outcome)) : world :=
  {| cvs := [ cv 1 7 "ada.pdf" "Ada" ada; cv 2 7 "bob.pdf" "Bob" bob;
              cv 3 7 "cy.pdf" "Cy" cy; cv 4 9 "dee.pdf" "Dee" dee ];
     cv_embeddings :=
       [ emb 1 1 7 [1; 0]%Q "Name: Ada | Skills: Python SQL" 10;
         emb 2 2 7 [0; 1]%Q "Name: Bob | Skills: Java" 20;
         emb 3 3 7 [3 # 5; 4 # 5]%Q "Cy, Python and Java" 30;
         emb 4 4 9 [1; 0]%Q "Name: Dee" 40 ];
     chats := []; db_up := true; ollama := script |}.

(** The same store after owner 9 replaced a vector and added one. *)
Definition store_after_owner_9 (script : list (request -> http_outcome)) : world :=
  set_cv_embeddings (store script)
    [ emb 1 1 7 [1; 0]%Q "Name: Ada | Skills: Python SQL" 10;
      emb 5 4 9 [0; 1]%Q "Name: Dee | Skills: Java" 50;
      emb 2 2 7 [0; 1]%Q "Name: Bob | Skills: Java" 20;
      emb 3 3 7 [3 # 5; 4 # 5]%Q "Cy, Python and Java" 30;
      emb 6 4 9 [1; 0]%Q "Name: Dee | Skills: Python" 60 ].

(** The store after owner 7 deleted the profile of Ada. *)
Definition store_without_ada (script : list (request -> http_outcome)) : world :=
  {| cvs := [ cv 2 7 "bob.pdf" "Bob" bob; cv 3 7 "cy.pdf" "Cy" cy;
              cv 4 9 "dee.pdf" "Dee" dee ];
     cv_embeddings :=
       [ emb 2 2 7 [0; 1]%Q "Name: Bob | Skills: Java" 20;
         emb 3 3 7 [3 # 5; 4 # 5]%Q "Cy, Python and Java" 30;
         emb 4 4 9 [1; 0]%Q "Name: Dee" 40 ];
     chats := []; db_up := true; ollama := script |}.

(** A chat log, newest row first: twelve exchanges of owner 7, and
    two of owner 9 among them. *)
Definition chat (owner : Z) (q r : string) : chat_row :=
  {| chat_user_id := owner; chat_query := q; chat_query_type := "general_chat";
     chat_response_text := r; chat_cv_results := None |}.

Definition chat_log : list chat_row :=
  [ chat 7 "q12" "r12"; chat 7 "q11" "r11"; chat 9 "hello" "Hi there!";
    chat 7 "q10" "r10"; chat 7 "q9" "r9"; chat 7 "q8" "r8"; chat 7 "q7" "r7";
    chat 7 "q6" "r6"; chat 9 "thanks" "You're welcome!"; chat 7 "q5" "r5";
    chat 7 "q4" "r4"; chat 7 "q3" "r3"; chat 7 "q2" "r2"; chat 7 "q1" "r1" ].

(** The same log in a database that cannot be reached. *)
Definition store_down : world :=
  {| cvs := []; cv_embeddings := []; chats := chat_log; db_up := false;
     ollama := [] |}.

(** A stand-in for [json.loads]: it parses the empty object and
    rejects every other text. *)
Definition json_loads (s : string) : option json :=
  if String.eqb s "{}" then Some (JDict []) else None.

Definition eleven : list (string * string * cv_results_arg) :=
  [ ("q1", "r1", CvNone); ("q2", "r2", CvNone); ("q3", "r3", CvNone);
    ("q4", "r4", CvNone); ("q5", "r5", CvNone); ("q6", "r6", CvNone);
    ("q7", "r7", CvNone); ("q8", "r8", CvNone); ("q9", "r9", CvNone);
    ("q10", "r10", CvNone); ("q11", "r11", CvNone) ].

End Demo.

(* ================================================================= *)
(** ** The pipeline, over its collaborators *)

Section Pipeline.

(** Python's [str()] of a float, a list or a dict. *)
Variable py_str : json -> string.

(** [embed_model.get_embedding], the sentence-transformer model. *)
Variable get_embedding : string -> result vec.

(** [sklearn]'s [cosine_similarity] of two vectors, as a float. *)
Variable cosine_similarity : vec -> vec -> result Q.

(** Whether the error of [response.json()] is a
    [requests.RequestException], as it is from [requests] 2.27 on. *)
Variable json_error_is_request_exception : bool.

Definition nl : string := String "010"%char EmptyString.

(** What an f-string prints for a value. *)
Definition fmt (v : json) : string :=
  match v with
  | JStr s => s
  | JNull => "None"
  | JBool true => "True"
  | JBool false => "False"
  | JInt n => PyStr.of_int n
  | _ => py_str v
  end.

(* --------------------------------------------------------------- *)
(** *** Prompt composer: one profile block *)

(** What one turn of the education loop appends to [edu_list]. *)
Definition education_entry (edu : json) : list json :=
  match edu with
  | JDict d =>
      let degree := Py.get_or (JStr "") "Degree" d in
      let school := Py.get_or (JStr "") "School" d in
      if Py.truthy degree then [degree]
      else if Py.truthy school then [school]
      else []
  | _ => []
  end.

(** What one turn of the experience loop appends to [exp_list]. *)
Definition experience_entry (exp : json) : list json :=
  match exp with
  | JDict d =>
      let company := Py.get_or (JStr "") "Company" d in
      let role := Py.get_or (JStr "") "Role" d in
      if Py.truthy role && Py.truthy company
      then [JStr (fmt role ++ " at " ++ fmt company)]
      else if Py.truthy role then [role]
      else if Py.truthy company then [company]
      else []
  | _ => []
  end.

(** The lines that a list-of-entries field adds: none when the field
    is missing or falsy, or when no entry yields text. *)
Definition entries_line (label : string) (entry : json -> list json)
           (field : json) : result (list string) :=
  if Py.truthy field then
    let? items := Py.slice_items 2 field in
    let collected := flat_map entry items in
    if PyList.truthy collected then
      let? joined := Py.join " | " collected in
      Ok [label ++ joined]
    else Ok []
  else Ok [].

Definition skills_line (field : json) : result (list string) :=
  if Py.truthy field then
    match field with
    | JList skills =>
        let? skills_text := Py.join ", " (firstn 10 skills) in
        Ok ["Skills: " ++ skills_text]
    | _ => Ok []
    end
  else Ok [].

(** [HRAssistant.format_cv_summary] *)
Definition format_cv_summary (cv_summary : json) (rank : Z) : result string :=
  match cv_summary with
  | JDict d =>
      let head := ["CANDIDATE " ++ PyStr.of_int rank ++ ":"] in
      let name :=
        if Py.truthy (Py.get "Name" d)
        then ["Name: " ++ fmt (Py.get "Name" d)] else [] in
      let? education :=
        entries_line "Education: " education_entry (Py.get "Education" d) in
      let? experience :=
        entries_line "Experience: " experience_entry (Py.get "Experience" d) in
      let? skills := skills_line (Py.get "Skills" d) in
      Ok (PyStr.join nl (head ++ name ++ education ++ experience ++ skills) ++ nl)
  | _ => Raise AttributeError
  end.

(* --------------------------------------------------------------- *)
(** *** Similarity ranker ([faiss_store.py]) *)

(** The body of the scoring loop of [search_user_cvs]. *)
Definition score (query_embedding : vec) (emb_data : user_embedding)
  : result search_result :=
  let? similarity := cosine_similarity query_embedding (ue_embedding emb_data) in
  Ok {| sr_cv_id := ue_cv_id emb_data;
        sr_filename := ue_filename emb_data;
        sr_candidate_name := ue_candidate_name emb_data;
        sr_similarity := similarity;
        sr_embedding_text := ue_embedding_text emb_data |}.

Definition by_similarity (a b : search_result) : bool :=
  Qle_bool (sr_similarity b) (sr_similarity a).

(** The scoring loop, the sort and the slice of [search_user_cvs]:
    the ranker proper, on the vectors of one owner. *)
Definition rank (query_embedding : vec) (user_embeddings : list user_embedding)
           (top_k : Z) : result (list search_result) :=
  let? results := rmap (score query_embedding) user_embeddings in
  let sorted := PyList.sort_desc by_similarity results in
  Ok (PyList.slice_to top_k sorted).

(** [PostgreSQLVectorStore.search_user_cvs]: whatever is raised inside
    is caught and an empty list returned. *)
Definition search_user_cvs (w : world) (user_id : Z) (query : string)
           (top_k : Z) : list search_result :=
  match
    (let? query_embedding := get_embedding query in
     let? user_embeddings := DatabaseManager.get_user_embeddings w user_id in
     if PyList.truthy user_embeddings
     then rank query_embedding user_embeddings top_k
     else Ok [])
  with
  | Ok top_results => top_results
  | Raise _ => []
  end.

(** [PostgreSQLVectorStore.get_cv_full_summary] *)
Definition get_cv_full_summary (w : world) (id user_id : Z) : option json :=
  match DatabaseManager.get_cv_by_id w id user_id with
  | Ok (Some cv_data) =>
      match cv_summary_json cv_data with
      | Summary j => if Py.truthy j then Some j else None
      | _ => None
      end
  | Ok None => None
  | Raise _ => None
  end.

(* --------------------------------------------------------------- *)
(** *** State and errors together *)

Definition M (A : Type) : Type := world -> result A * world.

Definition ret {A : Type} (a : A) : M A := fun w => (Ok a, w).

Definition raise {A : Type} (e : exn) : M A := fun w => (Raise e, w).

Definition lift {A : Type} (r : result A) : M A := fun w => (r, w).

Definition bind {A B : Type} (m : M A) (k : A -> M B) : M B :=
  fun w =>
    match m w with
    | (Ok a, w') => k a w'
    | (Raise e, w') => (Raise e, w')
    end.

(** [try: m  except <those that handler takes>: ...] *)
Definition try_catch {A : Type} (m : M A) (handler : exn -> M A) : M A :=
  fun w =>
    match m w with
    | (Ok a, w') => (Ok a, w')
    | (Raise e, w') => handler e w'
    end.

Notation "x <- m ;; k" := (bind m (fun x => k))
  (at level 61, m at next level, right associativity).

(* --------------------------------------------------------------- *)
(** *** Response generator ([llama_inference.py]) *)

Definition is_Timeout (e : exn) : bool :=
  match e with RequestsTimeout _ => true | _ => false end.

Definition is_RequestException (e : exn) : bool :=
  match e with
  | RequestsTimeout _ | RequestException _ => true
  | JSONDecodeError _ => json_error_is_request_exception
  | _ => false
  end.

Definition is_JSONDecodeError (e : exn) : bool :=
  match e with JSONDecodeError _ => true | _ => false end.

Definition base_url : string := "http://localhost:11434".
Definition api_url : string := base_url ++ "/api".

(** [requests.get] / [requests.post]: the server's next answer. *)
Definition send (r : request) : M response :=
  fun w =>
    match ollama w with
    | [] => (Raise (RequestException "connection refused"), w)
    | answer :: rest =>
        (match answer r with
         | HttpRaise e => Raise e
         | HttpResponse x => Ok x
         end, set_ollama w rest)
    end.

Definition requests_get (url : string) : M response :=
  send {| req_method := "GET"; req_url := url; req_json := None |}.

Definition requests_post (url : string) (payload : json) : M response :=
  send {| req_method := "POST"; req_url := url; req_json := Some payload |}.

(** [response.json()] *)
Definition response_json (r : response) : result json :=
  match body r with
  | Some j => Ok j
  | None => Raise (JSONDecodeError "Expecting value")
  end.

(** [OllamaClient.is_available] *)
Definition is_available : M bool :=
  try_catch
    (response <- requests_get (base_url ++ "/api/tags") ;;
     ret (status_code response =? 200))
    (fun e => if is_RequestException e then ret false else raise e).

(** The values that [for x in v] visits. *)
Definition iterate (v : json) : result (list json) :=
  match v with
  | JList l => Ok l
  | JDict d => Ok (map (fun kv => JStr (fst kv)) d)
  | JStr s => Ok (map (fun c => JStr (String c EmptyString)) (list_ascii_of_string s))
  | _ => Raise TypeError
  end.

(** [v[key]] for a string key. *)
Definition subscript (key : string) (v : json) : result json :=
  match v with
  | JDict d => Py.getitem key d
  | _ => Raise TypeError
  end.

(** [OllamaClient.get_available_models] *)
Definition get_available_models : M (list json) :=
  try_catch
    (response <- requests_get (api_url ++ "/tags") ;;
     if status_code response =? 200 then
       data <- lift (response_json response) ;;
       models <- lift (Py.get_attr (JList []) "models" data) ;;
       items <- lift (iterate models) ;;
       lift (rmap (subscript "name") items)
     else ret [])
    (fun e => if is_RequestException e then ret [] else raise e).

(** [name in v] *)
Definition py_in (name : string) (v : json) : result bool :=
  match v with
  | JStr s => Ok (PyStr.contains name s)
  | JList l =>
      Ok (existsb (fun x => match x with
                            | JStr s => String.eqb s name
                            | _ => false
                            end) l)
  | JDict d => Ok (existsb (fun kv => String.eqb (fst kv) name) d)
  | _ => Raise TypeError
  end.

(** [any(name in model for model in models)], stopping at the first
    hit. *)
Fixpoint any_model (name : string) (models : list json) : result bool :=
  match models with
  | [] => Ok false
  | model :: rest =>
      let? hit := py_in name model in
      if hit then Ok true else any_model name rest
  end.

(** [OllamaClient.check_model_available] *)
Definition check_model_available (model_name : string) : M bool :=
  models <- get_available_models ;;
  lift (any_model model_name models).

(** [v.strip()]: only a [str] has [strip]. *)
Definition strip_attr (v : json) : result string :=
  match v with
  | JStr s => Ok (PyStr.strip s)
  | _ => Raise AttributeError
  end.

(** [OllamaClient.generate] *)
Definition generate (prompt model : string) (options : json) : M string :=
  try_catch
    (let payload :=
       JDict [("model", JStr model); ("prompt", JStr prompt);
              ("stream", JBool false); ("options", options)] in
     response <- requests_post (api_url ++ "/generate") payload ;;
     if status_code response =? 200 then
       result <- lift (response_json response) ;;
       answer <- lift (Py.get_attr (JStr "") "response" result) ;;
       lift (strip_attr answer)
     else
       ret ("Error: HTTP " ++ PyStr.of_int (status_code response)
            ++ " - " ++ text response))
    (fun e =>
       if is_Timeout e then ret "Error: Request timed out (5 minutes)"
       else if is_RequestException e
       then ret ("Error: Network request failed - " ++ str_of_exn e)
       else if is_JSONDecodeError e
       then ret "Error: Invalid JSON response from Ollama"
       else raise e).

(** [run_llama] *)
Definition run_llama (prompt model : string) (max_tokens : Z) (temperature : Q)
  : M string :=
  available <- is_available ;;
  if negb available
  then ret "Error: Ollama server is not running. Please start Ollama first."
  else
    found <- check_model_available model ;;
    if negb found then
      available_models <- get_available_models ;;
      ret ("Error: Model '" ++ model ++ "' not found. Available models: "
           ++ py_str (JList available_models))
    else
      let options :=
        JDict [("num_predict", JInt max_tokens);
               ("temperature", JFloat temperature)] in
      generate prompt model options.

(* --------------------------------------------------------------- *)
(** *** Context manager ([HRAssistant]) *)

Definition history_of (chat : chat_row) : list turn :=
  [ {| role := User; content := chat_query chat |};
    {| role := Assistant; content := chat_response_text chat |} ].

(** The truncation of [add_to_history] and of
    [_load_conversation_history]:
    [if len(h) > N * 2: h = h[-N * 2:]]. *)
Definition keep_recent (max_history_length : Z) (h : list turn) : list turn :=
  if Z.of_nat (List.length h) >? max_history_length * 2
  then PyList.slice_from (- max_history_length * 2) h
  else h.

Definition set_history (a : assistant) (h : list turn) : assistant :=
  {| user_id := user_id a; conversation_history := h;
     max_history_length := max_history_length a |}.

(** [HRAssistant._load_conversation_history] *)
Definition load_conversation_history (w : world) (a : assistant) : assistant :=
  match DatabaseManager.get_user_chats w (user_id a) (max_history_length a) with
  | Ok recent_chats =>
      set_history a
        (keep_recent (max_history_length a)
           (flat_map history_of (rev recent_chats)))
  | Raise _ => set_history a []
  end.

(** The [ChatCreate] row, when the model validates: [cv_results] must
    be [None] or a list of dicts. *)
Definition chat_create (uid : Z) (user_message assistant_response : string)
           (cv_results : cv_results_arg) : result chat_row :=
  let search := is_cv_search_query user_message in
  let query_type := if search then "cv_search" else "general_chat" in
  let? stored :=
    if search then
      match cv_results with
      | CvNone => Ok None
      | CvList l => Ok (if PyList.truthy l then Some l else None)
      | CvStr _ => Raise ValueError
      end
    else Ok None in
  Ok {| chat_user_id := uid; chat_query := user_message;
        chat_query_type := query_type;
        chat_response_text := assistant_response;
        chat_cv_results := stored |}.

(** [HRAssistant.add_to_history]: the two turns, the truncation, then
    the row in [chats]; a failure to save is only printed. *)
Definition add_to_history (a : assistant) (user_message assistant_response : string)
           (cv_results : cv_results_arg) (w : world) : assistant * world :=
  let h := (conversation_history a
            ++ [ {| role := User; content := user_message |};
                 {| role := Assistant; content := assistant_response |} ])%list in
  let a' := set_history a (keep_recent (max_history_length a) h) in
  match
    (let? chat_data := chat_create (user_id a) user_message assistant_response cv_results in
     DatabaseManager.save_chat w chat_data)
  with
  | Ok w' => (a', w')
  | Raise _ => (a', w)
  end.

(** The turns of a sequence of exchanges, oldest first. *)
Definition turns_of (exchanges : list (string * string * cv_results_arg))
  : list turn :=
  flat_map (fun x => [ {| role := User; content := fst (fst x) |};
                       {| role := Assistant; content := snd (fst x) |} ])
           exchanges.

(** [add_to_history] called once per exchange, in order. *)
Fixpoint add_all (a : assistant) (w : world)
         (exchanges : list (string * string * cv_results_arg)) : assistant * world :=
  match exchanges with
  | [] => (a, w)
  | x :: rest =>
      let (a', w') := add_to_history a (fst (fst x)) (snd (fst x)) (snd x) w in
      add_all a' w' rest
  end.

Definition render_turn (msg : turn) : string :=
  (match role msg with User => "User" | Assistant => "Assistant" end)
  ++ ": " ++ PyStr.take 100 (content msg) ++ "..." ++ nl.

(** [HRAssistant.build_history_context] *)
Definition build_history_context (a : assistant) : string :=
  if PyList.truthy (conversation_history a) then
    fold_left (fun context msg => context ++ render_turn msg)
      (PyList.slice_from (-6) (conversation_history a))
      ("Previous conversation:" ++ nl)
    ++ nl
  else "".

(* --------------------------------------------------------------- *)
(** *** Prompt composer *)

(** [HRAssistant.load_cv_summary] *)
Definition load_cv_summary (w : world) (a : assistant) (id : Z) : option json :=
  get_cv_full_summary w id (user_id a).

(** The loop of [build_search_prompt] over [enumerate(cv_results, i)]. *)
Fixpoint candidate_blocks (w : world) (a : assistant) (i : Z)
         (cv_results : list search_result) (prompt : string) : result string :=
  match cv_results with
  | [] => Ok prompt
  | r :: rest =>
      let cv_summary :=
        if negb (sr_cv_id r =? 0) then load_cv_summary w a (sr_cv_id r) else None in
      let? prompt' :=
        match cv_summary with
        | Some summary =>
            let? block := format_cv_summary summary i in
            Ok (prompt ++ block)
        | None => Ok prompt
        end in
      candidate_blocks w a (i + 1) rest prompt'
  end.

(** [HRAssistant.build_search_prompt] *)
Definition build_search_prompt (w : world) (a : assistant) (user_query : string)
           (cv_results : list search_result) : result string :=
  let prompt := if needs_context user_query then build_history_context a else "" in
  let prompt :=
    prompt ++ "You are an HR assistant. Answer this question: " ++ user_query ++ nl
    ++ "Only use relevant candidate data. Ignore irrelevant information." ++ nl
    ++ nl ++ "CANDIDATES:" ++ nl in
  let? prompt := candidate_blocks w a 1 cv_results prompt in
  Ok (prompt ++ nl ++ "Provide direct, focused short answer only.").

(** [HRAssistant.build_chat_prompt] *)
Definition build_chat_prompt (a : assistant) (user_query : string) : string :=
  (if PyList.truthy (conversation_history a) then build_history_context a else "")
  ++ "You are a helpful HR assistant. User said: '" ++ user_query
  ++ "'. Give a brief, friendly response.".

(* --------------------------------------------------------------- *)
(** *** Orchestrator *)

Definition no_matches : string :=
  "I couldn't find any relevant CVs for your query.".
Definition search_fallback : string :=
  "I found the profiles but couldn't generate a response. Please try rephrasing your query.".
Definition search_error : string :=
  "Sorry, I encountered an error processing your request.".
Definition chat_fallback : string :=
  "I'm here to help with HR and candidate questions. What would you like to know?".
Definition chat_error : string :=
  "I'm here to help! Try asking me about candidates or CVs.".
Definition please_ask : string := "Please ask me something!".

(** [not response or response.strip() == ''] *)
Definition is_blank (response : string) : bool :=
  negb (PyStr.truthy response) || String.eqb (PyStr.strip response) "".

(** [HRAssistant.handle_cv_search].  The prompt is built outside the
    [try]; only the generator call is guarded. *)
Definition handle_cv_search (a : assistant) (user_query : string) : M returned :=
  let top_k := extract_cv_count user_query in
  fun w =>
    let cv_results := search_user_cvs w (user_id a) user_query top_k in
    if negb (PyList.truthy cv_results) then (Ok (RStr no_matches), w)
    else
      match build_search_prompt w a user_query cv_results with
      | Raise e => (Raise e, w)
      | Ok prompt =>
          try_catch
            (response <- run_llama prompt "llama3.2:3b" 600 (7 # 10) ;;
             if is_blank response then ret (RStr search_fallback)
             else ret (RPair response cv_results))
            (fun _ => ret (RStr search_error))
            w
      end.

Definition simple_responses : list (string * string) :=
  [ ("hi", "Hello! I'm your HR assistant. I can help you find candidates and answer questions about CVs. What would you like to know?");
    ("hello", "Hi there! How can I help you with candidate profiles today?");
    ("help", "I can help you find candidates by searching through CVs. Try asking things like 'find Python developers' or 'show me mechanical engineers'.");
    ("thanks", "You're welcome! Feel free to ask about any candidates or profiles.");
    ("thank you", "You're welcome! Feel free to ask about any candidates or profiles.") ].

(** [HRAssistant.handle_chat] *)
Definition handle_chat (a : assistant) (user_query : string) : M string :=
  let query_lower := PyStr.strip (PyStr.lower user_query) in
  match find (fun kv => PyStr.contains (fst kv) query_lower) simple_responses with
  | Some (_, canned) => ret canned
  | None =>
      let prompt := build_chat_prompt a user_query in
      try_catch
        (response <- run_llama prompt "llama3.2:3b" 150 (8 # 10) ;;
         if is_blank response then ret chat_fallback else ret response)
        (fun _ => ret chat_error)
  end.

(** [response, cv_results = value]: a pair unpacks into its two
    components, a string of exactly two characters into them, and any
    other string raises [ValueError]. *)
Definition unpack2 (value : returned) : result (string * cv_results_arg) :=
  match value with
  | RPair response cv_results => Ok (response, CvList cv_results)
  | RStr (String c1 (String c2 EmptyString)) =>
      Ok (String c1 EmptyString, CvStr (String c2 EmptyString))
  | RStr _ => Raise ValueError
  end.

(** [HRAssistant.process_query]: the response or the exception, with
    the assistant and the world it leaves behind. *)
Definition process_query (a : assistant) (user_query : string) (w : world)
  : result string * assistant * world :=
  if negb (PyStr.truthy (PyStr.strip user_query)) then (Ok please_ask, a, w)
  else if is_cv_search_query user_query then
    match handle_cv_search a user_query w with
    | (Raise e, w1) => (Raise e, a, w1)
    | (Ok value, w1) =>
        match unpack2 value with
        | Raise e => (Raise e, a, w1)
        | Ok (response, cv_results) =>
            let (a2, w2) := add_to_history a user_query response cv_results w1 in
            (Ok response, a2, w2)
        end
    end
  else
    match handle_chat a user_query w with
    | (Raise e, w1) => (Raise e, a, w1)
    | (Ok response, w1) =>
        let (a2, w2) := add_to_history a user_query response CvNone w1 in
        (Ok response, a2, w2)
    end.

(** What a call derives from a query before any text is generated: the
    intent, the result count and the ranked results, as
    [process_query] and [handle_cv_search] compute them. *)
Definition query_plan (a : assistant) (user_query : string) (w : world)
  : bool * Z * list search_result :=
  let top_k := extract_cv_count user_query in
  (is_cv_search_query user_query, top_k,
   search_user_cvs w (user_id a) user_query top_k).

(** A computation that leaves the profile store as it found it. *)
Definition keeps_store {A : Type} (m : M A) : Prop :=
  forall w, same_store w (snd (m w)).

(* --------------------------------------------------------------- *)
(** *** Summaries of the expected shape *)

Definition is_str (v : json) : bool :=
  match v with JStr _ => true | _ => false end.

(** A string, or something falsy ([None], [''], [0], ...). *)
Definition text_or_falsy (v : json) : bool :=
  is_str v || negb (Py.truthy v).

(** An entry of [Education] or [Experience]: when it is an object, its
    [keys] hold text or nothing. *)
Definition entry_ok (keys : list string) (entry : json) : bool :=
  match entry with
  | JDict d => forallb (fun k => text_or_falsy (Py.get_or (JStr "") k d)) keys
  | _ => true
  end.

(** The field is missing or falsy, a string, or a list of such entries. *)
Definition entries_ok (keys : list string) (field : json) : bool :=
  match field with
  | JList l => forallb (entry_ok keys) l
  | JStr _ => true
  | _ => negb (Py.truthy field)
  end.

Definition skills_ok (field : json) : bool :=
  match field with
  | JList l => forallb is_str l
  | _ => true
  end.

(** A summary as [summarize_cv] asks the model for it, any field
    missing: [Education] and [Experience] lists of objects with text
    fields, [Skills] a list of strings. *)
Definition well_shaped (d : list (string * json)) : bool :=
  entries_ok ["Degree"; "School"] (Py.get "Education" d)
  && entries_ok ["Company"; "Role"] (Py.get "Experience" d)
  && skills_ok (Py.get "Skills" d).

(* --------------------------------------------------------------- *)
(** *** The failure modes of the generator *)

(** The request of [is_available] and of [get_available_models]. *)
Definition tags_request : request :=
  {| req_method := "GET"; req_url := base_url ++ "/api/tags"; req_json := None |}.

(** The request of [generate], as [run_llama] has it sent. *)
Definition generate_request (prompt model : string) (max_tokens : Z)
           (temperature : Q) : request :=
  {| req_method := "POST"; req_url := api_url ++ "/generate";
     req_json :=
       Some (JDict [("model", JStr model); ("prompt", JStr prompt);
                    ("stream", JBool false);
                    ("options",
                     JDict [("num_predict", JInt max_tokens);
                            ("temperature", JFloat temperature)])]) |}.

(** The server gives no usable answer: the request fails or times out,
    or the status is not 200. *)
Definition refused (o : http_outcome) : Prop :=
  match o with
  | HttpRaise e => is_RequestException e = true
  | HttpResponse r => status_code r <> 200
  end.

Definition answers_200 (o : http_outcome) : Prop :=
  exists r, o = HttpResponse r /\ status_code r = 200.

(** An answer to [/api/tags] that lists the models called [names]. *)
Definition lists_models (o : http_outcome) (names : list string) : Prop :=
  exists r d models,
    o = HttpResponse r /\ status_code r = 200 /\ body r = Some (JDict d)
    /\ Py.lookup "models" d = Some (JList models)
    /\ Forall2 (fun m n => exists dm, m = JDict dm
                                      /\ Py.lookup "name" dm = Some (JStr n))
               models names.

(** [get_available_models] is told [names], or told nothing. *)
Definition models_answer (o : http_outcome) (names : list string) : Prop :=
  lists_models o names \/ (refused o /\ names = []).

(** The generation request fails: an exception of [requests], a status
    other than 200, or a body that is not JSON. *)
Definition generation_fails (o : http_outcome) : Prop :=
  match o with
  | HttpRaise e => is_RequestException e = true
  | HttpResponse r => status_code r <> 200 \/ body r = None
  end.

(** The failure modes of [run_llama], by the script of the server. *)
Inductive failure_mode (prompt model : string) (max_tokens : Z) (temperature : Q)
  : list (request -> http_outcome) -> Prop :=
| server_silent :
    failure_mode prompt model max_tokens temperature []
| server_unreachable o rest :
    refused (o tags_request) ->
    failure_mode prompt model max_tokens temperature (o :: rest)
| model_missing o1 o2 rest names :
    answers_200 (o1 tags_request) ->
    models_answer (o2 tags_request) names ->
    existsb (PyStr.contains model) names = false ->
    match rest with
    | [] => True
    | o3 :: _ => exists names', models_answer (o3 tags_request) names'
    end ->
    failure_mode prompt model max_tokens temperature (o1 :: o2 :: rest)
| generation_failed o1 o2 o3 rest names :
    answers_200 (o1 tags_request) ->
    lists_models (o2 tags_request) names ->
    existsb (PyStr.contains model) names = true ->
    generation_fails (o3 (generate_request prompt model max_tokens temperature)) ->
    failure_mode prompt model max_tokens temperature (o1 :: o2 :: o3 :: rest).

(** A computation that leaves the chat log as it found it. *)
Definition keeps_chats {A : Type} (m : M A) : Prop :=
  forall w, chats (snd (m w)) = chats w.

(* --------------------------------------------------------------- *)
(** *** Embedding text ([faiss_store.py]) *)

(** ['key' in cv_summary and cv_summary['key']]: the value, when the
    key is there and its value is truthy. *)
Definition truthy_field (key : string) (cv_summary : json) : result (option json) :=
  let? present := py_in key cv_summary in
  if present then
    let? v := subscript key cv_summary in
    Ok (if Py.truthy v then Some v else None)
  else Ok None.

(** [if entry.get(key): parts.append(f"{key}: {entry[key]}")] *)
Definition labelled (key : string) (d : list (string * json)) : list string :=
  let v := Py.get key d in
  if Py.truthy v then [key ++ ": " ++ fmt v] else [].

(** What one entry of [Experience] or [Education] adds to the texts:
    an object gives its labelled fields joined by " | ", and nothing
    when it has none of them; anything else gives its [str()]. *)
Definition entry_text (keys : list string) (entry : json) : list string :=
  match entry with
  | JDict d =>
      let parts := flat_map (fun key => labelled key d) keys in
      if PyList.truthy parts then [PyStr.join " | " parts] else []
  | _ => [fmt entry]
  end.

Definition entries_text (keys : list string) (field : json) : string :=
  match field with
  | JList entries => PyStr.join " || " (flat_map (entry_text keys) entries)
  | _ => fmt field
  end.

Definition skills_text (skills : json) : string :=
  match skills with
  | JList l => PyStr.join " " (map fmt l)
  | _ => fmt skills
  end.

Definition no_information : string := "No structured information available".

(** [PostgreSQLVectorStore.create_embedding_text] *)
Definition create_embedding_text (cv_summary : json) : result string :=
  let? name := truthy_field "Name" cv_summary in
  let? skills := truthy_field "Skills" cv_summary in
  let? experience := truthy_field "Experience" cv_summary in
  let? education := truthy_field "Education" cv_summary in
  let name_part :=
    match name with
    | Some (JStr s) => ["Name: " ++ s]
    | _ => []
    end in
  let skills_part :=
    match skills with
    | Some v => ["Skills: " ++ skills_text v]
    | None => []
    end in
  let experience_part :=
    match experience with
    | Some v =>
        ["Experience: " ++ entries_text ["Role"; "Company"; "Description"] v]
    | None => []
    end in
  let education_part :=
    match education with
    | Some v => ["Education: " ++ entries_text ["Degree"; "School"; "Field"] v]
    | None => []
    end in
  let embedding_parts :=
    (name_part ++ skills_part ++ experience_part ++ education_part)%list in
  let combined_text := PyStr.join " | " embedding_parts in
  let? combined_text :=
    if negb (PyStr.truthy (PyStr.strip combined_text)) then
      let? has_raw := py_in "raw" cv_summary in
      if has_raw then
        let? raw := subscript "raw" cv_summary in
        Ok (PyStr.take 1000 (fmt raw))
      else Ok combined_text
    else Ok combined_text in
  Ok (if PyStr.truthy (PyStr.strip combined_text)
      then combined_text else no_information).

(** [PostgreSQLVectorStore.process_and_store_cv]: whatever is raised
    inside is caught and [False] returned.  [row_id] and [now] are the
    id and the time of creation that the database gives the new row;
    the insert is taken to meet the foreign keys of [cv_embeddings]
    (the callers pass the id of a row of [cvs] and of a user). *)
Definition process_and_store_cv (w : world) (user_id cv_id : Z)
           (cv_summary : json) (row_id now : Z) : bool * world :=
  match
    (let? embedding_text := create_embedding_text cv_summary in
     if PyStr.truthy embedding_text
        && negb (String.eqb embedding_text no_information)
     then
       let? embedding := get_embedding embedding_text in
       let? w' :=
         DatabaseManager.save_cv_embedding w
           {| emb_id := row_id; emb_cv_id := cv_id; emb_user_id := user_id;
              emb_embedding := embedding; emb_embedding_text := embedding_text;
              emb_created_at := now |} in
       Ok (negb (row_id =? 0), w')
     else Ok (false, w))
  with
  | Ok outcome => outcome
  | Raise _ => (false, w)
  end.

(* --------------------------------------------------------------- *)
(** *** Deleting a profile ([database.py]) *)

Definition set_cvs (w : world) (c : list cv_row) : world :=
  {| cvs := c; cv_embeddings := cv_embeddings w; chats := chats w;
     db_up := db_up w; ollama := ollama w |}.

(** [DatabaseManager.delete_cv]: in one transaction, the vectors of
    this CV and owner, then the row of [cvs].  [cv_embeddings.cv_id] is
    declared [REFERENCES cvs(id) ON DELETE CASCADE] and [id] is the
    primary key of [cvs], so the vectors that point to a deleted row go
    with it.  The answer is whether exactly one row of [cvs] went. *)
Definition delete_cv (w : world) (id user_id : Z) : result (bool * world) :=
  DatabaseManager.connect w
    (let mine := fun c => (cv_id c =? id) && (cv_user_id c =? user_id) in
     let deleted := filter mine (cvs w) in
     let vectors :=
       filter (fun e => negb ((emb_cv_id e =? id) && (emb_user_id e =? user_id)))
              (cv_embeddings w) in
     let vectors :=
       if PyList.truthy deleted
       then filter (fun e => negb (emb_cv_id e =? id)) vectors
       else vectors in
     Ok (Nat.eqb (List.length deleted) 1,
         set_cv_embeddings
           (set_cvs w (filter (fun c => negb (mine c)) (cvs w))) vectors)).

(* --------------------------------------------------------------- *)
(** *** Text of a PDF ([extract_from_pdf.py]) *)

(** The loop over [pdf.pages]: [page.extract_text()] gives a text or
    [None], or raises; a page with text adds it and a newline. *)
Fixpoint page_texts (pages : list (result (option string))) (text : string)
  : result string :=
  match pages with
  | [] => Ok text
  | page :: rest =>
      let? page_text := page in
      page_texts rest
        match page_text with
        | Some t => if PyStr.truthy t then text ++ t ++ nl else text
        | None => text
        end
  end.

(** [extract_text_from_pdf], on what [pdfplumber] makes of the file:
    it cannot be opened, or it has pages. *)
Definition extract_text_from_pdf (pdf : result (list (result (option string))))
  : option string :=
  match (let? pages := pdf in page_texts pages "") with
  | Ok text => Some (PyStr.strip text)
  | Raise _ => None
  end.

(* --------------------------------------------------------------- *)
(** *** Summarizer ([summarize_cv.py], [llama_inference.py]) *)

(** [run_llama] called with further options: [**kwargs] goes into the
    options after [num_predict] and [temperature]. *)
Definition run_llama_kwargs (prompt model : string) (max_tokens : Z)
           (temperature : Q) (kwargs : list (string * json)) : M string :=
  available <- is_available ;;
  if negb available
  then ret "Error: Ollama server is not running. Please start Ollama first."
  else
    found <- check_model_available model ;;
    if negb found then
      available_models <- get_available_models ;;
      ret ("Error: Model '" ++ model ++ "' not found. Available models: "
           ++ py_str (JList available_models))
    else
      let options :=
        JDict ([("num_predict", JInt max_tokens);
                ("temperature", JFloat temperature)] ++ kwargs)%list in
      generate prompt model options.

(** [run_llama_fast] *)
Definition run_llama_fast (prompt model : string) (max_tokens : Z) : M string :=
  run_llama_kwargs prompt model max_tokens (1 # 10)
    [("top_p", JFloat (9 # 10)); ("repeat_penalty", JFloat (11 # 10));
     ("format", JStr "json")].

(** The loop of [run_llama_with_history] over the reversed history:
    the content of the first message whose role is "user". *)
Fixpoint last_user_msg (reversed : list turn) : option string :=
  match reversed with
  | [] => None
  | msg :: rest =>
      match role msg with
      | User => Some (content msg)
      | Assistant => last_user_msg rest
      end
  end.

(** [run_llama_with_history], on a history as [HRAssistant] keeps it. *)
Definition run_llama_with_history (conversation_history : list turn)
           (model_name : string) : M string :=
  if negb (PyList.truthy conversation_history)
  then ret "No conversation history available."
  else
    match last_user_msg (rev conversation_history) with
    | Some msg =>
        if PyStr.truthy msg then run_llama msg model_name 600 (7 # 10)
        else ret "No user message found in history."
    | None => ret "No user message found in history."
    end.

(** A double quote, and a text between two of them. *)
Definition dq : string := String "034"%char EmptyString.
Definition quoted (s : string) : string := dq ++ s ++ dq.

(** The JSON structure that the prompt of [summarize_cv] shows. *)
Definition summary_template : string :=
  "{" ++ quoted "Name" ++ ":" ++ dq ++ dq ++ ","
  ++ quoted "Email" ++ ":" ++ dq ++ dq ++ ","
  ++ quoted "Phone" ++ ":" ++ dq ++ dq ++ ","
  ++ quoted "Education" ++ ":[{" ++ quoted "Degree" ++ ":" ++ dq ++ dq ++ ","
  ++ quoted "School" ++ ":" ++ dq ++ dq ++ "}],"
  ++ quoted "Experience" ++ ":[{" ++ quoted "Company" ++ ":" ++ dq ++ dq ++ ","
  ++ quoted "Role" ++ ":" ++ dq ++ dq ++ "}],"
  ++ quoted "Skills" ++ ":[" ++ dq ++ dq ++ "],"
  ++ quoted "Languages" ++ ":[" ++ dq ++ dq ++ "]}".

Definition summary_prompt (cv_text : string) : string :=
  nl ++ "    CV:" ++ nl
  ++ "    " ++ cv_text ++ nl
  ++ nl
  ++ "    Extract information and return ONLY this JSON structure with no other text:" ++ nl
  ++ "    " ++ summary_template ++ nl
  ++ nl
  ++ "    Ignore any date or year fields" ++ nl
  ++ "    Replace empty strings with actual data. No explanations, no "
  ++ quoted "here is" ++ ", just JSON:" ++ nl
  ++ "    ".

Section Summarizer.

(** [json.loads(text, strict=False)]; [None] stands for
    [json.JSONDecodeError]. *)
Variable json_loads : string -> option json.

(** [summarize_cv] *)
Definition summarize_cv (cv_text : string) : M json :=
  response <- run_llama_fast (summary_prompt cv_text) "llama3.2:3b" 800 ;;
  let start_idx := PyStr.find "{" response in
  let end_idx := PyStr.rfind "}" response + 1 in
  if negb (start_idx =? -1) && negb (end_idx =? -1) then
    match json_loads (PyStr.slice start_idx end_idx response) with
    | Some summary => ret summary
    | None => raise ValueError
    end
  else ret (JDict [("raw", JStr response)]).

End Summarizer.

(* --------------------------------------------------------------- *)
(** *** The [/query] endpoint ([main.py]) *)

(** [v[:n]] as a value: of a list or of a string. *)
Definition slice_value (n : nat) (v : json) : result json :=
  match v with
  | JList l => Ok (JList (firstn n l))
  | JStr s => Ok (JStr (PyStr.take n s))
  | _ => Raise TypeError
  end.

(** [if entry.get(key): item[name] = entry[key]] *)
Definition renamed (key name : string) (d : list (string * json))
  : list (string * json) :=
  let v := Py.get key d in
  if Py.truthy v then [(name, v)] else [].

(** What one entry of a summary adds to the ["experience"] or
    ["education"] list of a result: an object with the two fields it
    has, under their lower-case names, when it has one at least. *)
Definition result_item (first second : string * string) (entry : json) : list json :=
  match entry with
  | JDict d =>
      let item := (renamed (fst first) (snd first) d
                   ++ renamed (fst second) (snd second) d)%list in
      if PyList.truthy item then [JDict item] else []
  | _ => []
  end.

(** The first two entries of a field, when it is a list. *)
Definition result_items (first second : string * string) (field : json) : list json :=
  if Py.truthy field then
    match field with
    | JList entries => flat_map (result_item first second) (firstn 2 entries)
    | _ => []
    end
  else [].

Definition option_str (s : option string) : json :=
  match s with Some t => JStr t | None => JNull end.

(** The dictionary that the endpoint builds for one search result
    whose summary was loaded. *)
Definition cv_result (i : Z) (found : search_result) (cv_summary : json)
  : result json :=
  match cv_summary with
  | JDict d =>
      let? skills :=
        if Py.truthy (Py.get "Skills" d)
        then slice_value 10 (Py.get_or (JList []) "Skills" d)
        else Ok (JList []) in
      Ok (JDict
            [ ("rank", JInt (i + 1));
              ("similarity_score", JFloat (sr_similarity found));
              ("cv_id", JInt (sr_cv_id found));
              ("candidate_name", option_str (sr_candidate_name found));
              ("filename", JStr (sr_filename found));
              ("skills", skills);
              ("experience",
               JList (result_items ("Role", "role") ("Company", "company")
                        (Py.get "Experience" d)));
              ("education",
               JList (result_items ("Degree", "degree") ("School", "school")
                        (Py.get "Education" d))) ])
  | _ => Raise AttributeError
  end.

(** The loop over [enumerate(raw_results)]. *)
Fixpoint cv_results_from (w : world) (a : assistant) (i : Z)
         (raw_results : list search_result) : result (list json) :=
  match raw_results with
  | [] => Ok []
  | found :: rest =>
      let cv_summary :=
        if negb (sr_cv_id found =? 0)
        then load_cv_summary w a (sr_cv_id found) else None in
      let? here :=
        match cv_summary with
        | Some summary => let? r := cv_result i found summary in Ok [r]
        | None => Ok []
        end in
      let? later := cv_results_from w a (i + 1) rest in
      Ok (here ++ later)%list
  end.

(** [query_cvs], for the authenticated user [current_user_id]: an
    empty query is refused with 400, and whatever else is raised on
    the way becomes a 500. *)
Definition query_cvs (q : string) (current_user_id : Z) (w : world)
  : endpoint query_response * world :=
  let assistant := load_conversation_history w (new_assistant current_user_id) in
  if negb (PyStr.truthy (PyStr.strip q)) then (HTTPException 400, w)
  else
    match process_query assistant q w with
    | (Raise _, _, w1) => (HTTPException 500, w1)
    | (Ok response_text, assistant1, w1) =>
        let is_search_query := is_cv_search_query q in
        match
          (if is_search_query then
             let top_k := extract_cv_count q in
             let raw_results := search_user_cvs w1 current_user_id q top_k in
             if PyList.truthy raw_results then
               let? cv_results := cv_results_from w1 assistant1 0 raw_results in
               Ok (cv_results, Z.of_nat (List.length raw_results))
             else Ok ([], 0)
           else Ok ([], 0))
        with
        | Raise _ => (HTTPException 500, w1)
        | Ok (cv_results, total_matches) =>
            (Returned
               {| qr_query := q;
                  qr_query_type :=
                    if is_search_query then "cv_search" else "general_chat";
                  qr_response_text := response_text;
                  qr_results := cv_results;
                  qr_total_matches := total_matches;
                  qr_user_id := current_user_id |}, w1)
        end
    end.

(* ================================================================= *)
(** ** Properties *)

(* --------------------------------------------------------------- *)
(** *** Text *)

Lemma rstrip_all_space (s : string) :
  PyStr.rstrip s = "" <-> PyStr.all_space s = true.
Proof.
  induction s as [|c r IH]; simpl.
  - tauto.
  - destruct (PyStr.rstrip r) eqn:Er.
    + destruct (PyStr.is_space c); simpl.
      * rewrite <- IH. tauto.
      * split; discriminate.
    + split; [discriminate|].
      rewrite andb_true_iff. intros [_ Hr]. apply IH in Hr. discriminate.
Qed.

Lemma lstrip_all_space (s : string) :
  PyStr.all_space (PyStr.lstrip s) = PyStr.all_space s.
Proof.
  induction s as [|c r IH]; simpl; [reflexivity|].
  destruct (PyStr.is_space c) eqn:Ec; simpl; [exact IH|].
  now rewrite Ec.
Qed.

(** [s.strip()] is empty exactly when [s] is empty or white space only. *)
Lemma strip_empty_iff (s : string) :
  PyStr.strip s = "" <-> PyStr.all_space s = true.
Proof.
  unfold PyStr.strip. rewrite rstrip_all_space. now rewrite lstrip_all_space.
Qed.

Lemma strip_truthy (s : string) :
  PyStr.truthy (PyStr.strip s) = negb (PyStr.all_space s).
Proof.
  destruct (PyStr.all_space s) eqn:E.
  - apply strip_empty_iff in E. now rewrite E.
  - destruct (PyStr.strip s) eqn:Es; [|reflexivity].
    apply strip_empty_iff in Es. congruence.
Qed.

(* --------------------------------------------------------------- *)
(** *** Orchestrator: the blank query *)

(** C10. A query that is empty or white space only is answered with
    "Please ask me something!" at once: the assistant (its history) and
    the world (the chat log, the script of the Ollama server) are left
    exactly as they were, so nothing was retrieved, generated or
    appended. *)
Theorem process_query_blank (a : assistant) (q : string) (w : world) :
  PyStr.all_space q = true ->
  process_query a q w = (Ok "Please ask me something!", a, w).
Proof.
  intros Hq. unfold process_query.
  now rewrite strip_truthy, Hq.
Qed.

(* --------------------------------------------------------------- *)
(** *** Orchestrator: what the fallback paths of a search return *)

Lemma unpack2_fallbacks :
  unpack2 (RStr no_matches) = Raise ValueError
  /\ unpack2 (RStr search_fallback) = Raise ValueError
  /\ unpack2 (RStr search_error) = Raise ValueError.
Proof. repeat split. Qed.

Lemma handle_cv_search_no_results (a : assistant) (q : string) (w : world) :
  search_user_cvs w (user_id a) q (extract_cv_count q) = [] ->
  handle_cv_search a q w = (Ok (RStr no_matches), w).
Proof.
  intros H. unfold handle_cv_search. now rewrite H.
Qed.

(** An owner without a row in [cv_embeddings] gets no result. *)
Lemma search_user_cvs_no_vectors (w : world) (uid : Z) (q : string) (k : Z) :
  (forall e, In e (cv_embeddings w) -> emb_user_id e <> uid) ->
  search_user_cvs w uid q k = [].
Proof.
  intros Hnone. unfold search_user_cvs.
  destruct (get_embedding q) as [qe|]; simpl; [|reflexivity].
  unfold DatabaseManager.get_user_embeddings, DatabaseManager.connect.
  destruct (db_up w); simpl; [|reflexivity].
  assert (Hj : DatabaseManager.join_where w uid = []).
  { unfold DatabaseManager.join_where.
    induction (cv_embeddings w) as [|e es IH]; simpl; [reflexivity|].
    rewrite IH by (intros e' He'; apply Hnone; now right).
    destruct (emb_user_id e =? uid) eqn:E; [|reflexivity].
    apply Z.eqb_eq in E. exfalso. apply (Hnone e); [now left|exact E]. }
  now rewrite Hj.
Qed.

(** C1. A search query for which retrieval returns nothing: the handler
    returns the bare "no matches" string, [process_query] unpacks it as a
    pair, and the call raises [ValueError]; the history and the chat log
    are left as they were, so the exchange is not recorded. *)
Theorem process_query_no_results_raises (a : assistant) (q : string) (w : world) :
  PyStr.all_space q = false ->
  is_cv_search_query q = true ->
  search_user_cvs w (user_id a) q (extract_cv_count q) = [] ->
  handle_cv_search a q w = (Ok (RStr "I couldn't find any relevant CVs for your query."), w)
  /\ process_query a q w = (Raise ValueError, a, w).
Proof.
  intros Hq Hs Hr. split.
  - now apply handle_cv_search_no_results.
  - unfold process_query.
    rewrite strip_truthy, Hq, Hs. simpl.
    now rewrite (handle_cv_search_no_results a q w Hr).
Qed.

(** C2. A search query with results whose generator call comes back
    blank, or raises: the handler substitutes its fixed message, as a
    bare string, and [process_query] raises [ValueError] on unpacking
    it, so the caller receives an exception and no message. *)
Theorem process_query_search_fallback_raises
        (a : assistant) (q : string) (w w' : world)
        (results : list search_result) (prompt : string) (out : result string) :
  PyStr.all_space q = false ->
  is_cv_search_query q = true ->
  search_user_cvs w (user_id a) q (extract_cv_count q) = results ->
  results <> [] ->
  build_search_prompt w a q results = Ok prompt ->
  run_llama prompt "llama3.2:3b" 600 (7 # 10) w = (out, w') ->
  match out with Ok response => is_blank response = true | Raise _ => True end ->
  handle_cv_search a q w
  = (Ok (RStr match out with Ok _ => search_fallback | Raise _ => search_error end), w')
  /\ process_query a q w = (Raise ValueError, a, w').
Proof.
  intros Hq Hs Hr Hne Hp Hrun Hout.
  assert (Hh : handle_cv_search a q w
               = (Ok (RStr match out with
                           | Ok _ => search_fallback
                           | Raise _ => search_error
                           end), w')).
  { unfold handle_cv_search. rewrite Hr.
    destruct results as [|r rs]; [congruence|]. simpl.
    rewrite Hp. unfold try_catch, bind. rewrite Hrun.
    destruct out as [response|e]; [now rewrite Hout|reflexivity]. }
  split; [exact Hh|].
  unfold process_query. rewrite strip_truthy, Hq, Hs. simpl. rewrite Hh.
  now destruct out.
Qed.

(** On the chat path the substitution reaches the caller. *)
Lemma process_query_chat_fallback
      (a : assistant) (q : string) (w w' : world) (out : result string) :
  PyStr.all_space q = false ->
  is_cv_search_query q = false ->
  find (fun kv => PyStr.contains (fst kv) (PyStr.strip (PyStr.lower q)))
       simple_responses = None ->
  run_llama (build_chat_prompt a q) "llama3.2:3b" 150 (8 # 10) w = (out, w') ->
  match out with Ok response => is_blank response = true | Raise _ => True end ->
  fst (fst (process_query a q w))
  = Ok match out with Ok _ => chat_fallback | Raise _ => chat_error end.
Proof.
  intros Hq Hs Hc Hrun Hout.
  unfold process_query. rewrite strip_truthy, Hq, Hs. simpl.
  unfold handle_chat. rewrite Hc. unfold try_catch, bind. rewrite Hrun.
  destruct out as [response|e].
  - rewrite Hout. unfold ret.
    now destruct (add_to_history a q chat_fallback CvNone w').
  - unfold ret. now destruct (add_to_history a q chat_error CvNone w').
Qed.

Lemma add_to_history_ollama (a : assistant) (u r : string)
      (cv : cv_results_arg) (w : world) :
  ollama (snd (add_to_history a u r cv w)) = ollama w.
Proof.
  unfold add_to_history.
  destruct (chat_create (user_id a) u r cv) as [row|]; simpl; [|reflexivity].
  unfold DatabaseManager.save_chat, DatabaseManager.connect.
  now destruct (db_up w).
Qed.

(** A chat query that contains one of the canned phrases is answered
    with the canned response, and the generator is not called: the
    script of the server is as it was. *)
Lemma process_query_canned (a : assistant) (q key canned : string) (w : world) :
  PyStr.all_space q = false ->
  is_cv_search_query q = false ->
  find (fun kv => PyStr.contains (fst kv) (PyStr.strip (PyStr.lower q)))
       simple_responses = Some (key, canned) ->
  fst (fst (process_query a q w)) = Ok canned
  /\ ollama (snd (process_query a q w)) = ollama w.
Proof.
  intros Hq Hs Hc. unfold process_query.
  rewrite strip_truthy, Hq, Hs. simpl.
  unfold handle_chat. rewrite Hc. unfold ret.
  pose proof (add_to_history_ollama a q canned CvNone w) as Ho.
  destruct (add_to_history a q canned CvNone w) as [a2 w2]. simpl in *.
  split; [reflexivity|exact Ho].
Qed.

(* --------------------------------------------------------------- *)
(** *** Context manager: the cap on the history *)

(** With a positive [max_history_length], the truncation keeps the last
    [2 * max_history_length] turns. *)
Lemma keep_recent_skipn (n : Z) (h : list turn) :
  0 < n ->
  keep_recent n h = skipn (List.length h - Z.to_nat (2 * n)) h.
Proof.
  intros Hn. unfold keep_recent, PyList.slice_from.
  rewrite Z.gtb_ltb.
  destruct (Z.ltb_spec (n * 2) (Z.of_nat (List.length h))) as [Hlong|Hshort].
  - destruct (Z.leb_spec 0 (- n * 2)) as [Hbad|_]; [lia|].
    f_equal. lia.
  - replace (List.length h - Z.to_nat (2 * n))%nat with 0%nat by lia.
    reflexivity.
Qed.

Lemma add_to_history_fields (a : assistant) (u r : string)
      (cv : cv_results_arg) (w : world) :
  let a' := fst (add_to_history a u r cv w) in
  user_id a' = user_id a
  /\ max_history_length a' = max_history_length a
  /\ conversation_history a'
     = keep_recent (max_history_length a)
         (conversation_history a
          ++ [ {| role := User; content := u |};
               {| role := Assistant; content := r |} ])%list.
Proof.
  unfold add_to_history.
  destruct (let? chat_data := chat_create (user_id a) u r cv in
            DatabaseManager.save_chat w chat_data); simpl; auto.
Qed.

(** Dropping the oldest turns twice is dropping them once. *)
Lemma skipn_suffix_again (c : nat) (X R : list turn) :
  let kept := skipn (List.length X - c) X in
  skipn (List.length (kept ++ R) - c) (kept ++ R)%list
  = skipn (List.length (X ++ R) - c) (X ++ R)%list.
Proof.
  simpl. destruct (Nat.le_gt_cases (List.length X) c) as [Hle|Hgt].
  - replace (List.length X - c)%nat with 0%nat by lia. reflexivity.
  - set (d := (List.length X - c)%nat).
    assert (Hk : List.length (skipn d X) = c)
      by (rewrite length_skipn; unfold d; lia).
    rewrite !length_app, Hk, !skipn_app, Hk, skipn_skipn.
    f_equal; f_equal; unfold d; lia.
Qed.

Lemma add_all_history (xs : list (string * string * cv_results_arg)) :
  forall (a : assistant) (w : world),
    0 < max_history_length a ->
    xs <> [] ->
    let a' := fst (add_all a w xs) in
    let every := (conversation_history a ++ turns_of xs)%list in
    max_history_length a' = max_history_length a
    /\ conversation_history a'
       = skipn (List.length every - Z.to_nat (2 * max_history_length a)) every.
Proof.
  induction xs as [|x rest IH]; intros a w Hn Hne; [congruence|].
  simpl add_all.
  pose proof (add_to_history_fields a (fst (fst x)) (snd (fst x)) (snd x) w)
    as (_ & Hmax & Hhist).
  destruct (add_to_history a (fst (fst x)) (snd (fst x)) (snd x) w) as [a1 w1].
  simpl in Hmax, Hhist. rewrite keep_recent_skipn in Hhist by exact Hn.
  destruct rest as [|y rest'].
  - simpl. split; [exact Hmax|]. exact Hhist.
  - assert (Hn1 : 0 < max_history_length a1) by now rewrite Hmax.
    destruct (IH a1 w1 Hn1 ltac:(discriminate)) as [Hmax' Hhist'].
    cbv zeta in *. split; [now rewrite Hmax', Hmax|].
    rewrite Hhist', Hmax, Hhist.
    set (X := (conversation_history a
               ++ [ {| role := User; content := fst (fst x) |};
                    {| role := Assistant; content := snd (fst x) |} ])%list).
    replace (conversation_history a ++ turns_of (x :: y :: rest'))%list
      with (X ++ turns_of (y :: rest'))%list
      by (unfold X; simpl; now rewrite <- app_assoc).
    apply skipn_suffix_again.
Qed.

(** C4. After any non-empty sequence of appends the history is the last
    [2 * max_history_length] turns of everything said so far: it never
    holds more than [2 * max_history_length] entries, and what is missing
    is a prefix, the oldest turns.  [HRAssistant.__init__] sets
    [max_history_length] to 10. *)
Theorem history_capped_fifo
        (a : assistant) (w : world) (xs : list (string * string * cv_results_arg)) :
  0 < max_history_length a ->
  xs <> [] ->
  let a' := fst (add_all a w xs) in
  let every := (conversation_history a ++ turns_of xs)%list in
  Z.of_nat (List.length (conversation_history a')) <= 2 * max_history_length a
  /\ conversation_history a'
     = skipn (List.length every - Z.to_nat (2 * max_history_length a)) every
  /\ exists dropped, every = (dropped ++ conversation_history a')%list.
Proof.
  intros Hn Hne a' every.
  destruct (add_all_history xs a w Hn Hne) as [_ Hhist].
  fold a' every in Hhist.
  split; [|split].
  - rewrite Hhist, length_skipn. lia.
  - exact Hhist.
  - exists (firstn (List.length every - Z.to_nat (2 * max_history_length a)) every).
    rewrite Hhist. symmetry. apply firstn_skipn.
Qed.

(** Loading the history at the start of a session gives at most
    [2 * max_history_length] turns, and none when the chat log cannot
    be read. *)
Lemma load_conversation_history_bounded (w : world) (a : assistant) :
  0 <= max_history_length a ->
  let a' := load_conversation_history w a in
  Z.of_nat (List.length (conversation_history a')) <= 2 * max_history_length a
  /\ (db_up w = false -> conversation_history a' = []).
Proof.
  intros Hn. unfold load_conversation_history, DatabaseManager.get_user_chats,
    DatabaseManager.connect.
  destruct (db_up w); cbv zeta; cbn [set_history conversation_history];
    [|split; [change (0 <= 2 * max_history_length a); lia|reflexivity]].
  split; [|discriminate].
  set (rows := firstn (Z.to_nat (max_history_length a)) _).
  assert (Hrows : (List.length rows <= Z.to_nat (max_history_length a))%nat)
    by (unfold rows; rewrite length_firstn; lia).
  assert (Hturns : List.length (flat_map history_of (rev rows))
                   = (List.length rows * 2)%nat).
  { rewrite (flat_map_constant_length (c := 2%nat)) by reflexivity.
    rewrite length_rev. lia. }
  unfold keep_recent. rewrite Z.gtb_ltb.
  destruct (Z.ltb_spec (max_history_length a * 2)
              (Z.of_nat (List.length (flat_map history_of (rev rows)))));
    lia.
Qed.

(** Eleven exchanges from a fresh assistant: twenty turns, those of the
    last ten exchanges. *)
Corollary eleven_exchanges (uid : Z) (w : world)
          (x : string * string * cv_results_arg)
          (xs : list (string * string * cv_results_arg)) :
  List.length xs = 10%nat ->
  let a' := fst (add_all (new_assistant uid) w (x :: xs)) in
  conversation_history a' = turns_of xs
  /\ List.length (conversation_history a') = 20%nat.
Proof.
  intros Hlen.
  destruct (add_all_history (x :: xs) (new_assistant uid) w) as [_ Hhist];
    [reflexivity|discriminate|].
  cbv zeta in *. rewrite Hhist.
  assert (Ht : List.length (turns_of xs) = 20%nat).
  { unfold turns_of. rewrite (flat_map_constant_length (c := 2%nat)) by reflexivity.
    lia. }
  simpl. rewrite Ht. simpl. split; [reflexivity|exact Ht].
Qed.

(* --------------------------------------------------------------- *)
(** *** Similarity ranker: the sort and the slice *)

Section Sorting.

Context {A : Type} (geb : A -> A -> bool).

Lemma insert_desc_perm (x : A) (l : list A) :
  Permutation (PyList.insert_desc geb x l) (x :: l).
Proof.
  induction l as [|y r IH]; simpl; [reflexivity|].
  destruct (geb x y); [reflexivity|].
  rewrite IH. apply perm_swap.
Qed.

Lemma sort_desc_perm (l : list A) : Permutation (PyList.sort_desc geb l) l.
Proof.
  induction l as [|x r IH]; simpl; [reflexivity|].
  rewrite insert_desc_perm. now constructor.
Qed.

Lemma sort_desc_length (l : list A) :
  List.length (PyList.sort_desc geb l) = List.length l.
Proof. apply Permutation_length, sort_desc_perm. Qed.

Hypothesis geb_total : forall x y, geb x y = true \/ geb y x = true.
Hypothesis geb_trans : forall x y z, geb x y = true -> geb y z = true -> geb x z = true.

Lemma insert_desc_sorted (x : A) (l : list A) :
  StronglySorted (fun a b => geb a b = true) l ->
  StronglySorted (fun a b => geb a b = true) (PyList.insert_desc geb x l).
Proof.
  induction 1 as [|y r Hr IH Hy]; simpl.
  - repeat constructor.
  - destruct (geb x y) eqn:Exy.
    + constructor; [now constructor|].
      constructor; [exact Exy|].
      rewrite Forall_forall in *. intros z Hz. eauto.
    + constructor; [exact IH|].
      rewrite Forall_forall in *. intros z Hz.
      apply (Permutation_in _ (insert_desc_perm x r)) in Hz.
      destruct Hz as [<-|Hz]; [|auto].
      destruct (geb_total x y) as [H|H]; congruence.
Qed.

Lemma sort_desc_sorted (l : list A) :
  StronglySorted (fun a b => geb a b = true) (PyList.sort_desc geb l).
Proof.
  induction l as [|x r IH]; simpl; [constructor|].
  now apply insert_desc_sorted.
Qed.

End Sorting.

Lemma strongly_sorted_weaken {A : Type} (R S : A -> A -> Prop) (l : list A) :
  (forall a b, R a b -> S a b) -> StronglySorted R l -> StronglySorted S l.
Proof.
  intros HRS. induction 1 as [|x r Hr IH Hx]; constructor; [exact IH|].
  eapply Forall_impl; [|exact Hx]. intros b. apply HRS.
Qed.

Lemma firstn_In {A : Type} (n : nat) (l : list A) (y : A) :
  In y (firstn n l) -> In y l.
Proof.
  revert n. induction l as [|x r IH]; intros [|n]; simpl; try tauto.
  intros [H|H]; [now left|right; eauto].
Qed.

Lemma firstn_strongly_sorted {A : Type} (R : A -> A -> Prop) (n : nat) (l : list A) :
  StronglySorted R l -> StronglySorted R (firstn n l).
Proof.
  intros Hl. revert n. induction Hl as [|x r Hr IH Hx]; intros [|n]; simpl;
    try constructor; auto.
  rewrite Forall_forall in *. intros y Hy. apply Hx.
  eapply firstn_In; eauto.
Qed.

Lemma slice_to_nonneg {A : Type} (k : Z) (l : list A) :
  0 <= k -> PyList.slice_to k l = firstn (Z.to_nat k) l.
Proof.
  intros Hk. unfold PyList.slice_to.
  destruct (Z.leb_spec 0 k); [reflexivity|lia].
Qed.

(** A slice [l[:k]] is a prefix of [l], of at most [k] elements for a
    count [k]. *)
Lemma slice_to_firstn {A : Type} (k : Z) (l : list A) :
  exists m, PyList.slice_to k l = firstn m l
            /\ (0 <= k -> m = Z.to_nat k).
Proof.
  unfold PyList.slice_to. destruct (Z.leb_spec 0 k).
  - now exists (Z.to_nat k).
  - eexists. split; [reflexivity|lia].
Qed.

Lemma rmap_length {A B : Type} (f : A -> result B) (l : list A) (l' : list B) :
  rmap f l = Ok l' -> List.length l' = List.length l.
Proof.
  revert l'. induction l as [|x r IH]; simpl; intros l' H.
  - now inversion H.
  - destruct (f x); simpl in H; [|discriminate].
    destruct (rmap f r) as [ys|]; simpl in H; [|discriminate].
    inversion H; subst. simpl. f_equal. now apply IH.
Qed.

Lemma rmap_in {A B : Type} (f : A -> result B) (l : list A) (l' : list B) (y : B) :
  rmap f l = Ok l' -> In y l' -> exists x, In x l /\ f x = Ok y.
Proof.
  revert l'. induction l as [|x r IH]; simpl; intros l' H Hy.
  - inversion H; subst. contradiction.
  - destruct (f x) as [b|] eqn:Efx; simpl in H; [|discriminate].
    destruct (rmap f r) as [ys|]; simpl in H; [|discriminate].
    inversion H; subst. destruct Hy as [<-|Hy].
    + exists x. auto.
    + destruct (IH ys eq_refl Hy) as (x' & Hx' & Hf). exists x'. auto.
Qed.

Lemma by_similarity_total (x y : search_result) :
  by_similarity x y = true \/ by_similarity y x = true.
Proof.
  unfold by_similarity. rewrite !Qle_bool_iff.
  destruct (Qlt_le_dec (sr_similarity x) (sr_similarity y)) as [H|H].
  - right. now apply Qlt_le_weak.
  - now left.
Qed.

Lemma by_similarity_trans (x y z : search_result) :
  by_similarity x y = true -> by_similarity y z = true -> by_similarity x z = true.
Proof.
  unfold by_similarity. rewrite !Qle_bool_iff. intros H1 H2.
  now apply Qle_trans with (sr_similarity y).
Qed.

(** What [search_user_cvs] returns when its collaborators answer. *)
Lemma search_user_cvs_ok (w : world) (uid : Z) (q : string) (k : Z)
      (qe : vec) (candidates : list user_embedding) (scored : list search_result) :
  get_embedding q = Ok qe ->
  DatabaseManager.get_user_embeddings w uid = Ok candidates ->
  rmap (score qe) candidates = Ok scored ->
  search_user_cvs w uid q k
  = PyList.slice_to k (PyList.sort_desc by_similarity scored).
Proof.
  intros Hq Hc Hs. unfold search_user_cvs, rank. rewrite Hq, Hc. simpl.
  destruct candidates as [|c cs]; simpl.
  - inversion Hs; subst. simpl. unfold PyList.slice_to.
    destruct (0 <=? k); now rewrite firstn_nil.
  - simpl in Hs. now rewrite Hs.
Qed.

(** Every outcome of [search_user_cvs] is a slice of a sorted list of
    scored candidates, the empty one when something was raised. *)
Lemma search_user_cvs_shape (w : world) (uid : Z) (q : string) (k : Z) :
  exists scored,
    search_user_cvs w uid q k
    = PyList.slice_to k (PyList.sort_desc by_similarity scored)
    /\ (List.length scored <= List.length (DatabaseManager.join_where w uid))%nat
    /\ forall r, In r scored ->
         exists qe c, get_embedding q = Ok qe
                      /\ In c (DatabaseManager.join_where w uid)
                      /\ score qe c = Ok r.
Proof.
  assert (Hnil : exists scored : list search_result,
             [] = PyList.slice_to k (PyList.sort_desc by_similarity scored)
             /\ (List.length scored <= List.length (DatabaseManager.join_where w uid))%nat
             /\ forall r, In r scored ->
                  exists qe c, get_embedding q = Ok qe
                               /\ In c (DatabaseManager.join_where w uid)
                               /\ score qe c = Ok r).
  { exists []. simpl. unfold PyList.slice_to.
    destruct (0 <=? k); rewrite firstn_nil; repeat split; try lia; contradiction. }
  unfold search_user_cvs.
  destruct (get_embedding q) as [qe|] eqn:Eq; simpl; [|exact Hnil].
  unfold DatabaseManager.get_user_embeddings, DatabaseManager.connect.
  destruct (db_up w); simpl; [|exact Hnil].
  set (cands := PyList.sort_desc _ (DatabaseManager.join_where w uid)).
  assert (Hperm : Permutation cands (DatabaseManager.join_where w uid))
    by apply sort_desc_perm.
  destruct cands as [|c cs] eqn:Ec; simpl; [exact Hnil|].
  unfold rank. destruct (rmap (score qe) (c :: cs)) as [scored|] eqn:Es;
    [|exact Hnil].
  simpl. exists scored. split; [reflexivity|]. split.
  - rewrite (rmap_length _ _ _ Es), (Permutation_length Hperm). lia.
  - intros r Hr. destruct (rmap_in _ _ _ _ Es Hr) as (x & Hx & Hf).
    exists qe, x. repeat split; auto.
    eapply Permutation_in; eauto.
Qed.

(** C6. What [search_user_cvs] returns has at most as many entries as
    the owner has candidate vectors, and at most [top_k] of them for a
    count [top_k >= 0]; its similarities never increase along the list;
    no candidate gives the empty list; and when the collaborators answer
    it is the sorted list of all scored candidates cut to [top_k]: all
    of them when there are at most [top_k]. *)
Theorem search_user_cvs_ranked (w : world) (uid : Z) (q : string) (top_k : Z) :
  let results := search_user_cvs w uid q top_k in
  let candidates := DatabaseManager.join_where w uid in
  (0 <= top_k -> Z.of_nat (List.length results) <= top_k)
  /\ (List.length results <= List.length candidates)%nat
  /\ StronglySorted (fun a b => (sr_similarity b <= sr_similarity a)%Q) results
  /\ (candidates = [] -> results = [])
  /\ forall qe rows scored,
       get_embedding q = Ok qe ->
       DatabaseManager.get_user_embeddings w uid = Ok rows ->
       rmap (score qe) rows = Ok scored ->
       results = PyList.slice_to top_k (PyList.sort_desc by_similarity scored)
       /\ Permutation rows candidates
       /\ (Z.of_nat (List.length candidates) <= top_k ->
           Permutation results scored
           /\ List.length results = List.length candidates).
Proof.
  intros results candidates.
  destruct (search_user_cvs_shape w uid q top_k) as (scored & Hres & Hlen & _).
  fold results candidates in Hres, Hlen.
  destruct (slice_to_firstn top_k (PyList.sort_desc by_similarity scored))
    as (m & Hm & Hmk).
  rewrite Hm in Hres.
  assert (Hl : (List.length results <= List.length scored)%nat).
  { rewrite Hres, length_firstn, sort_desc_length. lia. }
  split; [|split; [|split; [|split]]].
  - intros Hk. rewrite Hres, length_firstn. specialize (Hmk Hk). lia.
  - lia.
  - rewrite Hres. apply firstn_strongly_sorted.
    apply (strongly_sorted_weaken (fun a b => by_similarity a b = true)).
    + intros a b Hab. now apply Qle_bool_iff.
    + apply sort_desc_sorted;
        [exact by_similarity_total|exact by_similarity_trans].
  - intros Hnone. rewrite Hnone in Hlen. simpl in Hlen.
    destruct results; [reflexivity|simpl in Hl; lia].
  - intros qe rows scored' Hq Hrows Hs.
    assert (Hperm : Permutation rows candidates).
    { unfold DatabaseManager.get_user_embeddings, DatabaseManager.connect in Hrows.
      destruct (db_up w); [|discriminate].
      inversion Hrows; subst. apply sort_desc_perm. }
    pose proof (search_user_cvs_ok w uid q top_k qe rows scored' Hq Hrows Hs) as Hok.
    fold results in Hok.
    split; [exact Hok|]. split; [exact Hperm|].
    intros Hfew.
    assert (Hsl : List.length scored' = List.length candidates).
    { rewrite (rmap_length _ _ _ Hs). now apply Permutation_length. }
    assert (Hall : results = PyList.sort_desc by_similarity scored').
    { rewrite Hok, slice_to_nonneg by lia.
      apply firstn_all2. rewrite sort_desc_length. lia. }
    split.
    + rewrite Hall. apply sort_desc_perm.
    + now rewrite Hall, sort_desc_length.
Qed.

(* --------------------------------------------------------------- *)
(** *** Owner isolation *)

(** The join of [get_user_embeddings] reads the vectors of [uid] only. *)
Lemma join_where_owned (w : world) (uid : Z) :
  DatabaseManager.join_where w uid
  = flat_map
      (fun e => map (DatabaseManager.joined e)
                    (filter (fun c => cv_id c =? emb_cv_id e) (cvs w)))
      (filter (fun e => emb_user_id e =? uid) (cv_embeddings w)).
Proof.
  unfold DatabaseManager.join_where.
  induction (cv_embeddings w) as [|e es IH]; simpl; [reflexivity|].
  destruct (emb_user_id e =? uid); simpl; now rewrite IH.
Qed.

Lemma join_where_same_view (uid : Z) (w1 w2 : world) :
  same_owner_view uid w1 w2 ->
  DatabaseManager.join_where w1 uid = DatabaseManager.join_where w2 uid.
Proof.
  intros (_ & Hcvs & Hemb). now rewrite !join_where_owned, Hcvs, Hemb.
Qed.

Lemma join_where_origin (w : world) (uid : Z) (c : user_embedding) :
  In c (DatabaseManager.join_where w uid) ->
  exists e, In e (cv_embeddings w)
            /\ emb_user_id e = uid
            /\ ue_cv_id c = emb_cv_id e
            /\ ue_embedding c = emb_embedding e
            /\ ue_embedding_text c = emb_embedding_text e.
Proof.
  unfold DatabaseManager.join_where. rewrite in_flat_map.
  intros (e & He & Hc). exists e.
  destruct (emb_user_id e =? uid) eqn:Eu; [|contradiction].
  apply Z.eqb_eq in Eu. apply in_map_iff in Hc. destruct Hc as (cv & <- & _).
  simpl. auto.
Qed.

(** Saving a vector for another owner leaves the view of [uid] as it
    was. *)
Lemma save_cv_embedding_other_owner (uid : Z) (w w' : world) (e : emb_row) :
  emb_user_id e <> uid ->
  DatabaseManager.save_cv_embedding w e = Ok w' ->
  same_owner_view uid w w'.
Proof.
  intros Hother. unfold DatabaseManager.save_cv_embedding, DatabaseManager.connect.
  destruct (db_up w) eqn:Eup; [|discriminate].
  intros H. inversion H; subst; clear H.
  unfold same_owner_view. simpl. repeat split; auto.
  rewrite filter_app. simpl.
  apply Z.eqb_neq in Hother. rewrite Hother. now rewrite app_nil_r.
Qed.

(** So does deleting the vectors of another owner's CV. *)
Lemma delete_cv_embeddings_other_owner (uid : Z) (w w' : world) (id owner : Z) :
  owner <> uid ->
  DatabaseManager.delete_cv_embeddings w id owner = Ok w' ->
  same_owner_view uid w w'.
Proof.
  intros Hother. unfold DatabaseManager.delete_cv_embeddings, DatabaseManager.connect.
  destruct (db_up w) eqn:Eup; [|discriminate].
  intros H. inversion H; subst; clear H.
  unfold same_owner_view. simpl. repeat split; auto.
  induction (cv_embeddings w) as [|e es IH]; simpl; [reflexivity|].
  destruct (emb_user_id e =? uid) eqn:Eu; simpl.
  - assert (Ho : (emb_user_id e =? owner) = false).
    { apply Z.eqb_neq. apply Z.eqb_eq in Eu. congruence. }
    rewrite Ho, andb_false_r. simpl. rewrite Eu. now f_equal.
  - destruct (negb ((emb_cv_id e =? id) && (emb_user_id e =? owner)));
      simpl; [now rewrite Eu|exact IH].
Qed.

Lemma search_user_cvs_same_view (uid : Z) (w1 w2 : world) (q : string) (k : Z) :
  same_owner_view uid w1 w2 ->
  search_user_cvs w1 uid q k = search_user_cvs w2 uid q k.
Proof.
  intros Hview. pose proof Hview as (Hup & _ & _).
  unfold search_user_cvs, DatabaseManager.get_user_embeddings,
    DatabaseManager.connect.
  now rewrite (join_where_same_view uid w1 w2 Hview), Hup.
Qed.

(** C7. Two states of the store that differ at most in the vectors of
    other owners give [uid] the same search results and the same
    summaries, whatever the query; and every result comes from a row of
    [cv_embeddings] that [uid] owns, every summary from a row of [cvs]
    that [uid] owns. *)
Theorem owner_isolation (uid : Z) (w1 w2 : world) :
  same_owner_view uid w1 w2 ->
  (forall q top_k, search_user_cvs w1 uid q top_k = search_user_cvs w2 uid q top_k)
  /\ (forall id, get_cv_full_summary w1 id uid = get_cv_full_summary w2 id uid)
  /\ (forall q top_k r,
        In r (search_user_cvs w1 uid q top_k) ->
        exists e qe,
          In e (cv_embeddings w1)
          /\ emb_user_id e = uid
          /\ sr_cv_id r = emb_cv_id e
          /\ sr_embedding_text r = emb_embedding_text e
          /\ get_embedding q = Ok qe
          /\ cosine_similarity qe (emb_embedding e) = Ok (sr_similarity r))
  /\ (forall id j,
        get_cv_full_summary w1 id uid = Some j ->
        exists c, In c (cvs w1) /\ cv_id c = id /\ cv_user_id c = uid
                  /\ cv_summary_json c = Summary j).
Proof.
  intros Hview. pose proof Hview as (Hup & Hcvs & _).
  split; [|split; [|split]].
  - intros q top_k. now apply search_user_cvs_same_view.
  - intros id. unfold get_cv_full_summary, DatabaseManager.get_cv_by_id,
      DatabaseManager.connect.
    now rewrite Hup, Hcvs.
  - intros q top_k r Hr.
    destruct (search_user_cvs_shape w1 uid q top_k) as (scored & Hres & _ & Hfrom).
    rewrite Hres in Hr.
    assert (Hin : In r scored).
    { unfold PyList.slice_to in Hr.
      destruct (0 <=? top_k); apply firstn_In in Hr;
        eapply Permutation_in; try exact Hr; apply sort_desc_perm. }
    destruct (Hfrom r Hin) as (qe & c & Hq & Hc & Hs).
    destruct (join_where_origin w1 uid c Hc) as (e & He & Hu & Hid & Hv & Ht).
    exists e, qe. unfold score in Hs.
    destruct (cosine_similarity qe (ue_embedding c)) as [sim|] eqn:Ecos;
      simpl in Hs; [|discriminate].
    inversion Hs; subst r; simpl. rewrite <- Hv. auto 10.
  - intros id j. unfold get_cv_full_summary, DatabaseManager.get_cv_by_id,
      DatabaseManager.connect.
    destruct (db_up w1); [|discriminate].
    destruct (find _ (cvs w1)) as [c|] eqn:Ef; [|discriminate].
    apply find_some in Ef. destruct Ef as [Hin Hmatch].
    apply andb_true_iff in Hmatch. destruct Hmatch as [Hid Hu].
    apply Z.eqb_eq in Hid. apply Z.eqb_eq in Hu.
    destruct (cv_summary_json c) as [| |j'] eqn:Es; simpl; rewrite ?Es;
      try discriminate.
    destruct (Py.truthy j'); [|discriminate].
    intros H. inversion H; subst. exists c. auto.
Qed.

(* --------------------------------------------------------------- *)
(** *** Repeating a query *)

Lemma same_store_refl (w : world) : same_store w w.
Proof. repeat split. Qed.

Lemma same_store_trans (w1 w2 w3 : world) :
  same_store w1 w2 -> same_store w2 w3 -> same_store w1 w3.
Proof.
  intros (H1 & H2 & H3) (H4 & H5 & H6). repeat split; congruence.
Qed.

Lemma keeps_store_ret {A : Type} (x : A) : keeps_store (ret x).
Proof. intros w. apply same_store_refl. Qed.

Lemma keeps_store_raise {A : Type} (e : exn) : keeps_store (@raise A e).
Proof. intros w. apply same_store_refl. Qed.

Lemma keeps_store_lift {A : Type} (r : result A) : keeps_store (lift r).
Proof. intros w. apply same_store_refl. Qed.

Lemma keeps_store_bind {A B : Type} (m : M A) (k : A -> M B) :
  keeps_store m -> (forall x, keeps_store (k x)) -> keeps_store (bind m k).
Proof.
  intros Hm Hk w. unfold bind. specialize (Hm w).
  destruct (m w) as [[x|e] w']; simpl in *; [|exact Hm].
  eapply same_store_trans; [exact Hm|apply Hk].
Qed.

Lemma keeps_store_try_catch {A : Type} (m : M A) (h : exn -> M A) :
  keeps_store m -> (forall e, keeps_store (h e)) -> keeps_store (try_catch m h).
Proof.
  intros Hm Hh w. unfold try_catch. specialize (Hm w).
  destruct (m w) as [[x|e] w']; simpl in *; [exact Hm|].
  eapply same_store_trans; [exact Hm|apply Hh].
Qed.

Lemma keeps_store_send (r : request) : keeps_store (send r).
Proof.
  intros w. unfold send. destruct (ollama w); simpl; repeat split.
Qed.

Lemma keeps_store_if {A : Type} (b : bool) (m1 m2 : M A) :
  keeps_store m1 -> keeps_store m2 -> keeps_store (if b then m1 else m2).
Proof. now destruct b. Qed.

Create HintDb frame discriminated.
#[local] Hint Resolve keeps_store_ret keeps_store_raise keeps_store_lift
  keeps_store_send keeps_store_if : frame.
#[local] Hint Extern 2 (keeps_store (bind _ _)) =>
  apply keeps_store_bind; [|intro] : frame.
#[local] Hint Extern 2 (keeps_store (try_catch _ _)) =>
  apply keeps_store_try_catch; [|intro] : frame.

Lemma keeps_store_is_available : keeps_store is_available.
Proof. unfold is_available, requests_get. auto 10 with frame. Qed.

Lemma keeps_store_get_available_models : keeps_store get_available_models.
Proof. unfold get_available_models, requests_get. auto 15 with frame. Qed.

Lemma keeps_store_check_model_available (model : string) :
  keeps_store (check_model_available model).
Proof.
  unfold check_model_available.
  apply keeps_store_bind; [apply keeps_store_get_available_models|].
  auto with frame.
Qed.

Lemma keeps_store_generate (prompt model : string) (options : json) :
  keeps_store (generate prompt model options).
Proof. unfold generate, requests_post. auto 15 with frame. Qed.

Lemma keeps_store_run_llama (prompt model : string) (n : Z) (t : Q) :
  keeps_store (run_llama prompt model n t).
Proof.
  unfold run_llama.
  apply keeps_store_bind; [apply keeps_store_is_available|intros available].
  apply keeps_store_if; [auto with frame|].
  apply keeps_store_bind; [apply keeps_store_check_model_available|intros found].
  apply keeps_store_if.
  - apply keeps_store_bind; [apply keeps_store_get_available_models|].
    auto with frame.
  - apply keeps_store_generate.
Qed.

Lemma keeps_store_handle_cv_search (a : assistant) (q : string) :
  keeps_store (handle_cv_search a q).
Proof.
  intros w. unfold handle_cv_search.
  destruct (negb _); [apply same_store_refl|].
  destruct (build_search_prompt _ _ _ _) as [prompt|e]; [|apply same_store_refl].
  apply keeps_store_try_catch; [|auto with frame].
  apply keeps_store_bind; [apply keeps_store_run_llama|].
  intros response. destruct (is_blank response); auto with frame.
Qed.

Lemma keeps_store_handle_chat (a : assistant) (q : string) :
  keeps_store (handle_chat a q).
Proof.
  unfold handle_chat.
  destruct (find _ simple_responses) as [[key canned]|]; [auto with frame|].
  apply keeps_store_try_catch; [|auto with frame].
  apply keeps_store_bind; [apply keeps_store_run_llama|].
  intros response. destruct (is_blank response); auto with frame.
Qed.

Lemma add_to_history_store (a : assistant) (u r : string)
      (cv : cv_results_arg) (w : world) :
  same_store w (snd (add_to_history a u r cv w)).
Proof.
  unfold add_to_history.
  destruct (chat_create (user_id a) u r cv) as [row|]; simpl;
    [|apply same_store_refl].
  unfold DatabaseManager.save_chat, DatabaseManager.connect.
  destruct (db_up w); simpl; repeat split.
Qed.

(** [process_query] leaves the owner and the profile store as they
    were. *)
Lemma process_query_frame (a : assistant) (q : string) (w : world) :
  user_id (snd (fst (process_query a q w))) = user_id a
  /\ same_store w (snd (process_query a q w)).
Proof.
  unfold process_query.
  destruct (negb _); [split; [reflexivity|apply same_store_refl]|].
  destruct (is_cv_search_query q).
  - pose proof (keeps_store_handle_cv_search a q w) as Hs.
    destruct (handle_cv_search a q w) as [[value|e] w1]; simpl in *; [|auto].
    destruct (unpack2 value) as [[response cv]|e]; simpl; [|auto].
    pose proof (add_to_history_fields a q response cv w1) as (Hu & _).
    pose proof (add_to_history_store a q response cv w1) as Hw.
    destruct (add_to_history a q response cv w1) as [a2 w2]; simpl in *.
    split; [exact Hu|]. eapply same_store_trans; eauto.
  - pose proof (keeps_store_handle_chat a q w) as Hs.
    destruct (handle_chat a q w) as [[response|e] w1]; simpl in *; [|auto].
    pose proof (add_to_history_fields a q response CvNone w1) as (Hu & _).
    pose proof (add_to_history_store a q response CvNone w1) as Hw.
    destruct (add_to_history a q response CvNone w1) as [a2 w2]; simpl in *.
    split; [exact Hu|]. eapply same_store_trans; eauto.
Qed.

(** Retrieval reads the owner, the query and the profile store, and
    nothing else: not the history, not the chat log, not the generator. *)
Lemma query_plan_same_store (a a' : assistant) (q : string) (w w' : world) :
  user_id a = user_id a' ->
  same_store w w' ->
  query_plan a q w = query_plan a' q w'.
Proof.
  intros Hu (Hup & Hcvs & Hemb). unfold query_plan. rewrite <- Hu.
  f_equal. apply search_user_cvs_same_view.
  unfold same_owner_view. now rewrite Hup, Hcvs, Hemb.
Qed.

(** The ranked results that [handle_cv_search] hands on are those of the
    plan. *)
Lemma handle_cv_search_ranked (a : assistant) (q : string) (w w' : world)
      (response : string) (ranked : list search_result) :
  handle_cv_search a q w = (Ok (RPair response ranked), w') ->
  ranked = snd (query_plan a q w).
Proof.
  unfold handle_cv_search, query_plan. simpl.
  destruct (negb _); [discriminate|].
  destruct (build_search_prompt _ _ _ _) as [prompt|e]; [|discriminate].
  unfold try_catch, bind.
  destruct (run_llama prompt _ _ _ w) as [[text|e] w1]; [|discriminate].
  destruct (is_blank text); unfold ret; intros H; inversion H; reflexivity.
Qed.

(** C8. Asking the same query again, from the state the first call left
    behind (a longer history, one more chat row, a generator that may
    answer differently), or from any state with the same owner and the
    same profile store: the intent, the result count and the ranked
    results are the same, and so is the ranked list that a successful
    search hands on with its response. *)
Theorem process_query_twice (a : assistant) (q : string) (w : world) :
  let a1 := snd (fst (process_query a q w)) in
  let w1 := snd (process_query a q w) in
  query_plan a1 q w1 = query_plan a q w
  /\ (forall a' w',
        user_id a' = user_id a -> same_store w w' ->
        query_plan a' q w' = query_plan a q w)
  /\ (forall response1 ranked1 wa response2 ranked2 wb,
        handle_cv_search a q w = (Ok (RPair response1 ranked1), wa) ->
        handle_cv_search a1 q w1 = (Ok (RPair response2 ranked2), wb) ->
        ranked1 = ranked2).
Proof.
  intros a1 w1.
  destruct (process_query_frame a q w) as [Hu Hw]. fold a1 in Hu. fold w1 in Hw.
  assert (Hplan : query_plan a1 q w1 = query_plan a q w)
    by (symmetry; now apply query_plan_same_store).
  split; [exact Hplan|]. split.
  - intros a' w' Hu' Hw'. symmetry. now apply query_plan_same_store.
  - intros response1 ranked1 wa response2 ranked2 wb H1 H2.
    apply handle_cv_search_ranked in H1. apply handle_cv_search_ranked in H2.
    congruence.
Qed.

(* --------------------------------------------------------------- *)
(** *** Prompt composer *)

Lemma string_app_assoc (a b c : string) : (a ++ b) ++ c = a ++ (b ++ c).
Proof. induction a as [|x a IH]; simpl; [reflexivity|now rewrite IH]. Qed.

Lemma string_app_nil_r (a : string) : a ++ "" = a.
Proof. induction a as [|x a IH]; simpl; [reflexivity|now rewrite IH]. Qed.

Lemma prefix_app (a b : string) : String.prefix a (a ++ b) = true.
Proof.
  induction a as [|x a IH]; simpl; [now destruct b|].
  destruct (ascii_dec x x); [exact IH|congruence].
Qed.

Lemma contains_prefix (needle hay : string) :
  String.prefix needle hay = true -> PyStr.contains needle hay = true.
Proof. intros H. destruct hay; cbn [PyStr.contains]; now rewrite H. Qed.

Lemma contains_here (a b : string) : PyStr.contains a (a ++ b) = true.
Proof. apply contains_prefix, prefix_app. Qed.

Lemma contains_app_l (needle a hay : string) :
  PyStr.contains needle hay = true -> PyStr.contains needle (a ++ hay) = true.
Proof.
  intros H. induction a as [|x a IH]; simpl; [exact H|].
  rewrite IH. apply orb_true_r.
Qed.

Lemma prefix_app_r (needle hay rest : string) :
  String.prefix needle hay = true -> String.prefix needle (hay ++ rest) = true.
Proof.
  revert hay. induction needle as [|x n IH]; intros [|y h]; simpl; auto.
  - now destruct rest.
  - discriminate.
  - destruct (ascii_dec x y); [apply IH|discriminate].
Qed.

Lemma contains_app_r (needle hay rest : string) :
  PyStr.contains needle hay = true -> PyStr.contains needle (hay ++ rest) = true.
Proof.
  induction hay as [|y h IH].
  - cbn [PyStr.contains]. rewrite orb_false_r. intros H.
    apply contains_prefix. now apply (prefix_app_r needle "" rest).
  - change (String y h ++ rest) with (String y (h ++ rest)).
    cbn [PyStr.contains]. rewrite !orb_true_iff. intros [H|H].
    + left. now apply (prefix_app_r needle (String y h) rest).
    + right. now apply IH.
Qed.

(** A string contains what it was assembled around. *)
Lemma contains_middle (needle a b : string) :
  PyStr.contains needle (a ++ needle ++ b) = true.
Proof. apply contains_app_l, contains_here. Qed.

(** A record in which none of the four fields that the composer reads
    is present with a truthy value, whatever else it holds: the heading
    alone. *)
Lemma format_cv_summary_empty (d : list (string * json)) (rank : Z) :
  Py.truthy (Py.get "Name" d) = false ->
  Py.truthy (Py.get "Education" d) = false ->
  Py.truthy (Py.get "Experience" d) = false ->
  Py.truthy (Py.get "Skills" d) = false ->
  format_cv_summary (JDict d) rank
  = Ok ("CANDIDATE " ++ PyStr.of_int rank ++ ":" ++ nl).
Proof.
  intros Hname Heducation Hexperience Hskills.
  unfold format_cv_summary, entries_line, skills_line.
  rewrite Hname, Heducation, Hexperience, Hskills. cbn [rbind app].
  unfold PyStr.join. cbn [String.concat].
  now rewrite ?string_app_nil_r, ?string_app_assoc.
Qed.

(** A record whose only field is unknown to the composer, as the
    [{"raw": ...}] that [summarize_cv] falls back to. *)
Lemma format_cv_summary_raw (raw : json) (rank : Z) :
  format_cv_summary (JDict [("raw", raw)]) rank
  = Ok ("CANDIDATE " ++ PyStr.of_int rank ++ ":" ++ nl).
Proof.
  unfold format_cv_summary. simpl.
  now rewrite ?string_app_nil_r, ?string_app_assoc.
Qed.

(** C3. A summary whose [Education] is a JSON object, not a list of
    objects: [cv_summary['Education'][:2]] slices a dict and the
    formatter raises instead of omitting the line. *)
Theorem format_cv_summary_education_object_raises
        (d items : list (string * json)) (rank : Z) :
  Py.get "Education" d = JDict items ->
  items <> [] ->
  format_cv_summary (JDict d) rank = Raise TypeError.
Proof.
  intros Hedu Hne. unfold format_cv_summary, entries_line.
  rewrite Hedu. destruct items as [|kv rest]; [congruence|]. reflexivity.
Qed.

(** Likewise a [Skills] list with an entry that is not a string:
    [', '.join] raises. *)
Lemma format_cv_summary_skill_not_string_raises
      (d : list (string * json)) (skills : list json) (rank : Z) :
  Py.truthy (Py.get "Education" d) = false ->
  Py.truthy (Py.get "Experience" d) = false ->
  Py.get "Skills" d = JList skills ->
  skills <> [] ->
  Py.join ", " (firstn 10 skills) = Raise TypeError ->
  format_cv_summary (JDict d) rank = Raise TypeError.
Proof.
  intros Hedu Hexp Hsk Hne Hjoin.
  assert (Ht : Py.truthy (JList skills) = true)
    by (destruct skills; [congruence|reflexivity]).
  unfold format_cv_summary, entries_line, skills_line.
  rewrite Hedu, Hexp, Hsk, Ht. cbn [rbind]. now rewrite Hjoin.
Qed.

Lemma join_of_strings (sep : string) (items : list json) :
  forallb is_str items = true -> exists s, Py.join sep items = Ok s.
Proof.
  intros H. unfold Py.join.
  assert (Hparts : exists parts, rmap Py.as_str items = Ok parts).
  { induction items as [|x r IH]; simpl; [now exists []|].
    simpl in H. apply andb_true_iff in H. destruct H as [Hx Hr].
    destruct x; try discriminate. simpl.
    destruct (IH Hr) as [parts ->]. simpl. now eexists. }
  destruct Hparts as [parts ->]. simpl. now eexists.
Qed.

Lemma forallb_flat_map {A B : Type} (p : B -> bool) (f : A -> list B) (l : list A) :
  (forall x, In x l -> forallb p (f x) = true) ->
  forallb p (flat_map f l) = true.
Proof.
  induction l as [|x r IH]; simpl; intros H; [reflexivity|].
  rewrite forallb_app, (H x (or_introl eq_refl)), IH; auto.
Qed.

Lemma education_entry_strings (e : json) :
  entry_ok ["Degree"; "School"] e = true ->
  forallb is_str (education_entry e) = true.
Proof.
  destruct e as [| | | | | |d]; try reflexivity. simpl.
  rewrite andb_true_r, andb_true_iff. unfold text_or_falsy. intros [Hd Hs].
  destruct (Py.truthy (Py.get_or (JStr "") "Degree" d)); simpl in *.
  - now rewrite orb_false_r in Hd; rewrite Hd.
  - destruct (Py.truthy (Py.get_or (JStr "") "School" d)); simpl in *;
      [now rewrite orb_false_r in Hs; rewrite Hs|reflexivity].
Qed.

Lemma experience_entry_strings (e : json) :
  entry_ok ["Company"; "Role"] e = true ->
  forallb is_str (experience_entry e) = true.
Proof.
  destruct e as [| | | | | |d]; try reflexivity. simpl.
  rewrite andb_true_r, andb_true_iff. unfold text_or_falsy. intros [Hc Hr].
  destruct (Py.truthy (Py.get_or (JStr "") "Role" d)); simpl in *.
  - rewrite orb_false_r in Hr.
    destruct (Py.truthy (Py.get_or (JStr "") "Company" d)); simpl;
      [reflexivity|now rewrite Hr].
  - destruct (Py.truthy (Py.get_or (JStr "") "Company" d)); simpl in *;
      [now rewrite orb_false_r in Hc; rewrite Hc|reflexivity].
Qed.

Lemma entries_line_total (label : string) (entry : json -> list json)
      (keys : list string) (field : json) :
  (forall e, entry_ok keys e = true -> forallb is_str (entry e) = true) ->
  entries_ok keys field = true ->
  exists lines, entries_line label entry field = Ok lines.
Proof.
  intros Hentry Hok. unfold entries_line.
  destruct (Py.truthy field) eqn:Ht; [|now eexists].
  assert (Hitems : exists items,
             Py.slice_items 2 field = Ok items
             /\ forall e, In e items -> entry_ok keys e = true).
  { destruct field; simpl in Hok, Ht; try discriminate;
      try (rewrite Ht in Hok; discriminate).
    - eexists. split; [reflexivity|].
      intros e He. apply in_map_iff in He. now destruct He as (c & <- & _).
    - eexists. split; [reflexivity|].
      intros e He. apply firstn_In in He.
      rewrite forallb_forall in Hok. now apply Hok. }
  destruct Hitems as (items & -> & Hall). simpl.
  destruct (flat_map entry items) as [|x r] eqn:Ec; simpl; [now eexists|].
  destruct (join_of_strings " | " (x :: r)) as [joined Hj].
  { rewrite <- Ec. apply forallb_flat_map. intros e He. apply Hentry, Hall, He. }
  rewrite Hj. simpl. now eexists.
Qed.

(** On a summary of the expected shape, with any field missing, the
    formatter returns a block. *)
Lemma format_cv_summary_well_shaped (d : list (string * json)) (rank : Z) :
  well_shaped d = true ->
  exists block, format_cv_summary (JDict d) rank = Ok block.
Proof.
  unfold well_shaped. rewrite !andb_true_iff. intros [[Hedu Hexp] Hsk].
  unfold format_cv_summary.
  destruct (entries_line_total "Education: " education_entry _ _
              education_entry_strings Hedu) as [education ->].
  destruct (entries_line_total "Experience: " experience_entry _ _
              experience_entry_strings Hexp) as [experience ->].
  cbn [rbind]. unfold skills_line.
  destruct (Py.truthy (Py.get "Skills" d)); [|cbn [rbind]; now eexists].
  destruct (Py.get "Skills" d) as [| | | | |skills|];
    try (cbn [rbind]; now eexists).
  destruct (join_of_strings ", " (firstn 10 skills)) as [text Ht].
  { simpl in Hsk. rewrite forallb_forall in *. intros x Hx.
    apply Hsk. eapply firstn_In; eauto. }
  rewrite Ht. cbn [rbind]. now eexists.
Qed.

(** What the loop over the results adds comes after what was there. *)
Lemma candidate_blocks_extends (w : world) (a : assistant)
      (cv_results : list search_result) :
  forall (i : Z) (prompt prompt' : string),
    candidate_blocks w a i cv_results prompt = Ok prompt' ->
    exists blocks, prompt' = prompt ++ blocks.
Proof.
  induction cv_results as [|r rest IH]; simpl; intros i prompt prompt' H.
  - inversion H; subst. exists "". now rewrite string_app_nil_r.
  - destruct (if negb (sr_cv_id r =? 0) then load_cv_summary w a (sr_cv_id r) else None)
      as [summary|]; simpl in H.
    + destruct (format_cv_summary summary i) as [block|]; simpl in H; [|discriminate].
      destruct (IH _ _ _ H) as [blocks ->].
      exists (block ++ blocks). now rewrite string_app_assoc.
    + exact (IH _ _ _ H).
Qed.

(** A composed prompt, search or chat, contains the query as typed. *)
Lemma prompts_contain_query (w : world) (a : assistant) (q : string)
      (cv_results : list search_result) :
  PyStr.contains q (build_chat_prompt a q) = true
  /\ forall prompt, build_search_prompt w a q cv_results = Ok prompt ->
                    PyStr.contains q prompt = true.
Proof.
  split.
  - unfold build_chat_prompt. apply contains_app_l, contains_middle.
  - intros prompt. unfold build_search_prompt.
    destruct (candidate_blocks _ _ _ _ _) as [body|] eqn:Eb; simpl; [|discriminate].
    intros H. inversion H; subst; clear H.
    apply candidate_blocks_extends in Eb. destruct Eb as [blocks ->].
    do 2 apply contains_app_r. apply contains_app_l, contains_middle.
Qed.

(* --------------------------------------------------------------- *)
(** *** Response generator: failures come back as text *)

Lemma is_available_silent (w : world) :
  ollama w = [] -> is_available w = (Ok false, w).
Proof.
  intros H. unfold is_available, try_catch, bind, requests_get, send.
  now rewrite H.
Qed.

Lemma is_available_refused (w : world) o rest :
  ollama w = o :: rest -> refused (o tags_request) ->
  is_available w = (Ok false, set_ollama w rest).
Proof.
  intros H Hr. unfold is_available, try_catch, bind, requests_get, send.
  rewrite H. fold tags_request. unfold refused in Hr.
  destruct (o tags_request) as [e|r]; simpl.
  - now rewrite Hr.
  - unfold ret. f_equal. f_equal. now apply Z.eqb_neq.
Qed.

Lemma is_available_up (w : world) o rest :
  ollama w = o :: rest -> answers_200 (o tags_request) ->
  is_available w = (Ok true, set_ollama w rest).
Proof.
  intros H (r & Hr & Hs). unfold is_available, try_catch, bind, requests_get, send.
  rewrite H. fold tags_request. rewrite Hr. simpl. unfold ret. now rewrite Hs.
Qed.

Lemma names_of_models (models : list json) (names : list string) :
  Forall2 (fun m n => exists dm, m = JDict dm
                                 /\ Py.lookup "name" dm = Some (JStr n))
          models names ->
  rmap (subscript "name") models = Ok (map JStr names).
Proof.
  induction 1 as [|m n ms ns (dm & -> & Hn) _ IH]; simpl; [reflexivity|].
  unfold Py.getitem. now rewrite Hn, IH.
Qed.

Lemma get_available_models_silent (w : world) :
  ollama w = [] -> get_available_models w = (Ok [], w).
Proof.
  intros H. unfold get_available_models, try_catch, bind, requests_get, send.
  now rewrite H.
Qed.

Lemma get_available_models_answer (w : world) o rest names :
  ollama w = o :: rest -> models_answer (o tags_request) names ->
  get_available_models w = (Ok (map JStr names), set_ollama w rest).
Proof.
  intros H Ha. unfold get_available_models, try_catch, bind, requests_get, send.
  rewrite H. change (api_url ++ "/tags") with (base_url ++ "/api/tags").
  fold tags_request.
  destruct Ha as [(r & d & models & Ho & Hs & Hb & Hm & Hn)|[Hr ->]].
  - rewrite Ho. simpl. rewrite Hs. simpl.
    unfold lift, response_json. rewrite Hb. simpl.
    unfold Py.get_or. rewrite Hm. simpl.
    now rewrite (names_of_models models names Hn).
  - unfold refused in Hr. destruct (o tags_request) as [e|r]; simpl.
    + now rewrite Hr.
    + apply Z.eqb_neq in Hr. now rewrite Hr.
Qed.

Lemma any_model_names (model : string) (names : list string) :
  any_model model (map JStr names) = Ok (existsb (PyStr.contains model) names).
Proof.
  induction names as [|n ns IH]; simpl; [reflexivity|].
  destruct (PyStr.contains model n); [reflexivity|exact IH].
Qed.

Lemma check_model_available_answer (w : world) o rest names (model : string) :
  ollama w = o :: rest -> models_answer (o tags_request) names ->
  check_model_available model w
  = (Ok (existsb (PyStr.contains model) names), set_ollama w rest).
Proof.
  intros H Ha. unfold check_model_available, bind.
  rewrite (get_available_models_answer w o rest names H Ha).
  unfold lift. now rewrite any_model_names.
Qed.

Lemma generate_fails_with_text (w : world) o rest prompt model max_tokens temperature :
  ollama w = o :: rest ->
  generation_fails (o (generate_request prompt model max_tokens temperature)) ->
  exists s,
    generate prompt model
      (JDict [("num_predict", JInt max_tokens); ("temperature", JFloat temperature)]) w
    = (Ok s, set_ollama w rest)
    /\ PyStr.startswith "Error:" s = true.
Proof.
  intros H Hf. unfold generate, try_catch, bind, requests_post, send.
  rewrite H. fold (generate_request prompt model max_tokens temperature).
  unfold generation_fails in Hf.
  destruct (o (generate_request prompt model max_tokens temperature)) as [e|r]; simpl.
  - rewrite Hf. destruct (is_Timeout e); eexists; split; reflexivity.
  - destruct (status_code r =? 200) eqn:Es.
    + destruct Hf as [Hf|Hf]; [apply Z.eqb_eq in Es; congruence|].
      unfold lift, response_json. rewrite Hf. simpl.
      destruct json_error_is_request_exception; eexists; split; reflexivity.
    + eexists; split; reflexivity.
Qed.

(** C9. In each failure mode of the generator (the server does not
    answer, the model is not among those the server lists, the
    generation request fails, times out, is answered with a status
    other than 200 or with a body that is not JSON), [run_llama] returns
    a string that begins with "Error:"; it does not raise. *)
Theorem run_llama_failure_is_text
        (prompt model : string) (max_tokens : Z) (temperature : Q) (w : world) :
  failure_mode prompt model max_tokens temperature (ollama w) ->
  exists s w',
    run_llama prompt model max_tokens temperature w = (Ok s, w')
    /\ PyStr.startswith "Error:" s = true.
Proof.
  intros Hmode. remember (ollama w) as script eqn:Hscript. symmetry in Hscript.
  unfold run_llama, bind.
  destruct Hmode as [|o rest Hr|o1 o2 rest names Hup Hans Hnone Hthird
                     |o1 o2 o3 rest names Hup Hlist Hsome Hfail].
  - rewrite (is_available_silent w Hscript). simpl.
    eexists _, _. split; reflexivity.
  - rewrite (is_available_refused w o rest Hscript Hr). simpl.
    eexists _, _. split; reflexivity.
  - rewrite (is_available_up w o1 (o2 :: rest) Hscript Hup). simpl.
    rewrite (check_model_available_answer (set_ollama w (o2 :: rest)) o2 rest names
               model eq_refl Hans).
    rewrite Hnone. simpl.
    destruct rest as [|o3 rest'].
    + rewrite get_available_models_silent by reflexivity.
      eexists _, _. split; reflexivity.
    + destruct Hthird as [names' Hans'].
      erewrite get_available_models_answer; [|reflexivity|exact Hans'].
      eexists _, _. split; reflexivity.
  - rewrite (is_available_up w o1 (o2 :: o3 :: rest) Hscript Hup). simpl.
    rewrite (check_model_available_answer (set_ollama w (o2 :: o3 :: rest)) o2
               (o3 :: rest) names model eq_refl (or_introl Hlist)).
    rewrite Hsome. simpl.
    destruct (generate_fails_with_text
                (set_ollama (set_ollama w (o2 :: o3 :: rest)) (o3 :: rest))
                o3 rest prompt model max_tokens temperature eq_refl Hfail)
      as (s & Hgen & Hs).
    rewrite Hgen. eexists _, _. split; [reflexivity|exact Hs].
Qed.

(* --------------------------------------------------------------- *)
(** *** Intent classifier: the explicit count *)

Lemma length_append (a b : string) :
  String.length (a ++ b) = (String.length a + String.length b)%nat.
Proof. induction a as [|x a IH]; simpl; [reflexivity|now rewrite IH]. Qed.

Lemma last_snoc (a : string) (c : ascii) :
  PyStr.last (a ++ String c "") = Some c.
Proof.
  induction a as [|x a IH]; simpl; [reflexivity|].
  rewrite IH. now destruct a.
Qed.

Lemma is_digit_is_word (c : ascii) : PyStr.is_digit c = true -> PyStr.is_word c = true.
Proof.
  intros H. unfold PyStr.is_word. rewrite H. now rewrite orb_true_r.
Qed.

Ltac each_char c :=
  destruct c as [[] [] [] [] [] [] [] []]; reflexivity.

Lemma lower_char_is_digit (c : ascii) :
  PyStr.is_digit (PyStr.lower_char c) = PyStr.is_digit c.
Proof. each_char c. Qed.

Lemma lower_char_is_word (c : ascii) :
  PyStr.is_word (PyStr.lower_char c) = PyStr.is_word c.
Proof. each_char c. Qed.

Lemma lower_char_digit (c : ascii) :
  PyStr.is_digit c = true -> PyStr.lower_char c = c.
Proof.
  destruct c as [[] [] [] [] [] [] [] []]; try reflexivity; discriminate.
Qed.

Lemma word_opt_head_lower (s : string) :
  Re.word_opt (PyStr.head (PyStr.lower s)) = Re.word_opt (PyStr.head s).
Proof. destruct s; simpl; [reflexivity|apply lower_char_is_word]. Qed.

Lemma search_from_unfold (tail : string -> option string)
      (prev : option ascii) (s : string) :
  Re.search_from tail prev s
  = match (if Re.at_boundary prev (PyStr.head s) then tail s else None) with
    | Some g => Some g
    | None =>
        match s with
        | EmptyString => None
        | String c r => Re.search_from tail (Some c) r
        end
    end.
Proof. destruct s; reflexivity. Qed.

Section Search.

(** The rest of the pattern after the opening [\b], and what it stops
    at. *)
Variable tail : string -> option string.
Variable stop : option ascii -> bool.

Hypothesis tail_sound :
  forall s g, tail s = Some g ->
    exists r, s = g ++ r /\ g <> "" /\ PyStr.all_digits g = true
              /\ stop (PyStr.head r) = true.

Hypothesis tail_complete :
  forall ds post, ds <> "" -> PyStr.all_digits ds = true ->
    stop (PyStr.head post) = true -> tail (ds ++ post) = Some ds.

Hypothesis tail_lower : forall s, tail (PyStr.lower s) = tail s.

Lemma attempt_is_run (done s g : string) :
  Re.at_boundary (PyStr.last done) (PyStr.head s) = true ->
  tail s = Some g ->
  exists r, s = g ++ r /\ Literal.run_at stop done g r.
Proof.
  intros Hb Ht. destruct (tail_sound s g Ht) as (r & -> & Hne & Hd & Hs).
  exists r. split; [reflexivity|]. unfold Literal.run_at. repeat split; auto.
  destruct g as [|c g']; [congruence|]. simpl in Hb, Hd.
  apply andb_true_iff in Hd. destruct Hd as [Hc _].
  unfold Re.at_boundary in Hb. simpl in Hb.
  rewrite (is_digit_is_word c Hc) in Hb.
  now destruct (Re.word_opt (PyStr.last done)).
Qed.

Lemma search_from_first (ds post : string) :
  forall pre' done,
    Literal.first_run stop (done ++ pre' ++ ds ++ post) (done ++ pre') ds post ->
    Re.search_from tail (PyStr.last done) (pre' ++ ds ++ post) = Some ds.
Proof.
  induction pre' as [|c p IH]; intros done (Heq & Hrun & Hfirst).
  - rewrite string_app_nil_r in Hrun. destruct Hrun as (Hne & Hd & Hw & Hs).
    simpl. destruct ds as [|d ds']; [congruence|].
    assert (Hb : Re.at_boundary (PyStr.last done) (PyStr.head (String d ds' ++ post)) = true).
    { simpl in Hd. apply andb_true_iff in Hd. destruct Hd as [Hdd _].
      unfold Re.at_boundary. simpl. now rewrite Hw, (is_digit_is_word d Hdd). }
    rewrite search_from_unfold, Hb.
    now rewrite (tail_complete (String d ds') post Hne Hd Hs).
  - assert (Hnone : (if Re.at_boundary (PyStr.last done)
                          (PyStr.head (String c p ++ ds ++ post))
                     then tail (String c p ++ ds ++ post) else None) = None).
    { destruct (Re.at_boundary _ _) eqn:Hb; [|reflexivity].
      destruct (tail (String c p ++ ds ++ post)) as [g|] eqn:Ht; [|reflexivity].
      destruct (attempt_is_run done _ g Hb Ht) as (r & Hs & Hr).
      specialize (Hfirst done g r). rewrite Hs in Hfirst.
      specialize (Hfirst eq_refl Hr). rewrite length_append in Hfirst.
      simpl in Hfirst. lia. }
    rewrite search_from_unfold, Hnone.
    change (String c p ++ ds ++ post) with (String c (p ++ ds ++ post)).
    cbv iota.
    rewrite <- (last_snoc done c). apply IH.
    assert (Hd : (done ++ String c "") ++ p = done ++ String c p)
      by now rewrite string_app_assoc.
    assert (Hq : (done ++ String c "") ++ p ++ ds ++ post
                 = done ++ String c p ++ ds ++ post)
      by now rewrite string_app_assoc.
    unfold Literal.first_run. rewrite Hd, Hq.
    split; [exact Heq|split; [exact Hrun|exact Hfirst]].
Qed.

Lemma search_from_lower (s : string) :
  forall prev,
    Re.search_from tail (option_map PyStr.lower_char prev) (PyStr.lower s)
    = Re.search_from tail prev s.
Proof.
  assert (Hb : forall prev s',
             Re.at_boundary (option_map PyStr.lower_char prev)
                            (PyStr.head (PyStr.lower s'))
             = Re.at_boundary prev (PyStr.head s')).
  { intros prev s'. unfold Re.at_boundary. rewrite word_opt_head_lower.
    destruct prev; simpl; [now rewrite lower_char_is_word|reflexivity]. }
  induction s as [|c r IH]; intros prev.
  - rewrite (search_from_unfold _ _ (PyStr.lower "")), (search_from_unfold _ prev "").
    now rewrite Hb, tail_lower.
  - rewrite (search_from_unfold _ _ (PyStr.lower (String c r))),
      (search_from_unfold _ prev (String c r)).
    rewrite Hb, tail_lower. cbn [PyStr.lower].
    now rewrite <- (IH (Some c)).
Qed.

(** The search finds the first run, in the text as typed or
    lower-cased. *)
Lemma search_finds_first_run (q pre ds post : string) :
  Literal.first_run stop q pre ds post ->
  Re.search_from tail None (PyStr.lower q) = Some ds.
Proof.
  intros Hfirst. pose proof (search_from_lower q None) as Hl.
  simpl option_map in Hl. rewrite Hl.
  pose proof Hfirst as (Hq & _). rewrite Hq.
  apply (search_from_first ds post pre ""). simpl. now rewrite <- Hq.
Qed.

End Search.

Lemma digits_then_boundary_sound (s g : string) :
  Re.digits_then_boundary s = Some g ->
  exists r, s = g ++ r /\ g <> "" /\ PyStr.all_digits g = true
            /\ Literal.stop_word (PyStr.head r) = true.
Proof.
  revert g. induction s as [|c r0 IH]; simpl; intros g H; [discriminate|].
  destruct (PyStr.is_digit c) eqn:Hc; [|discriminate].
  destruct (Re.digits_then_boundary r0) as [g'|].
  - inversion H; subst. destruct (IH g' eq_refl) as (r & -> & _ & Hd & Hs).
    exists r. simpl. rewrite Hc, Hd. repeat split; auto. discriminate.
  - destruct (Re.at_boundary (Some c) (PyStr.head r0)) eqn:Hb; [|discriminate].
    inversion H; subst. exists r0. simpl. rewrite Hc. repeat split; auto;
      [discriminate|].
    unfold Re.at_boundary in Hb. simpl in Hb.
    rewrite (is_digit_is_word c Hc) in Hb. unfold Literal.stop_word.
    now destruct (Re.word_opt (PyStr.head r0)).
Qed.

Lemma digits_then_boundary_stops (post : string) :
  Literal.stop_word (PyStr.head post) = true ->
  Re.digits_then_boundary post = None.
Proof.
  destruct post as [|c r]; [reflexivity|]. unfold Literal.stop_word. simpl.
  intros Hw. destruct (PyStr.is_digit c) eqn:Hc; [|reflexivity].
  rewrite (is_digit_is_word c Hc) in Hw. discriminate.
Qed.

Lemma digits_then_boundary_complete (ds post : string) :
  ds <> "" -> PyStr.all_digits ds = true ->
  Literal.stop_word (PyStr.head post) = true ->
  Re.digits_then_boundary (ds ++ post) = Some ds.
Proof.
  intros Hne Hd Hs. induction ds as [|c ds' IH]; [congruence|].
  simpl in Hd. apply andb_true_iff in Hd. destruct Hd as [Hc Hd].
  simpl. rewrite Hc. destruct ds' as [|c' ds''].
  - simpl. rewrite (digits_then_boundary_stops post Hs).
    unfold Re.at_boundary. simpl. rewrite (is_digit_is_word c Hc).
    unfold Literal.stop_word in Hs.
    now destruct (Re.word_opt (PyStr.head post)).
  - now rewrite IH.
Qed.

Lemma digits_then_boundary_lower (s : string) :
  Re.digits_then_boundary (PyStr.lower s) = Re.digits_then_boundary s.
Proof.
  induction s as [|c r IH]; simpl; [reflexivity|].
  rewrite lower_char_is_digit, IH.
  destruct (PyStr.is_digit c) eqn:Hc; [|reflexivity].
  rewrite (lower_char_digit c Hc).
  unfold Re.at_boundary. now rewrite word_opt_head_lower.
Qed.

Lemma digits_greedy_sound (s g : string) :
  Re.digits_greedy s = Some g ->
  exists r, s = g ++ r /\ g <> "" /\ PyStr.all_digits g = true
            /\ Literal.stop_digit (PyStr.head r) = true.
Proof.
  revert g. induction s as [|c r0 IH]; simpl; intros g H; [discriminate|].
  destruct (PyStr.is_digit c) eqn:Hc; [|discriminate].
  destruct (Re.digits_greedy r0) as [g'|] eqn:Hg.
  - inversion H; subst. destruct (IH g' eq_refl) as (r & -> & _ & Hd & Hs).
    exists r. simpl. rewrite Hc, Hd. repeat split; auto. discriminate.
  - inversion H; subst. exists r0. simpl. rewrite Hc. repeat split; auto;
      [discriminate|].
    unfold Literal.stop_digit. destruct r0 as [|c' r']; [reflexivity|].
    simpl in *. destruct (PyStr.is_digit c'); [|reflexivity].
    now destruct (Re.digits_greedy r').
Qed.

Lemma digits_greedy_complete (ds post : string) :
  ds <> "" -> PyStr.all_digits ds = true ->
  Literal.stop_digit (PyStr.head post) = true ->
  Re.digits_greedy (ds ++ post) = Some ds.
Proof.
  intros Hne Hd Hs. induction ds as [|c ds' IH]; [congruence|].
  simpl in Hd. apply andb_true_iff in Hd. destruct Hd as [Hc Hd].
  simpl. rewrite Hc. destruct ds' as [|c' ds''].
  - simpl. destruct post as [|p post']; [reflexivity|].
    unfold Literal.stop_digit in Hs. simpl in *.
    now destruct (PyStr.is_digit p).
  - now rewrite IH.
Qed.

Lemma digits_greedy_lower (s : string) :
  Re.digits_greedy (PyStr.lower s) = Re.digits_greedy s.
Proof.
  induction s as [|c r IH]; simpl; [reflexivity|].
  rewrite lower_char_is_digit, IH.
  destruct (PyStr.is_digit c) eqn:Hc; [|reflexivity].
  now rewrite (lower_char_digit c Hc).
Qed.

(** A digit run with no digit before it is the first one. *)
Lemma digit_free_first_run (stop : option ascii -> bool) (pre ds post : string) :
  Literal.digit_free pre = true ->
  Literal.run_at stop pre ds post ->
  Literal.first_run stop (pre ++ ds ++ post) pre ds post.
Proof.
  intros Hfree Hrun. split; [reflexivity|]. split; [exact Hrun|].
  intros p1 ds' p2 Heq (Hne & Hd & _ & _).
  destruct (Nat.le_gt_cases (String.length pre) (String.length p1)) as [|Hlt];
    [assumption|exfalso].
  destruct ds' as [|d ds'']; [congruence|].
  simpl in Hd. apply andb_true_iff in Hd. destruct Hd as [Hdd _].
  clear Hrun Hne. revert p1 Heq Hlt.
  induction pre as [|c pre' IH]; intros p1 Heq Hlt; [simpl in Hlt; lia|].
  simpl in Hfree. apply andb_true_iff in Hfree. destruct Hfree as [Hc Hfree].
  destruct p1 as [|c1 p1']; simpl in Heq.
  - inversion Heq; subst. rewrite Hdd in Hc. discriminate.
  - inversion Heq; subst. apply (IH Hfree p1'); [assumption|simpl in Hlt; lia].
Qed.

(** C5, as the code has it.  The count is read off the first run of
    digits that the pattern matches, [min] of its value and 10,
    whatever keywords the text holds: in [extract_cv_count] a run with
    no word character before or after it, in
    [extract_cv_count_from_query] a run with no word character before
    it.  The run has at most 4300 digits, the longest that [int()]
    converts: on a longer one the call raises [ValueError] and there is
    no count. *)
Theorem explicit_count_is_first_run (q pre ds post : string) :
  (String.length ds <= PyStr.int_max_str_digits)%nat ->
  (Literal.first_run Literal.stop_word q pre ds post ->
   extract_cv_count q = Z.min (PyStr.int ds) 10)
  /\ (Literal.first_run Literal.stop_digit q pre ds post ->
      extract_cv_count_from_query q = Z.min (PyStr.int ds) 10).
Proof.
  intros _. split; intros Hfirst.
  - unfold extract_cv_count, Re.search_b_digits_b.
    now rewrite (search_finds_first_run Re.digits_then_boundary Literal.stop_word
                   digits_then_boundary_sound digits_then_boundary_complete
                   digits_then_boundary_lower q pre ds post Hfirst).
  - unfold extract_cv_count_from_query, Re.search_b_digits.
    now rewrite (search_finds_first_run Re.digits_greedy Literal.stop_digit
                   digits_greedy_sound digits_greedy_complete
                   digits_greedy_lower q pre ds post Hfirst).
Qed.

(** C5, as stated, fails.  "show top5 candidates" contains the integer
    literal 5, and neither call site returns [min 5 10]: the digit is
    glued to a word, no [\b] stands before it, and the keyword default of
    "top" is returned.  "find 3 of the 20 engineers" contains the literal
    20, and both call sites return 3, the first literal. *)
Lemma count_misses_literal :
  (Literal.has_literal "show top5 candidates" 5
   /\ extract_cv_count "show top5 candidates" = 3
   /\ extract_cv_count_from_query "show top5 candidates" = 1
   /\ 3 <> Z.min 5 10 /\ 1 <> Z.min 5 10)
  /\ (Literal.has_literal "find 3 of the 20 engineers" 20
      /\ extract_cv_count "find 3 of the 20 engineers" = 3
      /\ extract_cv_count_from_query "find 3 of the 20 engineers" = 3
      /\ 3 <> Z.min 20 10).
Proof.
  split; split.
  - exists "show top", "5", " candidates". repeat split. discriminate.
  - repeat split; discriminate.
  - exists "find 3 of the ", "20", " engineers". repeat split. discriminate.
  - repeat split; discriminate.
Qed.

(** The two call sites disagree on an ordinal: "5th" has no [\b] after
    the digit. *)
Example count_of_an_ordinal :
  extract_cv_count "show the 5th candidate" = 4
  /\ extract_cv_count_from_query "show the 5th candidate" = 5.
Proof. split; reflexivity. Qed.

Example count_find_top_2 :
  extract_cv_count "find top 2 python developers" = 2
  /\ is_cv_search_query "find top 2 python developers" = true.
Proof. split; reflexivity. Qed.

(* --------------------------------------------------------------- *)
(** *** Intent classifier: the range of the count, and substrings *)

Lemma digit_value_nonneg (c : ascii) :
  PyStr.is_digit c = true -> 0 <= PyStr.digit_value c.
Proof.
  unfold PyStr.is_digit, PyStr.in_range, PyStr.digit_value.
  rewrite andb_true_iff, !N.leb_le. lia.
Qed.

Lemma int_acc_nonneg (s : string) :
  forall acc, 0 <= acc -> PyStr.all_digits s = true -> 0 <= PyStr.int_acc acc s.
Proof.
  induction s as [|c r IH]; cbn [PyStr.int_acc PyStr.all_digits];
    intros acc Hacc Hd; [exact Hacc|].
  apply andb_true_iff in Hd. destruct Hd as [Hc Hr].
  apply IH; [|exact Hr]. pose proof (digit_value_nonneg c Hc). lia.
Qed.

(** What a search returns is what the rest of the pattern matched
    somewhere. *)
Lemma search_from_tail (tail : string -> option string) (s : string) :
  forall prev g,
    Re.search_from tail prev s = Some g -> exists s', tail s' = Some g.
Proof.
  induction s as [|c r IH]; intros prev g; rewrite search_from_unfold.
  - destruct (Re.at_boundary prev (PyStr.head "")); [|discriminate].
    destruct (tail "") as [g'|] eqn:Et; [|discriminate].
    intros H. inversion H; subst. now exists "".
  - destruct (if Re.at_boundary prev (PyStr.head (String c r))
              then tail (String c r) else None) as [g'|] eqn:Et.
    + intros H. inversion H; subst.
      destruct (Re.at_boundary prev (PyStr.head (String c r))); [|discriminate].
      now exists (String c r).
    + apply IH.
Qed.

Lemma min_count_range (g : string) :
  PyStr.all_digits g = true -> 0 <= Z.min (PyStr.int g) 10 <= 10.
Proof.
  intros Hd. pose proof (int_acc_nonneg g 0 (Z.le_refl 0) Hd) as Hn.
  unfold PyStr.int. lia.
Qed.

Lemma extract_cv_count_range (q : string) : 0 <= extract_cv_count q <= 10.
Proof.
  unfold extract_cv_count, Re.search_b_digits_b.
  destruct (Re.search_from _ _ _) as [g|] eqn:Es.
  - destruct (search_from_tail _ _ _ _ Es) as (s' & Ht).
    destruct (digits_then_boundary_sound s' g Ht) as (_ & _ & _ & Hd & _).
    now apply min_count_range.
  - destruct (PyStr.any_in _ _); [lia|]. destruct (PyStr.any_in _ _); lia.
Qed.

(** For a query of at most 4300 characters, so that none of its digit
    runs is too long for [int()], the result count lies between 0 and
    10 at both call sites, and a search hands at most ten candidates to
    the prompt composer. *)
Theorem result_count_range (q : string) (w : world) (uid : Z) :
  (String.length q <= PyStr.int_max_str_digits)%nat ->
  0 <= extract_cv_count q <= 10
  /\ 0 <= extract_cv_count_from_query q <= 10
  /\ (List.length (search_user_cvs w uid q (extract_cv_count q)) <= 10)%nat.
Proof.
  intros _. split; [apply extract_cv_count_range|]. split.
  - unfold extract_cv_count_from_query, Re.search_b_digits.
    destruct (Re.search_from _ _ _) as [g|] eqn:Es.
    + destruct (search_from_tail _ _ _ _ Es) as (s' & Ht).
      destruct (digits_greedy_sound s' g Ht) as (_ & _ & _ & Hd & _).
      now apply min_count_range.
    + destruct (PyStr.any_in _ _); [lia|].
      destruct (PyStr.any_in _ _); [lia|]. destruct (PyStr.any_in _ _); lia.
  - pose proof (extract_cv_count_range q) as Hk.
    destruct (search_user_cvs_shape w uid q (extract_cv_count q))
      as (scored & -> & _).
    rewrite slice_to_nonneg by lia. rewrite length_firstn. lia.
Qed.

Lemma lower_app (a b : string) :
  PyStr.lower (a ++ b) = PyStr.lower a ++ PyStr.lower b.
Proof. induction a as [|c a IH]; simpl; [reflexivity|now rewrite IH]. Qed.

Lemma any_in_middle (words : list string) (a s b : string) :
  PyStr.any_in words s = true -> PyStr.any_in words (a ++ s ++ b) = true.
Proof.
  unfold PyStr.any_in. rewrite !existsb_exists.
  intros (word & Hin & Hc). exists word. split; [exact Hin|].
  now apply contains_app_l, contains_app_r.
Qed.

(** Keywords are looked for as substrings of the lower-cased text: a
    text that contains a search query is a search query, and a text
    that contains one that needs the conversation context needs it. *)
Theorem intent_by_substring (pre q post : string) :
  (is_cv_search_query q = true ->
   is_cv_search_query (pre ++ q ++ post) = true)
  /\ (needs_context q = true -> needs_context (pre ++ q ++ post) = true).
Proof.
  unfold is_cv_search_query, needs_context. rewrite !lower_app.
  split; apply any_in_middle.
Qed.

(* --------------------------------------------------------------- *)
(** *** Context manager: the size of the context *)

Lemma take_length (n : nat) (s : string) :
  (String.length (PyStr.take n s) <= n)%nat.
Proof.
  revert s. induction n as [|n IH]; intros [|c r]; simpl; try lia.
  specialize (IH r). lia.
Qed.

Lemma render_turn_length (msg : turn) :
  (String.length (render_turn msg) <= 115)%nat.
Proof.
  unfold render_turn. rewrite !length_append.
  pose proof (take_length 100 (content msg)) as Ht.
  set (kept := String.length (PyStr.take 100 (content msg))) in *.
  destruct (role msg); simpl; lia.
Qed.

Lemma rendered_length (turns : list turn) :
  forall context,
    (String.length (fold_left (fun context msg => context ++ render_turn msg)
                              turns context)
     <= String.length context + 115 * List.length turns)%nat.
Proof.
  induction turns as [|msg rest IH]; intros context; simpl fold_left.
  - simpl List.length. lia.
  - specialize (IH (context ++ render_turn msg)).
    rewrite length_append in IH.
    pose proof (render_turn_length msg). simpl List.length. lia.
Qed.

Lemma slice_from_last (n : nat) {A : Type} (l : list A) :
  (0 < n)%nat ->
  (List.length (PyList.slice_from (- Z.of_nat n) l) <= n)%nat.
Proof.
  intros Hn. unfold PyList.slice_from.
  destruct (Z.leb_spec 0 (- Z.of_nat n)); rewrite length_skipn; lia.
Qed.

(** The conversation context put in front of a prompt is at most 714
    characters long, however long the history and its messages are, so
    a chat prompt is at most 793 characters longer than the query. *)
Theorem history_context_bounded (a : assistant) (q : string) :
  (String.length (build_history_context a) <= 714)%nat
  /\ (String.length (build_chat_prompt a q) <= String.length q + 793)%nat.
Proof.
  assert (Hc : (String.length (build_history_context a) <= 714)%nat).
  { unfold build_history_context.
    destruct (PyList.truthy (conversation_history a)); [|simpl; lia].
    rewrite length_append.
    pose proof (rendered_length
                  (PyList.slice_from (-6) (conversation_history a))
                  ("Previous conversation:" ++ nl)) as Hr.
    pose proof (slice_from_last 6 (conversation_history a) ltac:(lia)) as Hs.
    change (- Z.of_nat 6)%Z with (-6)%Z in Hs.
    change (String.length ("Previous conversation:" ++ nl)) with 23%nat in Hr.
    change (String.length nl) with 1%nat. lia. }
  split; [exact Hc|].
  unfold build_chat_prompt. rewrite !length_append.
  change (String.length "You are a helpful HR assistant. User said: '")
    with 44%nat.
  change (String.length "'. Give a brief, friendly response.") with 35%nat.
  destruct (PyList.truthy (conversation_history a)); [lia|simpl; lia].
Qed.

(* --------------------------------------------------------------- *)
(** *** Orchestrator: the chat log *)

Lemma keeps_chats_ret {A : Type} (x : A) : keeps_chats (ret x).
Proof. intros w. reflexivity. Qed.

Lemma keeps_chats_raise {A : Type} (e : exn) : keeps_chats (@raise A e).
Proof. intros w. reflexivity. Qed.

Lemma keeps_chats_lift {A : Type} (r : result A) : keeps_chats (lift r).
Proof. intros w. reflexivity. Qed.

Lemma keeps_chats_bind {A B : Type} (m : M A) (k : A -> M B) :
  keeps_chats m -> (forall x, keeps_chats (k x)) -> keeps_chats (bind m k).
Proof.
  intros Hm Hk w. unfold bind. specialize (Hm w).
  destruct (m w) as [[x|e] w']; simpl in *; [|exact Hm].
  now rewrite Hk.
Qed.

Lemma keeps_chats_try_catch {A : Type} (m : M A) (h : exn -> M A) :
  keeps_chats m -> (forall e, keeps_chats (h e)) -> keeps_chats (try_catch m h).
Proof.
  intros Hm Hh w. unfold try_catch. specialize (Hm w).
  destruct (m w) as [[x|e] w']; simpl in *; [exact Hm|].
  now rewrite Hh.
Qed.

Lemma keeps_chats_send (r : request) : keeps_chats (send r).
Proof. intros w. unfold send. now destruct (ollama w). Qed.

Lemma keeps_chats_if {A : Type} (b : bool) (m1 m2 : M A) :
  keeps_chats m1 -> keeps_chats m2 -> keeps_chats (if b then m1 else m2).
Proof. now destruct b. Qed.

Create HintDb chatlog discriminated.
#[local] Hint Resolve keeps_chats_ret keeps_chats_raise keeps_chats_lift
  keeps_chats_send keeps_chats_if : chatlog.
#[local] Hint Extern 2 (keeps_chats (bind _ _)) =>
  apply keeps_chats_bind; [|intro] : chatlog.
#[local] Hint Extern 2 (keeps_chats (try_catch _ _)) =>
  apply keeps_chats_try_catch; [|intro] : chatlog.

Lemma keeps_chats_is_available : keeps_chats is_available.
Proof. unfold is_available, requests_get. auto 10 with chatlog. Qed.

Lemma keeps_chats_get_available_models : keeps_chats get_available_models.
Proof. unfold get_available_models, requests_get. auto 15 with chatlog. Qed.

Lemma keeps_chats_check_model_available (model : string) :
  keeps_chats (check_model_available model).
Proof.
  unfold check_model_available.
  apply keeps_chats_bind; [apply keeps_chats_get_available_models|].
  auto with chatlog.
Qed.

Lemma keeps_chats_generate (prompt model : string) (options : json) :
  keeps_chats (generate prompt model options).
Proof. unfold generate, requests_post. auto 15 with chatlog. Qed.

Lemma keeps_chats_run_llama (prompt model : string) (n : Z) (t : Q) :
  keeps_chats (run_llama prompt model n t).
Proof.
  unfold run_llama.
  apply keeps_chats_bind; [apply keeps_chats_is_available|intros available].
  apply keeps_chats_if; [auto with chatlog|].
  apply keeps_chats_bind; [apply keeps_chats_check_model_available|intros found].
  apply keeps_chats_if.
  - apply keeps_chats_bind; [apply keeps_chats_get_available_models|].
    auto with chatlog.
  - apply keeps_chats_generate.
Qed.

Lemma keeps_chats_handle_cv_search (a : assistant) (q : string) :
  keeps_chats (handle_cv_search a q).
Proof.
  intros w. unfold handle_cv_search.
  destruct (negb _); [reflexivity|].
  destruct (build_search_prompt _ _ _ _) as [prompt|e]; [|reflexivity].
  apply keeps_chats_try_catch; [|auto with chatlog].
  apply keeps_chats_bind; [apply keeps_chats_run_llama|].
  intros response. destruct (is_blank response); auto with chatlog.
Qed.

Lemma keeps_chats_handle_chat (a : assistant) (q : string) :
  keeps_chats (handle_chat a q).
Proof.
  unfold handle_chat.
  destruct (find _ simple_responses) as [[key canned]|]; [auto with chatlog|].
  apply keeps_chats_try_catch; [|auto with chatlog].
  apply keeps_chats_bind; [apply keeps_chats_run_llama|].
  intros response. destruct (is_blank response); auto with chatlog.
Qed.

(** What [handle_cv_search] returns is one of its fixed strings, which
    does not unpack, or a response with the results that were found. *)
Lemma handle_cv_search_returns (a : assistant) (q : string) (w w1 : world)
      (value : returned) :
  handle_cv_search a q w = (Ok value, w1) ->
  unpack2 value = Raise ValueError
  \/ exists response x rest, value = RPair response (x :: rest).
Proof.
  unfold handle_cv_search.
  destruct (search_user_cvs w (user_id a) q (extract_cv_count q)) as [|x rest];
    simpl.
  - intros H. inversion H; subst. now left.
  - destruct (build_search_prompt _ _ _ _) as [prompt|e]; [|discriminate].
    unfold try_catch, bind.
    destruct (run_llama prompt _ _ _ w) as [[response|e] w2].
    + destruct (is_blank response); unfold ret; intros H; inversion H; subst.
      * now left.
      * right. now exists response, x, rest.
    + unfold ret. intros H. inversion H; subst. now left.
Qed.

Lemma add_to_history_logs (a : assistant) (u r : string)
      (cv : cv_results_arg) (w : world) (row : chat_row) :
  chat_create (user_id a) u r cv = Ok row ->
  chats (snd (add_to_history a u r cv w)) = chats w
  \/ chats (snd (add_to_history a u r cv w)) = row :: chats w.
Proof.
  intros Hrow. unfold add_to_history. rewrite Hrow. simpl.
  unfold DatabaseManager.save_chat, DatabaseManager.connect.
  destruct (db_up w); [right|left]; reflexivity.
Qed.

(** The chat log records an answered query or nothing.  When
    [process_query] answers a query that is not blank, the chat log is
    as it was (the insert failed, which is only printed) or it has one
    row more, the newest: that of the owner, with the query, the path
    taken and the answer that was returned. *)
Theorem process_query_logs_exchange
        (a a' : assistant) (q r : string) (w w' : world) :
  PyStr.all_space q = false ->
  process_query a q w = (Ok r, a', w') ->
  chats w' = chats w
  \/ exists stored,
       chats w'
       = {| chat_user_id := user_id a; chat_query := q;
            chat_query_type :=
              if is_cv_search_query q then "cv_search" else "general_chat";
            chat_response_text := r; chat_cv_results := stored |} :: chats w.
Proof.
  intros Hq. unfold process_query. rewrite strip_truthy, Hq. simpl.
  destruct (is_cv_search_query q) eqn:Hs.
  - pose proof (keeps_chats_handle_cv_search a q w) as Hc1.
    destruct (handle_cv_search a q w) as [[value|e] w1] eqn:Eh;
      simpl in Hc1; [|discriminate].
    destruct (handle_cv_search_returns a q w w1 value Eh)
      as [Hbad|(response & x & rest & ->)]; [now rewrite Hbad|].
    simpl.
    assert (Hrow : chat_create (user_id a) q response (CvList (x :: rest))
                   = Ok {| chat_user_id := user_id a; chat_query := q;
                           chat_query_type := "cv_search";
                           chat_response_text := response;
                           chat_cv_results := Some (x :: rest) |}).
    { unfold chat_create. now rewrite Hs. }
    pose proof (add_to_history_logs a q response (CvList (x :: rest)) w1 _ Hrow)
      as Hl.
    destruct (add_to_history a q response (CvList (x :: rest)) w1) as [a2 w2].
    simpl in Hl. intros H. injection H as Hr Ha Hw. subst response a2 w2.
    rewrite Hc1 in Hl. destruct Hl as [Hl|Hl]; [now left|right].
    now exists (Some (x :: rest)).
  - pose proof (keeps_chats_handle_chat a q w) as Hc1.
    destruct (handle_chat a q w) as [[response|e] w1] eqn:Eh;
      simpl in Hc1; [|discriminate].
    assert (Hrow : chat_create (user_id a) q response CvNone
                   = Ok {| chat_user_id := user_id a; chat_query := q;
                           chat_query_type := "general_chat";
                           chat_response_text := response;
                           chat_cv_results := None |}).
    { unfold chat_create. now rewrite Hs. }
    pose proof (add_to_history_logs a q response CvNone w1 _ Hrow) as Hl.
    destruct (add_to_history a q response CvNone w1) as [a2 w2].
    simpl in Hl. intros H. injection H as Hr Ha Hw. subst response a2 w2.
    rewrite Hc1 in Hl. destruct Hl as [Hl|Hl]; [now left|right].
    now exists None.
Qed.

Lemma firstn_cons_pos {A : Type} (n : Z) (x : A) (l : list A) :
  0 < n -> firstn (Z.to_nat n) (x :: l) = x :: firstn (Z.to_nat (n - 1)) l.
Proof.
  intros Hn. replace (Z.to_nat n) with (S (Z.to_nat (n - 1))) by lia.
  reflexivity.
Qed.

(** A session that starts when the newest row of the chat log is the
    owner's resumes with that exchange as the last two turns of its
    history. *)
Theorem load_conversation_history_resumes
        (w : world) (a : assistant) (row : chat_row) (older : list chat_row) :
  0 < max_history_length a ->
  db_up w = true ->
  chats w = row :: older ->
  chat_user_id row = user_id a ->
  exists before,
    conversation_history (load_conversation_history w a)
    = (before ++ [ {| role := User; content := chat_query row |};
                   {| role := Assistant;
                      content := chat_response_text row |} ])%list.
Proof.
  intros Hn Hup Hchats Hown.
  unfold load_conversation_history, DatabaseManager.get_user_chats,
    DatabaseManager.connect.
  rewrite Hup, Hchats. cbn [filter]. rewrite Hown, Z.eqb_refl.
  rewrite (firstn_cons_pos _ row _ Hn).
  cbn [set_history conversation_history rev].
  rewrite flat_map_app. cbn [flat_map history_of app].
  set (rows := firstn (Z.to_nat (max_history_length a - 1)) _).
  assert (Hrows : (List.length rows <= Z.to_nat (max_history_length a - 1))%nat)
    by (unfold rows; rewrite length_firstn; lia).
  assert (Hturns : List.length (flat_map history_of (rev rows))
                   = (List.length rows * 2)%nat).
  { rewrite (flat_map_constant_length (c := 2%nat)) by reflexivity.
    rewrite length_rev. lia. }
  exists (flat_map history_of (rev rows)).
  unfold keep_recent. rewrite Z.gtb_ltb.
  match goal with
  | |- (if ?n <? ?m then _ else _) = _ => destruct (Z.ltb_spec n m) as [Hlt|]
  end; [|reflexivity].
  exfalso. rewrite length_app in Hlt. simpl List.length in Hlt. lia.
Qed.

(* --------------------------------------------------------------- *)
(** *** Embedding text *)

Lemma py_in_dict_lookup (key : string) (d : list (string * json)) :
  existsb (fun kv => String.eqb (fst kv) key) d = true ->
  exists v, Py.lookup key d = Some v.
Proof.
  induction d as [|[k v] r IH]; simpl; [discriminate|].
  destruct (String.eqb k key); [now exists v|exact IH].
Qed.

(** On an object the test ['key' in cv_summary and cv_summary['key']]
    does not raise. *)
Lemma truthy_field_dict (key : string) (d : list (string * json)) :
  truthy_field key (JDict d)
  = Ok match Py.lookup key d with
       | Some v => if Py.truthy v then Some v else None
       | None => None
       end.
Proof.
  unfold truthy_field. simpl.
  destruct (existsb _ d) eqn:E.
  - destruct (py_in_dict_lookup key d E) as (v & Hv).
    unfold Py.getitem. now rewrite Hv.
  - destruct (Py.lookup key d) as [v|] eqn:Hv; [|reflexivity].
    exfalso. clear - E Hv. induction d as [|[k v'] r IH]; simpl in *;
      [discriminate|].
    destruct (String.eqb k key); [discriminate|auto].
Qed.

Lemma no_information_not_blank : PyStr.all_space no_information = false.
Proof. reflexivity. Qed.

(** Whatever the shape of its fields, a JSON object has an embedding
    text, and that text is never empty or white space only: where
    nothing usable is found it is the fixed text "No structured
    information available". *)
Theorem create_embedding_text_total (d : list (string * json)) :
  exists embedding_text,
    create_embedding_text (JDict d) = Ok embedding_text
    /\ PyStr.all_space embedding_text = false.
Proof.
  unfold create_embedding_text. rewrite !truthy_field_dict. cbn [rbind].
  set (combined := PyStr.join " | " _).
  assert (Hfinal : forall c,
             PyStr.all_space
               (if PyStr.truthy (PyStr.strip c) then c else no_information)
             = false).
  { intros c. rewrite strip_truthy.
    destruct (PyStr.all_space c) eqn:E; [reflexivity|exact E]. }
  destruct (negb (PyStr.truthy (PyStr.strip combined))).
  - change (py_in "raw" (JDict d))
      with (Ok (existsb (fun kv => String.eqb (fst kv) "raw") d)).
    cbn [rbind]. destruct (existsb _ d) eqn:E.
    + destruct (py_in_dict_lookup "raw" d E) as (v & Hv).
      unfold subscript, Py.getitem. rewrite Hv. cbn [rbind].
      eexists. split; [reflexivity|apply Hfinal].
    + cbn [rbind]. eexists. split; [reflexivity|apply Hfinal].
  - cbn [rbind]. eexists. split; [reflexivity|apply Hfinal].
Qed.


(** What [process_and_store_cv] leaves behind.  When it answers [True]
    the summary had a usable embedding text, the model embedded it, and
    [cv_embeddings] has exactly one more row: this owner's, for this CV,
    with that text and vector.  When it answers [False] the store is as
    it was.  Either way the view of every other owner is unchanged. *)
Theorem process_and_store_cv_outcome
        (w : world) (uid cid : Z) (cv_summary : json) (row_id now : Z) :
  row_id <> 0 ->
  let outcome := process_and_store_cv w uid cid cv_summary row_id now in
  (fst outcome = true ->
   exists embedding_text embedding,
     create_embedding_text cv_summary = Ok embedding_text
     /\ embedding_text <> no_information
     /\ get_embedding embedding_text = Ok embedding
     /\ snd outcome
        = set_cv_embeddings w
            (cv_embeddings w
             ++ [ {| emb_id := row_id; emb_cv_id := cid; emb_user_id := uid;
                     emb_embedding := embedding;
                     emb_embedding_text := embedding_text;
                     emb_created_at := now |} ]))
  /\ (fst outcome = false -> snd outcome = w)
  /\ (forall other, other <> uid -> same_owner_view other w (snd outcome)).
Proof.
  intros Hid outcome. subst outcome. unfold process_and_store_cv.
  assert (Hsame : forall other, same_owner_view other w w)
    by (intros other; repeat split).
  destruct (create_embedding_text cv_summary) as [embedding_text|e] eqn:Etext;
    cbn [rbind fst snd]; [|repeat split; auto; discriminate].
  destruct (PyStr.truthy embedding_text
            && negb (String.eqb embedding_text no_information)) eqn:Euse;
    cbn [fst snd]; [|repeat split; auto; discriminate].
  destruct (get_embedding embedding_text) as [embedding|e] eqn:Eemb;
    cbn [rbind fst snd]; [|repeat split; auto; discriminate].
  unfold DatabaseManager.save_cv_embedding, DatabaseManager.connect.
  destruct (db_up w) eqn:Eup; cbn [rbind fst snd];
    [|repeat split; auto; discriminate].
  apply Z.eqb_neq in Hid. rewrite Hid. cbn [negb].
  split; [|split; [discriminate|]].
  - intros _. exists embedding_text, embedding.
    split; [reflexivity|]. split; [|split; [exact Eemb|reflexivity]].
    apply andb_true_iff in Euse. destruct Euse as [_ Hne].
    apply negb_true_iff, String.eqb_neq in Hne. exact Hne.
  - intros other Hother. unfold same_owner_view. cbn.
    repeat split. rewrite filter_app. cbn.
    assert (Ho : (uid =? other) = false) by (apply Z.eqb_neq; congruence).
    rewrite Ho. now rewrite app_nil_r.
Qed.

(** A vector that was stored for a CV of the store is among the
    owner's candidates at the next search, with the file name of the
    CV: storing, then reading back. *)
Theorem process_and_store_cv_then_found
        (w : world) (uid cid : Z) (cv_summary : json) (row_id now : Z)
        (c : cv_row) :
  row_id <> 0 ->
  In c (cvs w) -> cv_id c = cid ->
  fst (process_and_store_cv w uid cid cv_summary row_id now) = true ->
  let w' := snd (process_and_store_cv w uid cid cv_summary row_id now) in
  exists rows found,
    DatabaseManager.get_user_embeddings w' uid = Ok rows
    /\ In found rows
    /\ ue_cv_id found = cid
    /\ ue_filename found = cv_filename c
    /\ create_embedding_text cv_summary = Ok (ue_embedding_text found).
Proof.
  intros Hid Hc Hcid Hok w'. subst w'. revert Hok.
  unfold process_and_store_cv.
  destruct (create_embedding_text cv_summary) as [embedding_text|e];
    cbn [rbind fst snd]; [|discriminate].
  destruct (PyStr.truthy embedding_text
            && negb (String.eqb embedding_text no_information));
    cbn [fst snd]; [|discriminate].
  destruct (get_embedding embedding_text) as [embedding|e];
    cbn [rbind fst snd]; [|discriminate].
  unfold DatabaseManager.save_cv_embedding, DatabaseManager.connect.
  destruct (db_up w) eqn:Eup; cbn [rbind fst snd]; [|discriminate].
  intros _.
  set (row := {| emb_id := row_id; emb_cv_id := cid; emb_user_id := uid;
                 emb_embedding := embedding;
                 emb_embedding_text := embedding_text;
                 emb_created_at := now |}).
  set (w' := set_cv_embeddings w (cv_embeddings w ++ [row])).
  unfold DatabaseManager.get_user_embeddings, DatabaseManager.connect.
  change (db_up w') with (db_up w). rewrite Eup.
  eexists. exists (DatabaseManager.joined row c).
  split; [reflexivity|]. split; [|now repeat split].
  eapply Permutation_in; [apply Permutation_sym, sort_desc_perm|].
  unfold DatabaseManager.join_where. apply in_flat_map.
  exists row. split.
  - change (cv_embeddings w') with (cv_embeddings w ++ [row])%list.
    apply in_or_app. right. now left.
  - change (emb_user_id row) with uid. rewrite Z.eqb_refl.
    apply in_map. apply filter_In. split; [exact Hc|].
    change (emb_cv_id row) with cid. now apply Z.eqb_eq.
Qed.

(** Embedding a CV again, as [rebuild_user_embeddings] and the
    reprocessing path of the upload do it: once the vectors of the CV
    are deleted and the new one is stored, the owner has exactly one
    vector for this CV. *)
Theorem reembedding_leaves_one_vector
        (w w1 : world) (uid cid : Z) (cv_summary : json) (row_id now : Z) :
  row_id <> 0 ->
  DatabaseManager.delete_cv_embeddings w cid uid = Ok w1 ->
  fst (process_and_store_cv w1 uid cid cv_summary row_id now) = true ->
  let w2 := snd (process_and_store_cv w1 uid cid cv_summary row_id now) in
  List.length
    (filter (fun e => (emb_cv_id e =? cid) && (emb_user_id e =? uid))
            (cv_embeddings w2)) = 1%nat.
Proof.
  intros Hid Hdel. unfold process_and_store_cv.
  destruct (create_embedding_text cv_summary) as [embedding_text|e];
    cbn [rbind fst snd]; [|discriminate].
  destruct (PyStr.truthy embedding_text
            && negb (String.eqb embedding_text no_information));
    cbn [fst snd]; [|discriminate].
  destruct (get_embedding embedding_text) as [embedding|e];
    cbn [rbind fst snd]; [|discriminate].
  unfold DatabaseManager.save_cv_embedding, DatabaseManager.connect.
  destruct (db_up w1) eqn:Eup; cbn [rbind fst snd]; [|discriminate].
  intros _. cbn [cv_embeddings set_cv_embeddings].
  unfold DatabaseManager.delete_cv_embeddings, DatabaseManager.connect in Hdel.
  destruct (db_up w); [|discriminate].
  injection Hdel as Hw1. rewrite <- Hw1. cbn [cv_embeddings set_cv_embeddings].
  rewrite filter_app, length_app. cbn [filter emb_cv_id emb_user_id].
  rewrite !Z.eqb_refl. cbn [andb List.length].
  assert (Hnone : forall l,
             filter (fun e => (emb_cv_id e =? cid) && (emb_user_id e =? uid))
               (filter (fun e => negb ((emb_cv_id e =? cid) && (emb_user_id e =? uid))) l)
             = []).
  { induction l as [|e es IH]; [reflexivity|]. cbn [filter].
    destruct ((emb_cv_id e =? cid) && (emb_user_id e =? uid)) eqn:E;
      cbn [negb filter]; [exact IH|]. now rewrite E. }
  now rewrite Hnone.
Qed.

(* --------------------------------------------------------------- *)
(** *** Summarizer *)

Lemma contains_unfold (needle hay : string) :
  PyStr.contains needle hay
  = String.prefix needle hay
    || match hay with
       | EmptyString => false
       | String _ r => PyStr.contains needle r
       end.
Proof. destruct hay; reflexivity. Qed.

Lemma find_index_unfold (needle hay : string) :
  PyStr.find_index needle hay
  = if String.prefix needle hay then Some 0%nat
    else match hay with
         | EmptyString => None
         | String _ r => option_map S (PyStr.find_index needle r)
         end.
Proof. destruct hay; reflexivity. Qed.

Lemma rfind_index_unfold (needle hay : string) :
  PyStr.rfind_index needle hay
  = match
      match hay with
      | EmptyString => None
      | String _ r => option_map S (PyStr.rfind_index needle r)
      end
    with
    | Some i => Some i
    | None => if String.prefix needle hay then Some 0%nat else None
    end.
Proof. destruct hay; reflexivity. Qed.



Lemma find_index_present (needle hay : string) :
  PyStr.contains needle hay = true ->
  exists i, PyStr.find_index needle hay = Some i.
Proof.
  induction hay as [|c r IH]; rewrite contains_unfold, find_index_unfold;
    destruct (String.prefix needle _); cbn [orb];
    try (intros _; now exists 0%nat); try discriminate.
  intros Hr. destruct (IH Hr) as (i & ->). now exists (S i).
Qed.

Lemma rfind_absent (needle hay : string) :
  PyStr.contains needle hay = false -> PyStr.rfind needle hay = -1.
Proof.
  intros H. unfold PyStr.rfind.
  assert (Hn : PyStr.rfind_index needle hay = None); [|now rewrite Hn].
  induction hay as [|c r IH]; rewrite contains_unfold in H;
    rewrite rfind_index_unfold; apply orb_false_iff in H;
    destruct H as [-> Hr]; [reflexivity|].
  now rewrite (IH Hr).
Qed.

Lemma rfind_from_minus_one (needle hay : string) : -1 <= PyStr.rfind needle hay.
Proof.
  unfold PyStr.rfind, PyStr.index_or_minus_one.
  destruct (PyStr.rfind_index needle hay); lia.
Qed.

Lemma substring_none (n : nat) (s : string) : String.substring n 0 s = "".
Proof.
  revert s. induction n as [|n IH]; intros [|c r]; simpl; auto.
Qed.

Lemma slice_to_zero (start : Z) (s : string) : PyStr.slice start 0 s = "".
Proof.
  unfold PyStr.slice.
  set (len := Z.of_nat (String.length s)).
  assert (Hb : PyStr.slice_index len 0 = 0)
    by (unfold PyStr.slice_index; simpl; lia).
  rewrite Hb.
  assert (Ha : 0 <= PyStr.slice_index len start)
    by (unfold PyStr.slice_index; lia).
  replace (Z.to_nat (0 - PyStr.slice_index len start)) with 0%nat by lia.
  apply substring_none.
Qed.

(** With no answer from the server the generator is not available. *)
Lemma run_llama_kwargs_silent (prompt model : string) (max_tokens : Z)
      (temperature : Q) (kwargs : list (string * json)) (w : world) :
  ollama w = [] ->
  run_llama_kwargs prompt model max_tokens temperature kwargs w
  = (Ok "Error: Ollama server is not running. Please start Ollama first.", w).
Proof.
  intros H. unfold run_llama_kwargs, bind.
  now rewrite (is_available_silent w H).
Qed.

(** [run_llama] is [run_llama] with no further option. *)
Lemma run_llama_kwargs_none (prompt model : string) (max_tokens : Z)
      (temperature : Q) :
  run_llama_kwargs prompt model max_tokens temperature []
  = run_llama prompt model max_tokens temperature.
Proof. reflexivity. Qed.



(** A response that opens an object and holds no closing brace
    anywhere, as a response cut short does, is not returned raw: the
    block handed to the parser is empty and [summarize_cv] raises
    [ValueError]. *)
Theorem summarize_cv_unclosed_raises
        (json_loads : string -> option json)
        (cv_text response : string) (w w1 : world) :
  json_loads "" = None ->
  run_llama_fast (summary_prompt cv_text) "llama3.2:3b" 800 w = (Ok response, w1) ->
  PyStr.contains "{" response = true ->
  PyStr.contains "}" response = false ->
  summarize_cv json_loads cv_text w = (Raise ValueError, w1).
Proof.
  intros Hempty Hrun Hopen Hclose. unfold summarize_cv, bind. rewrite Hrun.
  rewrite (rfind_absent "}" response Hclose).
  destruct (find_index_present "{" response Hopen) as (i & Hi).
  unfold PyStr.find. rewrite Hi. cbn [PyStr.index_or_minus_one].
  assert (Hs : negb (Z.of_nat i =? -1) && negb (-1 + 1 =? -1) = true).
  { apply andb_true_iff. split; apply negb_true_iff, Z.eqb_neq; lia. }
  rewrite Hs. change (-1 + 1) with 0.
  now rewrite slice_to_zero, Hempty.
Qed.

Lemma last_user_msg_skips (after : list turn) :
  Forall (fun t => role t = Assistant) after ->
  forall rest, last_user_msg (rev after ++ rest) = last_user_msg rest.
Proof.
  induction 1 as [|t after Ht _ IH]; intros rest; [reflexivity|].
  cbn [rev]. rewrite <- app_assoc. rewrite IH.
  cbn [app last_user_msg]. now rewrite Ht.
Qed.

(** Of a conversation, [run_llama_with_history] sends the generator
    the last user message and nothing else: what was said before it,
    and the answers after it, do not matter.  When that message is
    empty no request is made, whatever earlier messages there are. *)
Theorem run_llama_with_history_last_user
        (before after : list turn) (msg model_name : string) :
  Forall (fun t => role t = Assistant) after ->
  run_llama_with_history
    (before ++ {| role := User; content := msg |} :: after) model_name
  = if PyStr.truthy msg then run_llama msg model_name 600 (7 # 10)
    else ret "No user message found in history.".
Proof.
  intros Hafter. unfold run_llama_with_history.
  assert (Hsome : PyList.truthy
                    (before ++ {| role := User; content := msg |} :: after)
                  = true) by now destruct before.
  rewrite Hsome. cbn [negb].
  rewrite rev_app_distr. cbn [rev]. rewrite <- app_assoc.
  rewrite (last_user_msg_skips after Hafter). reflexivity.
Qed.

(* --------------------------------------------------------------- *)
(** *** Text of a PDF *)

Lemma rstrip_idempotent (s : string) :
  PyStr.rstrip (PyStr.rstrip s) = PyStr.rstrip s.
Proof.
  induction s as [|c r IH]; [reflexivity|].
  cbn [PyStr.rstrip]. destruct (PyStr.rstrip r) as [|k kept] eqn:Er.
  - destruct (PyStr.is_space c) eqn:Ec; [reflexivity|].
    cbn [PyStr.rstrip]. now rewrite Ec.
  - cbn [PyStr.rstrip] in *. now rewrite IH.
Qed.

(** A text with no leading white space keeps its first character when
    trailing white space is dropped. *)
Lemma lstrip_of_rstrip (s : string) :
  PyStr.lstrip s = s -> PyStr.lstrip (PyStr.rstrip s) = PyStr.rstrip s.
Proof.
  destruct s as [|c r]; [reflexivity|].
  cbn [PyStr.lstrip]. destruct (PyStr.is_space c) eqn:Ec.
  - intros H. exfalso.
    assert (Hl : forall t, (String.length (PyStr.lstrip t) <= String.length t)%nat).
    { induction t as [|x t IHt]; simpl; [lia|].
      destruct (PyStr.is_space x); simpl; lia. }
    specialize (Hl r). rewrite H in Hl. simpl in Hl. lia.
  - intros _. cbn [PyStr.rstrip].
    destruct (PyStr.rstrip r); rewrite ?Ec; cbn [PyStr.lstrip]; now rewrite Ec.
Qed.

Lemma lstrip_idempotent (s : string) :
  PyStr.lstrip (PyStr.lstrip s) = PyStr.lstrip s.
Proof.
  induction s as [|c r IH]; [reflexivity|].
  cbn [PyStr.lstrip]. destruct (PyStr.is_space c) eqn:Ec; [exact IH|].
  cbn [PyStr.lstrip]. now rewrite Ec.
Qed.

Lemma strip_idempotent (s : string) :
  PyStr.strip (PyStr.strip s) = PyStr.strip s.
Proof.
  unfold PyStr.strip.
  rewrite (lstrip_of_rstrip (PyStr.lstrip s) (lstrip_idempotent s)).
  apply rstrip_idempotent.
Qed.

(** The text extracted from a PDF has no white space around it: it is
    empty, when no page gave text, or it begins and ends with a
    character that is not white space.  When the file cannot be opened
    or a page cannot be read the answer is [None]. *)
Theorem extract_text_from_pdf_stripped
        (pdf : result (list (result (option string)))) (text : string) :
  extract_text_from_pdf pdf = Some text ->
  PyStr.strip text = text
  /\ PyStr.truthy text = negb (PyStr.all_space text)
  /\ exists pages, pdf = Ok pages /\ Forall (fun page => exists t, page = Ok t) pages.
Proof.
  unfold extract_text_from_pdf.
  destruct pdf as [pages|e]; cbn [rbind]; [|discriminate].
  destruct (page_texts pages "") as [all|e] eqn:Ep; [|discriminate].
  intros H. inversion H; subst. split; [apply strip_idempotent|]. split.
  - rewrite <- strip_truthy. now rewrite strip_idempotent.
  - exists pages. split; [reflexivity|].
    clear H. revert Ep. generalize "". induction pages as [|page rest IH];
      intros acc Hacc; [constructor|].
    cbn [page_texts] in Hacc. destruct page as [t|e]; [|discriminate].
    cbn [rbind] in Hacc. constructor; [now exists t|].
    eapply IH. exact Hacc.
Qed.

(* --------------------------------------------------------------- *)
(** *** Deleting a profile *)

Lemma search_result_origin (w : world) (uid : Z) (q : string) (k : Z)
      (r : search_result) :
  In r (search_user_cvs w uid q k) ->
  exists e, In e (cv_embeddings w)
            /\ emb_user_id e = uid /\ emb_cv_id e = sr_cv_id r.
Proof.
  destruct (search_user_cvs_shape w uid q k) as (scored & -> & _ & Horigin).
  destruct (slice_to_firstn k (PyList.sort_desc by_similarity scored))
    as (m & -> & _).
  intros Hr. apply firstn_In in Hr.
  apply (Permutation_in _ (sort_desc_perm by_similarity scored)) in Hr.
  destruct (Horigin r Hr) as (qe & c & _ & Hc & Hs).
  destruct (join_where_origin w uid c Hc) as (e & He & Hu & Hid & _).
  exists e. repeat split; auto.
  unfold score in Hs. destruct (cosine_similarity qe (ue_embedding c));
    [|discriminate].
  inversion Hs; subst. simpl. congruence.
Qed.

(** Once [delete_cv] has run for a CV of an owner, that owner can
    neither load the CV nor retrieve it: [get_cv_by_id] finds no row,
    and no search result of any query points to it.  The answer is
    [True] exactly when one row of [cvs] had this id and this owner. *)
Theorem delete_cv_forgets (w w' : world) (id uid : Z) (deleted : bool) :
  delete_cv w id uid = Ok (deleted, w') ->
  DatabaseManager.get_cv_by_id w' id uid = Ok None
  /\ (forall q k r, In r (search_user_cvs w' uid q k) -> sr_cv_id r <> id)
  /\ (deleted = true <->
      List.length (filter (fun c => (cv_id c =? id) && (cv_user_id c =? uid))
                          (cvs w)) = 1%nat).
Proof.
  unfold delete_cv, DatabaseManager.connect.
  destruct (db_up w) eqn:Eup; [|discriminate].
  cbv zeta. intros H. inversion H; subst; clear H.
  set (mine := fun c => (cv_id c =? id) && (cv_user_id c =? uid)).
  split; [|split].
  - unfold DatabaseManager.get_cv_by_id, DatabaseManager.connect.
    cbn [db_up set_cv_embeddings set_cvs cvs]. rewrite Eup.
    assert (Hf : find mine (filter (fun c => negb (mine c)) (cvs w)) = None).
    { destruct (find mine (filter (fun c => negb (mine c)) (cvs w)))
        as [c|] eqn:Ef; [|reflexivity].
      apply find_some in Ef. destruct Ef as [Hin Hm].
      apply filter_In in Hin. destruct Hin as [_ Hn].
      rewrite Hm in Hn. discriminate. }
    unfold mine in Hf. cbv beta in Hf. now rewrite Hf.
  - intros q k r Hr Hid.
    destruct (search_result_origin _ uid q k r Hr) as (e & He & Hu & Hc).
    cbn [cv_embeddings set_cv_embeddings] in He.
    assert (Hkept : In e (filter
                            (fun e => negb ((emb_cv_id e =? id)
                                            && (emb_user_id e =? uid)))
                            (cv_embeddings w))).
    { destruct (PyList.truthy _); [|exact He].
      apply filter_In in He. tauto. }
    apply filter_In in Hkept. destruct Hkept as [_ Hkept].
    assert (Hc' : (emb_cv_id e =? id) = true) by (apply Z.eqb_eq; congruence).
    assert (Hu' : (emb_user_id e =? uid) = true) by now apply Z.eqb_eq.
    rewrite Hc', Hu' in Hkept. discriminate.
  - apply Nat.eqb_eq.
Qed.

Lemma filter_filter_keep {A : Type} (p q : A -> bool) (l : list A) :
  (forall x, In x l -> q x = true -> p x = true) ->
  filter q (filter p l) = filter q l.
Proof.
  induction l as [|x r IH]; intros Hp; [reflexivity|].
  cbn [filter]. destruct (q x) eqn:Eq.
  - rewrite (Hp x (or_introl eq_refl) Eq). cbn [filter]. rewrite Eq.
    f_equal. apply IH. intros y Hy. apply Hp. now right.
  - destruct (p x); cbn [filter]; rewrite ?Eq; apply IH;
      intros y Hy; apply Hp; now right.
Qed.

Lemma flat_map_agree {A B : Type} (f g : A -> list B) (l : list A) :
  (forall x, In x l -> f x = g x) -> flat_map f l = flat_map g l.
Proof.
  induction l as [|x r IH]; intros H; [reflexivity|].
  cbn [flat_map]. rewrite (H x (or_introl eq_refl)). f_equal.
  apply IH. intros y Hy. apply H. now right.
Qed.

(** Deleting a CV leaves every other owner with what they had: the
    same rows of [cvs] to load, and, for an owner none of whose vectors
    points to the deleted CV, the same search results. *)
Theorem delete_cv_other_owner (w w' : world) (id uid other : Z) (deleted : bool) :
  other <> uid ->
  delete_cv w id uid = Ok (deleted, w') ->
  (forall id', DatabaseManager.get_cv_by_id w' id' other
               = DatabaseManager.get_cv_by_id w id' other)
  /\ ((forall e, In e (cv_embeddings w) -> emb_user_id e = other ->
                 emb_cv_id e <> id) ->
      forall q k, search_user_cvs w' other q k = search_user_cvs w other q k).
Proof.
  intros Hother. unfold delete_cv, DatabaseManager.connect.
  destruct (db_up w) eqn:Eup; [|discriminate].
  cbv zeta. intros H. injection H as Hd Hw. clear Hd.
  assert (Hup' : db_up w' = db_up w) by now rewrite <- Hw.
  assert (Hcvs : cvs w'
                 = filter (fun c => negb ((cv_id c =? id) && (cv_user_id c =? uid)))
                     (cvs w)) by now rewrite <- Hw.
  assert (Hemb : filter (fun e => emb_user_id e =? other) (cv_embeddings w')
                 = filter (fun e => emb_user_id e =? other) (cv_embeddings w)
                   \/ exists e, In e (cv_embeddings w)
                                /\ emb_user_id e = other /\ emb_cv_id e = id).
  { destruct (existsb (fun e => (emb_user_id e =? other) && (emb_cv_id e =? id))
                (cv_embeddings w)) eqn:Ex.
    - right. apply existsb_exists in Ex. destruct Ex as (e & He & Hp).
      apply andb_true_iff in Hp. destruct Hp as [Ho Hc].
      apply Z.eqb_eq in Ho, Hc. now exists e.
    - left. rewrite <- Hw. cbn [cv_embeddings set_cv_embeddings].
      assert (Hl : forall e, In e (cv_embeddings w) ->
                     (emb_user_id e =? other) = true -> (emb_cv_id e =? id) = false).
      { intros e He Ho.
        destruct (emb_cv_id e =? id) eqn:Ec; [|reflexivity].
        assert (Hex : existsb (fun e => (emb_user_id e =? other) && (emb_cv_id e =? id))
                        (cv_embeddings w) = true).
        { apply existsb_exists. exists e. split; [exact He|]. now rewrite Ho, Ec. }
        congruence. }
      assert (Hp1 : forall e, In e (cv_embeddings w) ->
                      (emb_user_id e =? other) = true ->
                      negb ((emb_cv_id e =? id) && (emb_user_id e =? uid)) = true).
      { intros e He Ho. now rewrite (Hl e He Ho). }
      destruct (PyList.truthy _); [|now apply filter_filter_keep].
      rewrite filter_filter_keep; [now apply filter_filter_keep|].
      intros e He Ho. apply filter_In in He. destruct He as [He _].
      now rewrite (Hl e He Ho). }
  clear Hw. split.
  - intros id'. unfold DatabaseManager.get_cv_by_id, DatabaseManager.connect.
    rewrite Hup', Hcvs.
    assert (Hfind : forall l,
               find (fun c => (cv_id c =? id') && (cv_user_id c =? other))
                 (filter (fun c => negb ((cv_id c =? id) && (cv_user_id c =? uid))) l)
               = find (fun c => (cv_id c =? id') && (cv_user_id c =? other)) l).
    { induction l as [|c cs IH]; [reflexivity|].
      cbn [filter find].
      destruct ((cv_id c =? id) && (cv_user_id c =? uid)) eqn:Em;
        cbn [negb find].
      - apply andb_true_iff in Em. destruct Em as [_ Hu].
        apply Z.eqb_eq in Hu.
        assert (Ho : (cv_user_id c =? other) = false)
          by (apply Z.eqb_neq; congruence).
        rewrite Ho, andb_false_r. exact IH.
      - destruct ((cv_id c =? id') && (cv_user_id c =? other)); [reflexivity|].
        exact IH. }
    now rewrite Hfind.
  - intros Hnone q k.
    destruct Hemb as [Hemb|(e & He & Ho & Hc)];
      [|exfalso; exact (Hnone e He Ho Hc)].
    assert (Hjoin : DatabaseManager.join_where w' other
                    = DatabaseManager.join_where w other).
    { rewrite !join_where_owned, Hcvs, Hemb.
      apply flat_map_agree. intros e He. f_equal.
      apply filter_In in He. destruct He as [He Ho]. apply Z.eqb_eq in Ho.
      specialize (Hnone e He Ho).
      apply filter_filter_keep. intros c _ Hc. apply Z.eqb_eq in Hc.
      apply negb_true_iff, andb_false_iff. left.
      apply Z.eqb_neq. congruence. }
    unfold search_user_cvs, DatabaseManager.get_user_embeddings,
      DatabaseManager.connect.
    now rewrite Hup', Hjoin.
Qed.

(* --------------------------------------------------------------- *)
(** *** The [/query] endpoint *)

Lemma load_conversation_history_owner (w : world) (a : assistant) :
  user_id (load_conversation_history w a) = user_id a.
Proof.
  unfold load_conversation_history.
  now destruct (DatabaseManager.get_user_chats _ _ _).
Qed.

(** A query that is empty or white space only is refused with status
    400 before anything is retrieved, generated or recorded: the world
    is as it was.  The orchestrator's own answer to a blank query is
    never given through this endpoint. *)
Theorem query_cvs_blank (q : string) (uid : Z) (w : world) :
  PyStr.all_space q = true ->
  query_cvs q uid w = (HTTPException 400, w).
Proof.
  intros Hq. unfold query_cvs. now rewrite strip_truthy, Hq.
Qed.

(** A search query for which nothing is retrieved gets status 500 from
    the endpoint, not the "no matches" message: the orchestrator
    raises on the bare string that its search handler returns. *)
Theorem query_cvs_no_results (q : string) (uid : Z) (w : world) :
  PyStr.all_space q = false ->
  is_cv_search_query q = true ->
  search_user_cvs w uid q (extract_cv_count q) = [] ->
  query_cvs q uid w = (HTTPException 500, w).
Proof.
  intros Hq Hs Hnone. unfold query_cvs. rewrite strip_truthy, Hq. cbn [negb].
  set (a := load_conversation_history w (new_assistant uid)).
  assert (Ha : user_id a = uid) by apply load_conversation_history_owner.
  unfold process_query. rewrite strip_truthy, Hq, Hs. cbn [negb].
  rewrite (handle_cv_search_no_results a q w) by now rewrite Ha.
  reflexivity.
Qed.

Lemma cv_results_from_length (w : world) (a : assistant)
      (raw_results : list search_result) :
  forall i cv_results,
    cv_results_from w a i raw_results = Ok cv_results ->
    (List.length cv_results <= List.length raw_results)%nat.
Proof.
  induction raw_results as [|r rest IH]; intros i cv_results;
    cbn [cv_results_from].
  - intros H. inversion H. simpl. lia.
  - destruct (if negb (sr_cv_id r =? 0) then load_cv_summary w a (sr_cv_id r)
              else None) as [summary|].
    + destruct (cv_result i r summary) as [one|]; cbn [rbind]; [|discriminate].
      destruct (cv_results_from w a (i + 1) rest) as [later|] eqn:El;
        cbn [rbind]; [|discriminate].
      intros H. inversion H; subst. specialize (IH _ _ El). simpl. lia.
    + cbn [rbind].
      destruct (cv_results_from w a (i + 1) rest) as [later|] eqn:El;
        cbn [rbind]; [|discriminate].
      intros H. inversion H; subst. specialize (IH _ _ El). simpl. lia.
Qed.

(** What a body returned by the endpoint holds: the query was not
    blank; the response text is the orchestrator's; the query type
    names the path taken; a search reports between one and ten
    matches, and a chat none; and there are at most as many formatted
    results as matches. *)
Theorem query_cvs_returned
        (q : string) (uid : Z) (w w' : world) (body : query_response) :
  query_cvs q uid w = (Returned body, w') ->
  PyStr.all_space q = false
  /\ fst (fst (process_query (load_conversation_history w (new_assistant uid)) q w))
     = Ok (qr_response_text body)
  /\ qr_query_type body
     = (if is_cv_search_query q then "cv_search" else "general_chat")
  /\ (if is_cv_search_query q
      then 1 <= qr_total_matches body <= 10
      else qr_total_matches body = 0)
  /\ Z.of_nat (List.length (qr_results body)) <= qr_total_matches body.
Proof.
  unfold query_cvs. rewrite strip_truthy.
  destruct (PyStr.all_space q) eqn:Hq; cbn [negb]; [discriminate|].
  set (a := load_conversation_history w (new_assistant uid)).
  assert (Ha : user_id a = uid) by apply load_conversation_history_owner.
  clearbody a.
  pose proof (process_query_frame a q w) as (Hu & Hstore).
  assert (Hfound : is_cv_search_query q = true ->
                   forall r a1 w1, process_query a q w = (Ok r, a1, w1) ->
                   search_user_cvs w uid q (extract_cv_count q) <> []).
  { intros Hs r a1 w1. unfold process_query.
    rewrite strip_truthy, Hq, Hs. cbn [negb].
    destruct (handle_cv_search a q w) as [[value|e] w2] eqn:Eh; [|discriminate].
    destruct (handle_cv_search_returns a q w w2 value Eh)
      as [Hbad|(response & x & rest & ->)]; [now rewrite Hbad|].
    apply handle_cv_search_ranked in Eh. unfold query_plan in Eh.
    cbn [snd] in Eh. rewrite Ha in Eh. rewrite <- Eh. discriminate. }
  destruct (process_query a q w) as [[[response_text|e] a1] w1] eqn:Ep;
    [|discriminate].
  cbn [fst snd] in Hu, Hstore.
  assert (Hsame : search_user_cvs w1 uid q (extract_cv_count q)
                  = search_user_cvs w uid q (extract_cv_count q)).
  { symmetry. apply search_user_cvs_same_view.
    destruct Hstore as (H1 & H2 & H3). unfold same_owner_view.
    now rewrite H1, H2, H3. }
  destruct (is_cv_search_query q) eqn:Hs.
  - specialize (Hfound eq_refl _ _ _ eq_refl).
    rewrite Hsame.
    destruct (search_user_cvs w uid q (extract_cv_count q)) as [|x rest] eqn:Er;
      [congruence|].
    cbn [PyList.truthy].
    destruct (cv_results_from w1 a1 0 (x :: rest)) as [cv_results|] eqn:Ec;
      cbn [rbind]; [|discriminate].
    intros H. injection H as Hbody Hw. subst body w'. cbn.
    pose proof (cv_results_from_length _ _ _ _ _ Ec) as Hlen.
    pose proof (extract_cv_count_range q) as Hk.
    assert (Hten : (List.length (x :: rest) <= 10)%nat).
    { rewrite <- Er.
      destruct (search_user_cvs_shape w uid q (extract_cv_count q))
        as (scored & -> & _).
      rewrite slice_to_nonneg by lia. rewrite length_firstn. lia. }
    cbn [List.length] in *. repeat split; lia.
  - intros H. injection H as Hbody Hw. subst body w'. cbn. repeat split; lia.
Qed.

(* --------------------------------------------------------------- *)
(** *** The embedding model: white space around a text *)

Lemma lstrip_blank (t : string) :
  PyStr.all_space t = true -> PyStr.lstrip t = "".
Proof.
  induction t as [|c r IH]; [reflexivity|]. cbn [PyStr.all_space PyStr.lstrip].
  intros H. apply andb_true_iff in H. destruct H as [Hc Hr].
  rewrite Hc. now apply IH.
Qed.

Lemma all_space_app (a b : string) :
  PyStr.all_space (a ++ b) = PyStr.all_space a && PyStr.all_space b.
Proof.
  induction a as [|c r IH]; [reflexivity|].
  change (String c r ++ b) with (String c (r ++ b)).
  cbn [PyStr.all_space]. now rewrite IH, andb_assoc.
Qed.

Lemma lstrip_pad (a t : string) :
  PyStr.all_space a = true -> PyStr.lstrip (a ++ t) = PyStr.lstrip t.
Proof.
  induction a as [|c r IH]; [reflexivity|]. cbn [PyStr.all_space].
  intros H. apply andb_true_iff in H. destruct H as [Hc Hr].
  change (String c r ++ t) with (String c (r ++ t)).
  cbn [PyStr.lstrip]. rewrite Hc. now apply IH.
Qed.

Lemma lstrip_app (s b : string) :
  PyStr.all_space s = false -> PyStr.lstrip (s ++ b) = PyStr.lstrip s ++ b.
Proof.
  induction s as [|c r IH]; [discriminate|].
  change (String c r ++ b) with (String c (r ++ b)).
  cbn [PyStr.all_space PyStr.lstrip].
  destruct (PyStr.is_space c); [exact IH|reflexivity].
Qed.

Lemma rstrip_pad (t b : string) :
  PyStr.all_space b = true -> PyStr.rstrip (t ++ b) = PyStr.rstrip t.
Proof.
  intros Hb. induction t as [|c r IH].
  - now apply rstrip_all_space.
  - change (String c r ++ b) with (String c (r ++ b)).
    cbn [PyStr.rstrip]. now rewrite IH.
Qed.

(** White space around a text does not change what [strip] leaves. *)
Lemma strip_pad (a s b : string) :
  PyStr.all_space a = true -> PyStr.all_space b = true ->
  PyStr.strip (a ++ s ++ b) = PyStr.strip s.
Proof.
  intros Ha Hb. unfold PyStr.strip. rewrite (lstrip_pad a _ Ha).
  destruct (PyStr.all_space s) eqn:Hs.
  - rewrite !lstrip_blank; [reflexivity|exact Hs|].
    now rewrite all_space_app, Hs, Hb.
  - now rewrite (lstrip_app s b Hs), (rstrip_pad _ b Hb).
Qed.

End Pipeline.

(* ================================================================= *)
(** ** The pipeline with the embedding model of [embed_model.py] *)

(** White space around a text changes neither its embedding nor what a
    search for it retrieves; a text that is empty or white space only
    embeds to the zero vector of 384 coordinates, and the model is not
    asked. *)
Theorem search_ignores_surrounding_space
        (model : result (string -> result vec))
        (cosine_similarity : vec -> vec -> result Q)
        (w : world) (uid : Z) (a q b : string) (k : Z) :
  PyStr.all_space a = true ->
  PyStr.all_space b = true ->
  EmbeddingModel.get_embedding model (a ++ q ++ b)
  = EmbeddingModel.get_embedding model q
  /\ search_user_cvs (EmbeddingModel.get_embedding model) cosine_similarity
       w uid (a ++ q ++ b) k
     = search_user_cvs (EmbeddingModel.get_embedding model) cosine_similarity
         w uid q k
  /\ (PyStr.all_space q = true ->
      forall encode,
        EmbeddingModel.get_embedding (Ok encode) (a ++ q ++ b)
        = Ok EmbeddingModel.zeros).
Proof.
  intros Ha Hb.
  assert (He : forall m, EmbeddingModel.get_embedding m (a ++ q ++ b)
                         = EmbeddingModel.get_embedding m q).
  { intros m. unfold EmbeddingModel.get_embedding.
    now rewrite (strip_pad (EmbeddingModel.get_embedding m) a q b Ha Hb). }
  split; [apply He|]. split.
  - unfold search_user_cvs. now rewrite He.
  - intros Hq encode. rewrite He. unfold EmbeddingModel.get_embedding.
    cbn [rbind].
    now rewrite (strip_truthy (EmbeddingModel.get_embedding model)), Hq.
Qed.

(* ================================================================= *)
(** ** The theorems at work on the small deployment *)

(** The pipeline with the stand-in collaborators. *)
Local Abbreviation demo_search_user_cvs :=
  (search_user_cvs Demo.get_embedding Demo.cosine_similarity).
Local Abbreviation demo_handle_cv_search :=
  (handle_cv_search Demo.py_str Demo.get_embedding Demo.cosine_similarity true).
Local Abbreviation demo_process_query :=
  (process_query Demo.py_str Demo.get_embedding Demo.cosine_similarity true).
Local Abbreviation demo_run_llama := (run_llama Demo.py_str true).

(** Owner 8 has no vector: the search query raises and nothing is
    recorded. *)
Lemma process_query_no_results_raises_witness :
  demo_handle_cv_search (new_assistant 8) "find python developers" (Demo.store [])
  = (Ok (RStr "I couldn't find any relevant CVs for your query."), Demo.store [])
  /\ demo_process_query (new_assistant 8) "find python developers" (Demo.store [])
     = (Raise ValueError, new_assistant 8, Demo.store []).
Proof.
  apply (process_query_no_results_raises Demo.py_str Demo.get_embedding
           Demo.cosine_similarity true (new_assistant 8)
           "find python developers" (Demo.store []));
    reflexivity.
Defined.

(** Owner 7 has profiles and the generator answers with blanks: the
    handler substitutes its message and the call raises. *)
Lemma process_query_search_fallback_raises_witness :
  demo_handle_cv_search (new_assistant 7) "find python developers"
    (Demo.store [Demo.tags; Demo.tags; Demo.answer "   "])
  = (Ok (RStr "I found the profiles but couldn't generate a response. Please try rephrasing your query."),
     Demo.store [])
  /\ demo_process_query (new_assistant 7) "find python developers"
       (Demo.store [Demo.tags; Demo.tags; Demo.answer "   "])
     = (Raise ValueError, new_assistant 7, Demo.store []).
Proof.
  eapply (process_query_search_fallback_raises Demo.py_str Demo.get_embedding
            Demo.cosine_similarity true (new_assistant 7)
            "find python developers"
            (Demo.store [Demo.tags; Demo.tags; Demo.answer "   "])
            (Demo.store []) _ _ (Ok ""));
    try reflexivity.
  discriminate.
Defined.

(** The summary of Eve, whose [Education] is one object. *)
Lemma format_cv_summary_education_object_raises_witness :
  format_cv_summary Demo.py_str Demo.eve 1 = Raise TypeError.
Proof.
  apply (format_cv_summary_education_object_raises Demo.py_str
           [ ("Name", JStr "Eve");
             ("Education", JDict [("Degree", JStr "BSc"); ("School", JStr "MIT")]) ]
           [("Degree", JStr "BSc"); ("School", JStr "MIT")] 1);
    [reflexivity|discriminate].
Defined.

(** Eleven exchanges with a fresh assistant: twenty turns, the first
    exchange gone. *)
Lemma history_capped_fifo_witness :
  let a' := fst (add_all (new_assistant 7) (Demo.store []) Demo.eleven) in
  Z.of_nat (List.length (conversation_history a')) <= 20
  /\ conversation_history a' = turns_of (tl Demo.eleven)
  /\ exists dropped,
       (conversation_history (new_assistant 7) ++ turns_of Demo.eleven
        = dropped ++ conversation_history a')%list.
Proof.
  apply (history_capped_fifo (new_assistant 7) (Demo.store []) Demo.eleven);
    [reflexivity|discriminate].
Defined.

(** "find top 2 python developers": the run "2", between "find top "
    and " python developers". *)
Lemma explicit_count_is_first_run_witness :
  Literal.first_run Literal.stop_word
    "find top 2 python developers" "find top " "2" " python developers"
  /\ extract_cv_count "find top 2 python developers" = Z.min (PyStr.int "2") 10
  /\ extract_cv_count_from_query "find top 2 python developers"
     = Z.min (PyStr.int "2") 10.
Proof.
  assert (Hw : Literal.first_run Literal.stop_word
                 "find top 2 python developers" "find top " "2" " python developers").
  { apply (digit_free_first_run Literal.stop_word "find top " "2" " python developers");
      [reflexivity|].
    repeat split. discriminate. }
  assert (Hd : Literal.first_run Literal.stop_digit
                 "find top 2 python developers" "find top " "2" " python developers").
  { apply (digit_free_first_run Literal.stop_digit "find top " "2" " python developers");
      [reflexivity|].
    repeat split. discriminate. }
  assert (Hlen : (String.length "2" <= PyStr.int_max_str_digits)%nat)
    by (unfold PyStr.int_max_str_digits; simpl; lia).
  split; [exact Hw|].
  split.
  - exact (proj1 (explicit_count_is_first_run
                    "find top 2 python developers" "find top " "2" " python developers"
                    Hlen) Hw).
  - exact (proj2 (explicit_count_is_first_run
                    "find top 2 python developers" "find top " "2" " python developers"
                    Hlen) Hd).
Defined.

(** Owner 7 has three candidates; "find 2 python developers" keeps the
    two best, Ada before Cy. *)
Lemma search_user_cvs_ranked_witness :
  let results :=
    demo_search_user_cvs (Demo.store []) 7 "find 2 python developers" 2 in
  map sr_filename results = ["ada.pdf"; "cy.pdf"]
  /\ Z.of_nat (List.length results) <= 2
  /\ StronglySorted (fun a b => (sr_similarity b <= sr_similarity a)%Q) results.
Proof.
  pose proof (search_user_cvs_ranked Demo.get_embedding Demo.cosine_similarity
                (Demo.store []) 7 "find 2 python developers" 2)
    as (Hk & _ & Hsorted & _).
  split; [reflexivity|]. split; [apply Hk; lia|exact Hsorted].
Defined.

(** Owner 9 replaces a vector and adds another: owner 7 is served as
    before. *)
Lemma owner_isolation_witness :
  same_owner_view 7 (Demo.store []) (Demo.store_after_owner_9 [])
  /\ demo_search_user_cvs (Demo.store []) 7 "find python developers" 4
     = demo_search_user_cvs (Demo.store_after_owner_9 []) 7 "find python developers" 4
  /\ get_cv_full_summary (Demo.store []) 1 7
     = get_cv_full_summary (Demo.store_after_owner_9 []) 1 7.
Proof.
  assert (Hview : same_owner_view 7 (Demo.store []) (Demo.store_after_owner_9 []))
    by (repeat split).
  pose proof (owner_isolation Demo.get_embedding Demo.cosine_similarity 7
                (Demo.store []) (Demo.store_after_owner_9 []) Hview)
    as (Hsearch & Hsummary & _).
  split; [exact Hview|]. split; [apply Hsearch|apply Hsummary].
Defined.

(** The server lists the model and answers the generation request with
    a body that is not JSON. *)
Lemma run_llama_failure_is_text_witness :
  exists s w',
    demo_run_llama "Who knows Python?" "llama3.2:3b" 600 (7 # 10)
      (Demo.store [Demo.tags; Demo.tags; Demo.not_json])
    = (Ok s, w')
    /\ PyStr.startswith "Error:" s = true.
Proof.
  apply (run_llama_failure_is_text Demo.py_str true
           "Who knows Python?" "llama3.2:3b" 600 (7 # 10)
           (Demo.store [Demo.tags; Demo.tags; Demo.not_json])).
  apply (generation_failed true "Who knows Python?" "llama3.2:3b" 600 (7 # 10)
           Demo.tags Demo.tags Demo.not_json [] ["llama3.2:3b"]).
  - eexists. split; reflexivity.
  - eexists _, _, _. repeat split.
    constructor; [|constructor]. eexists. split; reflexivity.
  - reflexivity.
  - right. reflexivity.
Defined.

(** Three spaces. *)
Lemma process_query_blank_witness :
  demo_process_query (new_assistant 7) "   " (Demo.store [Demo.tags])
  = (Ok "Please ask me something!", new_assistant 7, Demo.store [Demo.tags]).
Proof.
  apply (process_query_blank Demo.py_str Demo.get_embedding Demo.cosine_similarity
           true (new_assistant 7) "   " (Demo.store [Demo.tags])).
  reflexivity.
Defined.

(** The same search asked twice: a response the first time, none from
    the generator the second time, and the same plan both times. *)
Lemma process_query_twice_witness :
  let w := Demo.store [Demo.tags; Demo.tags; Demo.answer "Ada."] in
  let first := demo_process_query (new_assistant 7) "find python developers" w in
  fst (fst first) = Ok "Ada."
  /\ query_plan Demo.get_embedding Demo.cosine_similarity
       (snd (fst first)) "find python developers" (snd first)
     = query_plan Demo.get_embedding Demo.cosine_similarity
         (new_assistant 7) "find python developers" w.
Proof.
  split; [reflexivity|].
  exact (proj1 (process_query_twice Demo.py_str Demo.get_embedding
                  Demo.cosine_similarity true (new_assistant 7)
                  "find python developers"
                  (Demo.store [Demo.tags; Demo.tags; Demo.answer "Ada."]))).
Defined.

(** "how are you" goes to the generator, which answers with blanks. *)
Lemma process_query_chat_fallback_witness :
  fst (fst (demo_process_query (new_assistant 7) "how are you"
              (Demo.store [Demo.tags; Demo.tags; Demo.answer "   "])))
  = Ok "I'm here to help with HR and candidate questions. What would you like to know?".
Proof.
  apply (process_query_chat_fallback Demo.py_str Demo.get_embedding
           Demo.cosine_similarity true (new_assistant 7) "how are you"
           (Demo.store [Demo.tags; Demo.tags; Demo.answer "   "])
           (Demo.store []) (Ok ""));
    reflexivity.
Defined.

(** "hi": the greeting, with the server's script untouched. *)
Lemma process_query_canned_witness :
  fst (fst (demo_process_query (new_assistant 7) "hi" (Demo.store [Demo.tags])))
  = Ok "Hello! I'm your HR assistant. I can help you find candidates and answer questions about CVs. What would you like to know?"
  /\ ollama (snd (demo_process_query (new_assistant 7) "hi" (Demo.store [Demo.tags])))
     = [Demo.tags].
Proof.
  apply (process_query_canned Demo.py_str Demo.get_embedding
           Demo.cosine_similarity true (new_assistant 7) "hi" "hi" _
           (Demo.store [Demo.tags]));
    reflexivity.
Defined.

(** The summary of Ada has the expected shape. *)
Lemma format_cv_summary_well_shaped_witness :
  exists block, format_cv_summary Demo.py_str Demo.ada 1 = Ok block.
Proof.
  apply (format_cv_summary_well_shaped Demo.py_str
           [ ("Name", JStr "Ada");
             ("Education", JList [JDict [("Degree", JStr "BSc"); ("School", JStr "MIT")]]);
             ("Experience", JList [JDict [("Company", JStr "ACME"); ("Role", JStr "Developer")]]);
             ("Skills", JList [JStr "Python"; JStr "SQL"]) ] 1).
  reflexivity.
Defined.

(** Eleven exchanges, the last ten kept. *)
Lemma eleven_exchanges_witness :
  conversation_history
    (fst (add_all (new_assistant 7) (Demo.store []) Demo.eleven))
  = turns_of (tl Demo.eleven)
  /\ List.length
       (conversation_history
          (fst (add_all (new_assistant 7) (Demo.store []) Demo.eleven)))
     = 20%nat.
Proof.
  apply (eleven_exchanges 7 (Demo.store []) ("q1", "r1", CvNone) (tl Demo.eleven)).
  reflexivity.
Defined.

(** Owner 9 saves one more vector. *)
Lemma save_cv_embedding_other_owner_witness :
  same_owner_view 7 (Demo.store [])
    (set_cv_embeddings (Demo.store [])
       (cv_embeddings (Demo.store [])
        ++ [Demo.emb 5 4 9 [0; 1]%Q "Name: Dee | Skills: Java" 50])%list).
Proof.
  apply (save_cv_embedding_other_owner 7 (Demo.store []) _
           (Demo.emb 5 4 9 [0; 1]%Q "Name: Dee | Skills: Java" 50));
    [discriminate|reflexivity].
Defined.

(** Owner 9 deletes the vectors of CV 4. *)
Lemma delete_cv_embeddings_other_owner_witness :
  same_owner_view 7 (Demo.store [])
    (set_cv_embeddings (Demo.store [])
       [ Demo.emb 1 1 7 [1; 0]%Q "Name: Ada | Skills: Python SQL" 10;
         Demo.emb 2 2 7 [0; 1]%Q "Name: Bob | Skills: Java" 20;
         Demo.emb 3 3 7 [3 # 5; 4 # 5]%Q "Cy, Python and Java" 30 ]).
Proof.
  apply (delete_cv_embeddings_other_owner 7 (Demo.store []) _ 4 9);
    [discriminate|reflexivity].
Defined.

(** Owner 8 has no vector. *)
Lemma search_user_cvs_no_vectors_witness :
  demo_search_user_cvs (Demo.store []) 8 "find python developers" 4 = [].
Proof.
  apply (search_user_cvs_no_vectors Demo.get_embedding Demo.cosine_similarity
           (Demo.store []) 8 "find python developers" 4).
  intros e [<-|[<-|[<-|[<-|[]]]]]; discriminate.
Defined.

(** The session of owner 7 starts from a log that holds twelve of their
    exchanges: the ten newest are loaded, twenty turns from "q3" to
    "r12", which is the bound; from a database that cannot be reached
    nothing is loaded. *)
Lemma load_conversation_history_bounded_witness :
  let w := set_chats (Demo.store []) Demo.chat_log in
  let a' := load_conversation_history w (new_assistant 7) in
  Z.of_nat (List.length (conversation_history a')) <= 2 * 10
  /\ List.length (conversation_history a') = 20%nat
  /\ map content (firstn 2 (conversation_history a')) = ["q3"; "r3"]
  /\ map content (skipn 18 (conversation_history a')) = ["q12"; "r12"]
  /\ conversation_history
       (load_conversation_history Demo.store_down (new_assistant 7)) = [].
Proof.
  split; [|split; [reflexivity|split; [reflexivity|split; [reflexivity|]]]].
  - apply (load_conversation_history_bounded
             (set_chats (Demo.store []) Demo.chat_log) (new_assistant 7)).
    discriminate.
  - apply (load_conversation_history_bounded Demo.store_down (new_assistant 7));
      [discriminate|reflexivity].
Defined.

(** "who" inside a longer text, and "what about" inside another. *)
Lemma intent_by_substring_witness :
  is_cv_search_query "well, who is it?" = true
  /\ needs_context "and what about them, then" = true.
Proof.
  split.
  - apply (proj1 (intent_by_substring "well, " "who" " is it?")). reflexivity.
  - apply (proj2 (intent_by_substring "and " "what about" " them, then")).
    reflexivity.
Defined.

(** Owner 7 asks for Python developers and the generator answers:
    here the insert is accepted. *)
Lemma process_query_logs_exchange_witness :
  let w := Demo.store [Demo.tags; Demo.tags; Demo.answer "Ada fits."] in
  let out := demo_process_query (new_assistant 7) "find python developers" w in
  fst (fst out) = Ok "Ada fits."
  /\ exists stored,
       chats (snd out)
       = [ {| chat_user_id := 7; chat_query := "find python developers";
              chat_query_type := "cv_search"; chat_response_text := "Ada fits.";
              chat_cv_results := stored |} ].
Proof.
  split; [reflexivity|].
  destruct (process_query_logs_exchange Demo.py_str Demo.get_embedding
              Demo.cosine_similarity true (new_assistant 7)
              (snd (fst (demo_process_query (new_assistant 7)
                           "find python developers"
                           (Demo.store [Demo.tags; Demo.tags;
                                        Demo.answer "Ada fits."]))))
              "find python developers" "Ada fits."
              (Demo.store [Demo.tags; Demo.tags; Demo.answer "Ada fits."])
              (snd (demo_process_query (new_assistant 7)
                      "find python developers"
                      (Demo.store [Demo.tags; Demo.tags;
                                   Demo.answer "Ada fits."])))
              eq_refl eq_refl)
    as [Hsame|Hrow].
  - vm_compute in Hsame. discriminate.
  - exact Hrow.
Defined.

(** The next session of owner 7 starts from a chat log whose newest
    row is theirs. *)
Lemma load_conversation_history_resumes_witness :
  exists before,
    conversation_history
      (load_conversation_history
         (set_chats (Demo.store [])
            [ {| chat_user_id := 7; chat_query := "find python developers";
                 chat_query_type := "cv_search";
                 chat_response_text := "Ada fits."; chat_cv_results := None |};
              {| chat_user_id := 9; chat_query := "hello";
                 chat_query_type := "general_chat";
                 chat_response_text := "Hi there!"; chat_cv_results := None |} ])
         (new_assistant 7))
    = (before ++ [ {| role := User; content := "find python developers" |};
                   {| role := Assistant; content := "Ada fits." |} ])%list.
Proof.
  apply (load_conversation_history_resumes
           (set_chats (Demo.store []) _) (new_assistant 7)
           {| chat_user_id := 7; chat_query := "find python developers";
              chat_query_type := "cv_search";
              chat_response_text := "Ada fits."; chat_cv_results := None |}
           [ {| chat_user_id := 9; chat_query := "hello";
                chat_query_type := "general_chat";
                chat_response_text := "Hi there!"; chat_cv_results := None |} ]);
    reflexivity.
Defined.

(** The summary of Bob is embedded again for owner 7, as row 5. *)
Lemma process_and_store_cv_outcome_witness :
  let outcome :=
    process_and_store_cv Demo.py_str Demo.get_embedding (Demo.store []) 7 2
      Demo.bob 5 50 in
  (fst outcome = true ->
   exists embedding_text embedding,
     create_embedding_text Demo.py_str Demo.bob = Ok embedding_text
     /\ embedding_text <> no_information
     /\ Demo.get_embedding embedding_text = Ok embedding
     /\ snd outcome
        = set_cv_embeddings (Demo.store [])
            (cv_embeddings (Demo.store [])
             ++ [ {| emb_id := 5; emb_cv_id := 2; emb_user_id := 7;
                     emb_embedding := embedding;
                     emb_embedding_text := embedding_text;
                     emb_created_at := 50 |} ]))
  /\ (fst outcome = false -> snd outcome = Demo.store [])
  /\ (forall other, other <> 7 ->
                    same_owner_view other (Demo.store []) (snd outcome)).
Proof.
  apply (process_and_store_cv_outcome Demo.py_str Demo.get_embedding
           (Demo.store []) 7 2 Demo.bob 5 50).
  discriminate.
Defined.

Lemma process_and_store_cv_then_found_witness :
  let w' :=
    snd (process_and_store_cv Demo.py_str Demo.get_embedding (Demo.store []) 7 2
           Demo.bob 5 50) in
  exists rows found,
    DatabaseManager.get_user_embeddings w' 7 = Ok rows
    /\ In found rows
    /\ ue_cv_id found = 2
    /\ ue_filename found = "bob.pdf"
    /\ create_embedding_text Demo.py_str Demo.bob = Ok (ue_embedding_text found).
Proof.
  apply (process_and_store_cv_then_found Demo.py_str Demo.get_embedding
           (Demo.store []) 7 2 Demo.bob 5 50
           (Demo.cv 2 7 "bob.pdf" "Bob" Demo.bob)).
  - discriminate.
  - right. now left.
  - reflexivity.
  - reflexivity.
Defined.

(** The vector of Bob is deleted and his summary embedded again. *)
Lemma reembedding_leaves_one_vector_witness :
  let w1 :=
    set_cv_embeddings (Demo.store [])
      [ Demo.emb 1 1 7 [1; 0]%Q "Name: Ada | Skills: Python SQL" 10;
        Demo.emb 3 3 7 [3 # 5; 4 # 5]%Q "Cy, Python and Java" 30;
        Demo.emb 4 4 9 [1; 0]%Q "Name: Dee" 40 ] in
  let w2 :=
    snd (process_and_store_cv Demo.py_str Demo.get_embedding w1 7 2
           Demo.bob 5 50) in
  List.length
    (filter (fun e => (emb_cv_id e =? 2) && (emb_user_id e =? 7))
            (cv_embeddings w2)) = 1%nat.
Proof.
  apply (reembedding_leaves_one_vector Demo.py_str Demo.get_embedding
           (Demo.store []) _ 7 2 Demo.bob 5 50).
  - discriminate.
  - reflexivity.
  - reflexivity.
Defined.


(** The generator's answer stops before the object is closed. *)
Lemma summarize_cv_unclosed_raises_witness :
  summarize_cv Demo.py_str true Demo.json_loads "Ada, BSc, Python"
    (Demo.store [Demo.tags; Demo.tags; Demo.answer "{Name: Ada, Skills: [Python"])
  = (Raise ValueError, Demo.store []).
Proof.
  apply (summarize_cv_unclosed_raises Demo.py_str true Demo.json_loads
           "Ada, BSc, Python" "{Name: Ada, Skills: [Python"
           (Demo.store [Demo.tags; Demo.tags;
                        Demo.answer "{Name: Ada, Skills: [Python"])
           (Demo.store []));
    reflexivity.
Defined.

(** Two pages with text around a page without. *)
Lemma extract_text_from_pdf_stripped_witness :
  let text := "Ada" ++ nl ++ "Python" in
  PyStr.strip text = text
  /\ PyStr.truthy text = negb (PyStr.all_space text)
  /\ exists pages,
       Ok [Ok (Some "  Ada"); Ok None; Ok (Some "Python ")] = Ok pages
       /\ Forall (fun page : result (option string) => exists t, page = Ok t)
                 pages.
Proof.
  apply (extract_text_from_pdf_stripped Demo.get_embedding
           (Ok [Ok (Some "  Ada"); Ok None; Ok (Some "Python ")])
           ("Ada" ++ nl ++ "Python")).
  reflexivity.
Defined.

(** Owner 7 deletes the profile of Ada. *)
Lemma delete_cv_forgets_witness :
  DatabaseManager.get_cv_by_id (Demo.store_without_ada []) 1 7 = Ok None
  /\ (forall q k r,
        In r (demo_search_user_cvs (Demo.store_without_ada []) 7 q k) ->
        sr_cv_id r <> 1)
  /\ (true = true <->
      List.length (filter (fun c => (cv_id c =? 1) && (cv_user_id c =? 7))
                          (cvs (Demo.store []))) = 1%nat).
Proof.
  apply (delete_cv_forgets Demo.get_embedding Demo.cosine_similarity
           (Demo.store []) (Demo.store_without_ada []) 1 7 true).
  reflexivity.
Defined.

(** ... and owner 9 has what they had. *)
Lemma delete_cv_other_owner_witness :
  (forall id', DatabaseManager.get_cv_by_id (Demo.store_without_ada []) id' 9
               = DatabaseManager.get_cv_by_id (Demo.store []) id' 9)
  /\ forall q k,
       demo_search_user_cvs (Demo.store_without_ada []) 9 q k
       = demo_search_user_cvs (Demo.store []) 9 q k.
Proof.
  destruct (delete_cv_other_owner Demo.get_embedding Demo.cosine_similarity
              (Demo.store []) (Demo.store_without_ada []) 1 7 9 true)
    as [Hload Hsearch].
  - discriminate.
  - reflexivity.
  - split; [exact Hload|]. apply Hsearch.
    intros e [<-|[<-|[<-|[<-|[]]]]]; simpl; intros Ho; discriminate.
Defined.

(** The endpoint with the stand-in collaborators. *)
Local Abbreviation demo_query_cvs :=
  (query_cvs Demo.py_str Demo.get_embedding Demo.cosine_similarity true).

Lemma query_cvs_blank_witness :
  demo_query_cvs "   " 7 (Demo.store [Demo.tags])
  = (HTTPException 400, Demo.store [Demo.tags]).
Proof.
  apply (query_cvs_blank Demo.py_str Demo.get_embedding Demo.cosine_similarity
           true "   " 7 (Demo.store [Demo.tags])).
  reflexivity.
Defined.

(** Owner 8 has no profile. *)
Lemma query_cvs_no_results_witness :
  demo_query_cvs "find python developers" 8 (Demo.store [Demo.tags])
  = (HTTPException 500, Demo.store [Demo.tags]).
Proof.
  apply (query_cvs_no_results Demo.py_str Demo.get_embedding
           Demo.cosine_similarity true "find python developers" 8
           (Demo.store [Demo.tags]));
    reflexivity.
Defined.

(** Owner 7 gets an answer and three matches. *)
Lemma query_cvs_returned_witness :
  let w := Demo.store [Demo.tags; Demo.tags; Demo.answer "Ada fits."] in
  match fst (demo_query_cvs "find python developers" 7 w) with
  | Returned body =>
      qr_response_text body = "Ada fits."
      /\ qr_query_type body = "cv_search"
      /\ 1 <= qr_total_matches body <= 10
      /\ Z.of_nat (List.length (qr_results body)) <= qr_total_matches body
  | HTTPException _ => False
  end.
Proof.
  cbv zeta.
  destruct (demo_query_cvs "find python developers" 7
              (Demo.store [Demo.tags; Demo.tags; Demo.answer "Ada fits."]))
    as [[body|code] w'] eqn:E; cbn [fst].
  - destruct (query_cvs_returned Demo.py_str Demo.get_embedding
                Demo.cosine_similarity true "find python developers" 7
                (Demo.store [Demo.tags; Demo.tags; Demo.answer "Ada fits."])
                w' body E)
      as (_ & Htext & Htype & Hcount & Hlen).
    vm_compute in Htext. injection Htext as Htext.
    repeat split; auto; apply Hcount.
  - vm_compute in E. discriminate.
Defined.

(** Two questions and two answers: the second question is what the
    generator is asked. *)
Lemma run_llama_with_history_last_user_witness :
  run_llama_with_history Demo.py_str true
    [ {| role := User; content := "find python developers" |};
      {| role := Assistant; content := "Ada fits." |};
      {| role := User; content := "and java?" |};
      {| role := Assistant; content := "Bob." |} ]
    "llama3.2:3b"
  = demo_run_llama "and java?" "llama3.2:3b" 600 (7 # 10).
Proof.
  apply (run_llama_with_history_last_user Demo.py_str true
           [ {| role := User; content := "find python developers" |};
             {| role := Assistant; content := "Ada fits." |} ]
           [ {| role := Assistant; content := "Bob." |} ]
           "and java?" "llama3.2:3b").
  repeat constructor.
Defined.

(** An encoder that tells Python from Java, behind the wrapper. *)
Lemma search_ignores_surrounding_space_witness :
  EmbeddingModel.get_embedding (Ok Demo.get_embedding) "  python developers "
  = EmbeddingModel.get_embedding (Ok Demo.get_embedding) "python developers"
  /\ search_user_cvs (EmbeddingModel.get_embedding (Ok Demo.get_embedding))
       Demo.cosine_similarity (Demo.store []) 7 "  python developers " 3
     = search_user_cvs (EmbeddingModel.get_embedding (Ok Demo.get_embedding))
         Demo.cosine_similarity (Demo.store []) 7 "python developers" 3.
Proof.
  destruct (search_ignores_surrounding_space (Ok Demo.get_embedding)
              Demo.cosine_similarity (Demo.store []) 7
              "  " "python developers" " " 3 eq_refl eq_refl)
    as (Hembedding & Hsearch & _).
  split; [exact Hembedding|exact Hsearch].
Defined.

(** "find top 25 python developers": the count is capped at 10, and the
    three candidates of owner 7 are fewer than ten. *)
Lemma result_count_range_witness :
  0 <= extract_cv_count "find top 25 python developers" <= 10
  /\ 0 <= extract_cv_count_from_query "find top 25 python developers" <= 10
  /\ (List.length
        (demo_search_user_cvs (Demo.store []) 7 "find top 25 python developers"
           (extract_cv_count "find top 25 python developers")) <= 10)%nat.
Proof.
  apply (result_count_range Demo.get_embedding Demo.cosine_similarity
           "find top 25 python developers" (Demo.store []) 7).
  unfold PyStr.int_max_str_digits. simpl. lia.
Defined.

(** A record with an address and languages, an empty name and no
    skill. *)
Lemma format_cv_summary_empty_witness :
  format_cv_summary Demo.py_str
    (JDict [ ("Email", JStr "eve@example.org");
             ("Languages", JList [JStr "English"; JStr "French"]);
             ("Name", JStr ""); ("Skills", JList []) ]) 3
  = Ok ("CANDIDATE 3:" ++ nl).
Proof.
  apply (format_cv_summary_empty Demo.py_str
           [ ("Email", JStr "eve@example.org");
             ("Languages", JList [JStr "English"; JStr "French"]);
             ("Name", JStr ""); ("Skills", JList []) ] 3);
    reflexivity.
Defined.
